(** * Research portal: ingestion pipeline, search and question answering

    A shallow embedding of the storage module (class [DatabaseStorage]) and
    of the routes module ([registerRoutes], [processDocument]).

    - JavaScript strings are sequences of UTF-16 code units ([JS.str]).
    - The relational store is a record of tables, each a list of rows in heap
      order; every [await storage.x(...)] is one atomic step on it.
    - Handlers run in a small state-and-exception monad [M]; an exception
      keeps the writes made before it (the code never rolls back).
    - Everything answered by another system (the text-generation service, the
      PDF parser, the object store, the SQL text predicates, [JSON.parse], the
      clock) is a field of an environment record [Env].
    - What the database does with a text value it is asked to store is the
      module [Pg]: a NUL code unit is refused, half a surrogate pair is
      replaced. *)

From Stdlib Require Import String Ascii DecimalString.
From Stdlib Require Import Arith PeanoNat ZArith NArith Lia Bool.
From Stdlib Require Import List Sorted Permutation.
Import ListNotations.

Set Warnings "-register-all".

(* ------------------------------------------------------------------ *)
(** ** JavaScript strings *)

Module JS.

Definition char := N.
Definition str := list char.

Definition lit (s : string) : str := map N_of_ascii (list_ascii_of_string s).

Fixpoint eqb (a b : str) : bool :=
  match a, b with
  | [], [] => true
  | x :: a', y :: b' => N.eqb x y && eqb a' b'
  | _, _ => false
  end.

(** A string is truthy when it is not empty. *)
Definition truthy (s : str) : bool :=
  match s with [] => false | _ :: _ => true end.

(** [s.slice(a, b)] for 0 <= a, b: indices are clamped to the length and an
    inverted range is empty. *)
Definition slice (s : str) (a b : nat) : str := firstn (b - a) (skipn a s).

(** [s.slice(0, n)]. *)
Definition prefix (n : nat) (s : str) : str := slice s 0 n.

(** WhiteSpace and LineTerminator code units, the ones [trim] strips. *)
Definition is_space (c : char) : bool :=
  existsb (N.eqb c)
    [9; 10; 11; 12; 13; 32; 160; 5760; 8232; 8233; 8239; 8287; 12288; 65279]%N
  || (N.leb 8192 c && N.leb c 8202).

Fixpoint trimStart (s : str) : str :=
  match s with
  | c :: s' => if is_space c then trimStart s' else s
  | [] => []
  end.

Definition trim (s : str) : str := rev (trimStart (rev (trimStart s))).

Fixpoint startsWith (p s : str) : bool :=
  match p, s with
  | [], _ => true
  | x :: p', y :: s' => N.eqb x y && startsWith p' s'
  | _ :: _, [] => false
  end.

Fixpoint includes (s sub : str) : bool :=
  startsWith sub s ||
  match s with
  | [] => false
  | _ :: s' => includes s' sub
  end.

(** ASCII part of [toLowerCase]; code units outside A-Z are kept.  The one
    use compares the result with ASCII words that have no letter k, and
    there the full mapping gives the same verdict. *)
Definition lower (c : char) : char :=
  if N.leb 65 c && N.leb c 90 then (c + 32)%N else c.

Definition toLowerCase (s : str) : str := map lower s.

(** [String(n)] for a non-negative integer. *)
Definition ofNat (n : nat) : str := lit (NilEmpty.string_of_uint (Nat.to_uint n)).

(** [parts.join(sep)]. *)
Fixpoint join (sep : str) (parts : list str) : str :=
  match parts with
  | [] => []
  | [p] => p
  | p :: rest => p ++ sep ++ join sep rest
  end.

Fixpoint indexOf (c : char) (s : str) : option nat :=
  match s with
  | [] => None
  | x :: s' => if N.eqb x c then Some 0
               else match indexOf c s' with Some i => Some (S i) | None => None end
  end.

Fixpoint lastIndexOf (c : char) (s : str) : option nat :=
  match s with
  | [] => None
  | x :: s' => match lastIndexOf c s' with
               | Some i => Some (S i)
               | None => if N.eqb x c then Some 0 else None
               end
  end.

(** [s.match(/\{[\s\S]*\}/)]: the leftmost match starts at the first opening
    brace that has a closing brace after it, and the greedy star runs to the
    last closing brace of the text.  [None] is JavaScript's [null]. *)
Definition matchBraces (s : str) : option str :=
  match indexOf 123%N s with
  | None => None
  | Some i =>
      match lastIndexOf 125%N (skipn (S i) s) with
      | None => None
      | Some j => Some (slice s i (S i + S j))
      end
  end.

(** [Math.ceil(a / b)] for non-negative integers, b >= 1. *)
Definition ceilDiv (a b : nat) : nat := (a + (b - 1)) / b.

End JS.

Arguments JS.ceilDiv : simpl never.

Abbreviation str := JS.str.
Abbreviation lit := JS.lit.

(* ------------------------------------------------------------------ *)
(** ** Text values in the database

    The driver sends a string parameter to PostgreSQL as UTF-8.  A code unit
    that is one half of a surrogate pair without its other half has no UTF-8
    form and is sent as U+FFFD.  A NUL code unit is sent as it is, and the
    server refuses the statement: a text value cannot hold it. *)

Module Pg.

Definition isHigh (c : N) : bool := (N.leb 55296 c && N.leb c 56319)%N.

Definition isLow (c : N) : bool := (N.leb 56320 c && N.leb c 57343)%N.

Definition replacement : N := 65533%N.

(** The string as it comes back from a text column. *)
Fixpoint wellFormed (t : str) : str :=
  match t with
  | [] => []
  | c :: rest =>
      if isHigh c then
        match rest with
        | d :: rest' =>
            if isLow d then c :: d :: wellFormed rest'
            else replacement :: wellFormed rest
        | [] => [replacement]
        end
      else if isLow c then replacement :: wellFormed rest
      else c :: wellFormed rest
  end.

Definition storable (t : str) : bool := negb (existsb (N.eqb 0) t).

(** Storing a text value: [None] when the statement is refused. *)
Definition text (t : str) : option str :=
  if storable t then Some (wellFormed t) else None.

(** The message of the error with which the statement is refused. *)
Definition invalidByteSequence : str :=
  lit "invalid byte sequence for encoding " ++ [34%N] ++ lit "UTF8" ++ [34%N]
  ++ lit ": 0x00".

End Pg.


(* ------------------------------------------------------------------ *)
(** ** Data model

    The rows of [@shared/schema], with the columns the two server files read
    and write.  A nullable column is an [option]. *)

Inductive Status := pending | processing | completed | failed.

Definition statusName (s : Status) : str :=
  match s with
  | pending => lit "pending"
  | processing => lit "processing"
  | completed => lit "completed"
  | failed => lit "failed"
  end.

Record Document := mkDocument {
  id : nat;
  title : str;
  originalFilename : str;
  filePath : str;
  fileSizeBytes : nat;
  fileType : str;
  processingStatus : Status;
  pageCount : option nat;
  fullText : option str;
  documentType : option str;
  aiSummary : option str;
  keyTopics : option (list str);
  sentiment : option str;
  errorMessage : option str;
  uploadDate : Z;
  processedDate : option Z
}.

Record DocumentPage := mkPage {
  pg_id : nat;
  pg_documentId : nat;
  pageNumber : nat;
  pageText : option str
}.

Record Embedding := mkEmbedding {
  emb_id : nat;
  emb_documentId : nat;
  emb_pageNumber : option nat;
  chunkText : str;
  chunkIndex : nat;
  tokenCount : option nat
}.

(** [Partial<Document>]: [None] leaves the column alone, [Some v] writes [v]
    (for a nullable column [Some None] writes NULL). *)
Record DocumentUpdate := mkUpdate {
  u_title : option str;
  u_originalFilename : option str;
  u_filePath : option str;
  u_fileSizeBytes : option nat;
  u_fileType : option str;
  u_processingStatus : option Status;
  u_pageCount : option (option nat);
  u_fullText : option (option str);
  u_documentType : option (option str);
  u_aiSummary : option (option str);
  u_keyTopics : option (option (list str));
  u_sentiment : option (option str);
  u_errorMessage : option (option str);
  u_uploadDate : option Z;
  u_processedDate : option (option Z)
}.

(** The update as the database takes it: every text value written goes
    through [Pg.text], and one refused value refuses the statement. *)
Definition storedColumn (c : option str) : option (option str) :=
  match c with
  | None => Some None
  | Some t => option_map Some (Pg.text t)
  end.

Definition storedNullable (c : option (option str)) : option (option (option str)) :=
  match c with
  | None => Some None
  | Some v => option_map Some (storedColumn v)
  end.

Fixpoint storedTexts (l : list str) : option (list str) :=
  match l with
  | [] => Some []
  | t :: rest =>
      match Pg.text t, storedTexts rest with
      | Some t', Some rest' => Some (t' :: rest')
      | _, _ => None
      end
  end.

Definition storedTopics (c : option (option (list str)))
    : option (option (option (list str))) :=
  match c with
  | None => Some None
  | Some None => Some (Some None)
  | Some (Some l) => option_map (fun l' => Some (Some l')) (storedTexts l)
  end.

Definition storedUpdate (u : DocumentUpdate) : option DocumentUpdate :=
  match storedColumn (u_title u), storedColumn (u_originalFilename u),
        storedColumn (u_filePath u), storedColumn (u_fileType u),
        storedNullable (u_fullText u), storedNullable (u_documentType u),
        storedNullable (u_aiSummary u), storedTopics (u_keyTopics u),
        storedNullable (u_sentiment u), storedNullable (u_errorMessage u) with
  | Some title', Some originalFilename', Some filePath', Some fileType',
    Some fullText', Some documentType', Some aiSummary', Some keyTopics',
    Some sentiment', Some errorMessage' =>
      Some {| u_title := title'; u_originalFilename := originalFilename';
              u_filePath := filePath'; u_fileSizeBytes := u_fileSizeBytes u;
              u_fileType := fileType'; u_processingStatus := u_processingStatus u;
              u_pageCount := u_pageCount u; u_fullText := fullText';
              u_documentType := documentType'; u_aiSummary := aiSummary';
              u_keyTopics := keyTopics'; u_sentiment := sentiment';
              u_errorMessage := errorMessage'; u_uploadDate := u_uploadDate u;
              u_processedDate := u_processedDate u |}
  | _, _, _, _, _, _, _, _, _, _ => None
  end.

Definition orKeep {A} (u : option A) (old : A) : A :=
  match u with Some v => v | None => old end.

Definition applyUpdate (u : DocumentUpdate) (d : Document) : Document :=
  {| id := id d;
     title := orKeep (u_title u) (title d);
     originalFilename := orKeep (u_originalFilename u) (originalFilename d);
     filePath := orKeep (u_filePath u) (filePath d);
     fileSizeBytes := orKeep (u_fileSizeBytes u) (fileSizeBytes d);
     fileType := orKeep (u_fileType u) (fileType d);
     processingStatus := orKeep (u_processingStatus u) (processingStatus d);
     pageCount := orKeep (u_pageCount u) (pageCount d);
     fullText := orKeep (u_fullText u) (fullText d);
     documentType := orKeep (u_documentType u) (documentType d);
     aiSummary := orKeep (u_aiSummary u) (aiSummary d);
     keyTopics := orKeep (u_keyTopics u) (keyTopics d);
     sentiment := orKeep (u_sentiment u) (sentiment d);
     errorMessage := orKeep (u_errorMessage u) (errorMessage d);
     uploadDate := orKeep (u_uploadDate u) (uploadDate d);
     processedDate := orKeep (u_processedDate u) (processedDate d) |}.

(** Values produced by [JSON.parse]. *)
Inductive json :=
| JNull
| JBool (b : bool)
| JNum (lexeme : str)
| JStr (s : str)
| JArr (items : list json)
| JObj (members : list (str * json)).

(** [obj.name]: [None] is [undefined]. *)
Fixpoint member (name : str) (ms : list (str * json)) : option json :=
  match ms with
  | [] => None
  | (k, v) :: rest =>
      (* a later duplicate key wins in JSON.parse *)
      match member name rest with
      | Some v' => Some v'
      | None => if JS.eqb k name then Some v else None
      end
  end.

Record QaHistory := mkQa {
  qa_question : str;
  qa_answer : option json;
  qa_citations : option json;
  qa_documentIds : list nat
}.

(** The tables.  [nextId] stands for the serial sequences. *)
Record Store := mkStore {
  documents : list Document;
  documentPages : list DocumentPage;
  embeddings : list Embedding;
  qaHistory : list QaHistory;
  nextId : nat
}.


(** Referential actions of the two foreign keys onto [documents.id]. *)
Inductive FkAction := Cascade | NoAction.

Record Schema := mkSchema {
  pagesOnDelete : FkAction;
  embeddingsOnDelete : FkAction
}.

(** Modelled from the spec: the table declarations of [@shared/schema] are
    not among the sources.  The data model states that a Document exclusively
    owns its Pages and Chunks (cascade delete), so both foreign keys are
    declared ON DELETE CASCADE. *)
Definition schema : Schema := mkSchema Cascade Cascade.

(** Every page and every chunk references an existing document. *)
Definition byId (i : nat) (d : Document) : bool := Nat.eqb (id d) i.

Definition hasId (ds : list Document) (i : nat) : bool := existsb (byId i) ds.

Definition hasDocument (s : Store) (i : nat) : bool := hasId (documents s) i.

Definition foreignKeysHold (s : Store) : Prop :=
  (forall p, In p (documentPages s) -> hasDocument s (pg_documentId p) = true) /\
  (forall e, In e (embeddings s) -> hasDocument s (emb_documentId e) = true).

(* ------------------------------------------------------------------ *)
(** ** The environment *)

(** The text of a generation request is a fixed template around the
    interpolated values; a request is kept as the template's name and those
    values. *)
Inductive Prompt :=
| DocumentAskPrompt (docTitle context question : str)
| CorpusAskPrompt (context question : str)
| ClassifyPrompt (docTitle preview : str).

Record GenRequest := mkGenRequest {
  model : str;
  max_tokens : nat;
  prompt : Prompt
}.

(** [anthropic.messages.create] either rejects, or resolves to a message
    whose first content block is a text block or is not. *)
Inductive GenOutcome :=
| GenThrows (message : str)
| GenNonText
| GenText (text : str).

(** [PDFParse]: the constructor, [getText] or [getInfo] throws; or both
    succeed with [textResult.text] (absent text is the empty string) and
    [info.total] (a falsy total is 0), and [destroy] then succeeds or throws. *)
Inductive PdfOutcome :=
| PdfThrows
| PdfParsed (text : str) (total : nat) (destroyed : bool).

(** Reading a file from the object store. *)
Inductive Fetched :=
| FetchError (message : str)
| FetchOk (bytes : list N).

Record Env := mkEnv {
  (** [to_tsvector('english', text) @@ plainto_tsquery('english', query)] *)
  fts_match : str -> str -> bool;
  (** [text ILIKE pattern] *)
  ilike : str -> str -> bool;
  messages_create : GenRequest -> GenOutcome;
  PDFParse : list N -> PdfOutcome;
  objectFile : str -> Fetched;
  JSON_parse : str -> option json;
  (** [new Date()] *)
  now : Z
}.

(* ------------------------------------------------------------------ *)
(** ** Handlers as state-and-exception computations *)

Record Filters := mkFilters {
  f_type : option str;
  f_status : option str;
  f_search : option str
}.

Definition noFilters : Filters := mkFilters None None None.

(** What a handler did besides touching the tables. *)
Inductive Event :=
| EvGenerate (r : GenRequest)
| EvSearchEmbeddings (query : str) (limit : nat)
| EvGetDocuments (f : Filters)
| EvSpawnProcess (documentId : nat).

Record World := mkWorld {
  store : Store;
  trace : list Event
}.

Inductive Outcome (A : Type) :=
| Ok (a : A)
| Throw (message : str).
Arguments Ok {A} a.
Arguments Throw {A} message.

Definition M (A : Type) : Type := World -> Outcome A * World.

Definition ret {A} (a : A) : M A := fun w => (Ok a, w).

Definition bind {A B} (m : M A) (k : A -> M B) : M B :=
  fun w => match m w with
           | (Ok a, w') => k a w'
           | (Throw e, w') => (Throw e, w')
           end.

Definition throw {A} (message : str) : M A := fun w => (Throw message, w).

(** [try { body } catch (error) { handler(error.message) }] *)
Definition tryCatch {A} (body : M A) (handler : str -> M A) : M A :=
  fun w => match body w with
           | (Ok a, w') => (Ok a, w')
           | (Throw e, w') => handler e w'
           end.

Definition getStore : M Store := fun w => (Ok (store w), w).

Definition setStore (s : Store) : M unit :=
  fun w => (Ok tt, mkWorld s (trace w)).

Definition emit (e : Event) : M unit :=
  fun w => (Ok tt, mkWorld (store w) (trace w ++ [e])).

Declare Scope js_scope.
Delimit Scope js_scope with js.
Notation "x <- m ;; k" := (bind m (fun x => k))
  (at level 100, m at next level, right associativity) : js_scope.
Notation "m ;; k" := (bind m (fun _ => k))
  (at level 100, right associativity) : js_scope.
Open Scope js_scope.

(** [await Promise.all(xs.map(f))] with the calls run in order. *)
Fixpoint mapM {A B} (f : A -> M B) (xs : list A) : M (list B) :=
  match xs with
  | [] => ret []
  | x :: rest => y <- f x ;; ys <- mapM f rest ;; ret (y :: ys)
  end.

(** [ORDER BY]: a stable insertion sort; [before x y] says that [x] may stand
    in front of [y].  Rows with equal keys keep their heap order. *)
Fixpoint insertBy {A} (before : A -> A -> bool) (x : A) (l : list A) : list A :=
  match l with
  | [] => [x]
  | y :: l' => if before x y then x :: l else y :: insertBy before x l'
  end.

Definition orderBy {A} (before : A -> A -> bool) (l : list A) : list A :=
  fold_right (insertBy before) [] l.

(* ------------------------------------------------------------------ *)
(** ** [DatabaseStorage] *)

Section Server.

Variable E : Env.

(** [`%${q}%`] *)
Definition containsPattern (q : str) : str := lit "%" ++ q ++ lit "%".

Definition docMatches (f : Filters) (d : Document) : bool :=
  (match f_type f with
   | Some t =>
       if JS.truthy t && negb (JS.eqb t (lit "all"))
       then match documentType d with Some x => JS.eqb x t | None => false end
       else true
   | None => true
   end)
  && (match f_status f with
      | Some t =>
          if JS.truthy t && negb (JS.eqb t (lit "all"))
          then JS.eqb (statusName (processingStatus d)) t
          else true
      | None => true
      end)
  && (match f_search f with
      | Some q =>
          if JS.truthy q
          then ilike E (title d) (containsPattern q)
               || ilike E (originalFilename d) (containsPattern q)
          else true
      | None => true
      end).

Definition newerFirst (x y : Document) : bool := (uploadDate y <=? uploadDate x)%Z.

Definition getDocuments (f : Filters) : M (list Document) :=
  emit (EvGetDocuments f) ;;
  s <- getStore ;;
  ret (orderBy newerFirst (filter (docMatches f) (documents s))).

Definition getDocument (i : nat) : M (option Document) :=
  s <- getStore ;;
  ret (find (byId i) (documents s)).

Definition updateRows (i : nat) (u : DocumentUpdate) (ds : list Document) : list Document :=
  map (fun d => if byId i d then applyUpdate u d else d) ds.

(** [UPDATE documents SET ... WHERE id = i RETURNING *]: refused, whatever
    the rows, when a text value written holds a NUL. *)
Definition updateDocument (i : nat) (u : DocumentUpdate) : M (option Document) :=
  match storedUpdate u with
  | None => throw Pg.invalidByteSequence
  | Some values =>
      s <- getStore ;;
      let ds := updateRows i values (documents s) in
      setStore (mkStore ds (documentPages s) (embeddings s) (qaHistory s) (nextId s)) ;;
      ret (find (byId i) ds)
  end.

Definition ofDocument (i : nat) (owner : nat) : bool := Nat.eqb owner i.

(** [DELETE FROM documents WHERE id = i] under a schema: a referencing row
    is removed with its document when the key cascades, and makes the
    statement fail when it does not. *)
Definition deleteDocumentUnder (sc : Schema) (i : nat) : M unit :=
  s <- getStore ;;
  if negb (hasDocument s i) then ret tt else
  let ownPage := fun p => ofDocument i (pg_documentId p) in
  let ownChunk := fun e => ofDocument i (emb_documentId e) in
  let blocked :=
    (match pagesOnDelete sc with
     | NoAction => existsb ownPage (documentPages s) | Cascade => false end)
    || (match embeddingsOnDelete sc with
        | NoAction => existsb ownChunk (embeddings s) | Cascade => false end) in
  if blocked then throw (lit "update or delete violates foreign key constraint") else
  setStore (mkStore
    (filter (fun d => negb (byId i d)) (documents s))
    (filter (fun p => negb (ownPage p)) (documentPages s))
    (filter (fun e => negb (ownChunk e)) (embeddings s))
    (qaHistory s) (nextId s)).

Definition deleteDocument (i : nat) : M unit := deleteDocumentUnder schema i.

(** [WHERE document_id = i] on the two owned tables. *)
Definition pagesOf (s : Store) (i : nat) : list DocumentPage :=
  filter (fun p => ofDocument i (pg_documentId p)) (documentPages s).

Definition chunksOf (s : Store) (i : nat) : list Embedding :=
  filter (fun e => ofDocument i (emb_documentId e)) (embeddings s).

Definition orderedPages (s : Store) (i : nat) : list DocumentPage :=
  orderBy (fun x y => Nat.leb (pageNumber x) (pageNumber y)) (pagesOf s i).

Definition getDocumentPages (i : nat) : M (list DocumentPage) :=
  s <- getStore ;;
  ret (orderedPages s i).

(** [INSERT INTO document_pages ... RETURNING *]: the row holds the page
    text as the database stores it, and nothing is inserted when the text is
    refused. *)
Definition createDocumentPage (documentId pageNo : nat) (text : str) : M DocumentPage :=
  match Pg.text text with
  | None => throw Pg.invalidByteSequence
  | Some stored =>
      s <- getStore ;;
      let row := mkPage (nextId s) documentId pageNo (Some stored) in
      setStore (mkStore (documents s) (documentPages s ++ [row]) (embeddings s)
                  (qaHistory s) (S (nextId s))) ;;
      ret row
  end.

Definition deleteDocumentPages (i : nat) : M unit :=
  s <- getStore ;;
  setStore (mkStore (documents s)
              (filter (fun p => negb (ofDocument i (pg_documentId p))) (documentPages s))
              (embeddings s) (qaHistory s) (nextId s)).

Definition getEmbeddings (i : nat) : M (list Embedding) :=
  s <- getStore ;;
  ret (orderBy (fun x y => Nat.leb (chunkIndex x) (chunkIndex y)) (chunksOf s i)).

(** [INSERT INTO embeddings ... RETURNING *], likewise. *)
Definition createEmbedding (documentId pageNo : nat) (text : str)
    (index tokens : nat) : M Embedding :=
  match Pg.text text with
  | None => throw Pg.invalidByteSequence
  | Some stored =>
      s <- getStore ;;
      let row :=
        mkEmbedding (nextId s) documentId (Some pageNo) stored index (Some tokens) in
      setStore (mkStore (documents s) (documentPages s) (embeddings s ++ [row])
                  (qaHistory s) (S (nextId s))) ;;
      ret row
  end.

(** The full-text query, and when it finds nothing the ILIKE query. *)
Definition fullTextRows (s : Store) (query : str) (limit : nat) : list Embedding :=
  firstn limit (filter (fun e => fts_match E (chunkText e) query) (embeddings s)).

Definition substringRows (s : Store) (query : str) (limit : nat) : list Embedding :=
  firstn limit
    (filter (fun e => ilike E (chunkText e) (containsPattern query)) (embeddings s)).

Definition searchEmbeddings (query : str) (limit : nat) : M (list Embedding) :=
  emit (EvSearchEmbeddings query limit) ;;
  s <- getStore ;;
  let results := fullTextRows s query limit in
  if Nat.ltb 0 (length results) then ret results
  else ret (substringRows s query limit).

Definition deleteDocumentEmbeddings (i : nat) : M unit :=
  s <- getStore ;;
  setStore (mkStore (documents s) (documentPages s)
              (filter (fun e => negb (ofDocument i (emb_documentId e))) (embeddings s))
              (qaHistory s) (nextId s)).

Definition createQaHistory (qa : QaHistory) : M unit :=
  s <- getStore ;;
  setStore (mkStore (documents s) (documentPages s) (embeddings s)
              (qaHistory s ++ [qa]) (nextId s)).

(* ------------------------------------------------------------------ *)
(** ** [registerRoutes] *)

Record Response := mkResponse {
  status : nat;
  body : option json
}.

(** [res.json(j)] and [res.status(n).json({ error })]. *)
Definition sendJson (j : json) : M Response := ret (mkResponse 200 (Some j)).

Definition sendError (code : nat) (message : string) : M Response :=
  ret (mkResponse code (Some (JObj [(lit "error", JStr (lit message))]))).

Definition jnum (n : nat) : json := JNum (JS.ofNat n).

Definition answerObject (answer : str) (extra : list (str * json)) : json :=
  JObj ((lit "answer", JStr answer) :: (lit "citations", JArr []) :: extra).

Definition messagesCreate (r : GenRequest) : M (option str) :=
  emit (EvGenerate r) ;;
  match messages_create E r with
  | GenThrows message => throw message
  | GenNonText => ret None
  | GenText text => ret (Some text)
  end.

(** [message.content[0]], which must be a text block. *)
Definition textContent (r : GenRequest) : M str :=
  content <- messagesCreate r ;;
  match content with
  | Some text => ret text
  | None => throw (lit "Unexpected response type")
  end.

Definition jsonParse (text : str) : M json :=
  match JSON_parse E text with
  | Some j => ret j
  | None => throw (lit "Unexpected token in JSON")
  end.

(** [value.name] *)
Definition property (name : string) (value : json) : M (option json) :=
  match value with
  | JNull => throw (lit "Cannot read properties of null")
  | JObj members => ret (member (lit name) members)
  | _ => ret None
  end.

Definition textOf (t : option str) : option str :=
  match t with
  | Some x => if JS.truthy x then Some x else None
  | None => None
  end.

Definition contextBudget : nat := 50 * 1000.

Definition separator : str := lit "

---

".

Fixpoint mapiFrom {A B} (i : nat) (f : nat -> A -> B) (l : list A) : list B :=
  match l with
  | [] => []
  | x :: rest => f i x :: mapiFrom (S i) f rest
  end.

(** [Array.from(new Set(xs))]: first occurrences, in order. *)
Fixpoint dedupe (seen xs : list nat) : list nat :=
  match xs with
  | [] => []
  | x :: rest =>
      if existsb (Nat.eqb x) seen then dedupe seen rest
      else x :: dedupe (x :: seen) rest
  end.

(** DELETE /api/documents/:id *)
Definition deleteRoute (i : nat) : M Response :=
  tryCatch
    (deleteDocument i ;;
     ret (mkResponse 204 None))
    (fun _ => sendError 500 "Failed to delete document").

Definition resetUpdate : DocumentUpdate :=
  {| u_title := None; u_originalFilename := None; u_filePath := None;
     u_fileSizeBytes := None; u_fileType := None;
     u_processingStatus := Some pending;
     u_pageCount := None;
     u_fullText := Some None;
     u_documentType := None;
     u_aiSummary := Some None;
     u_keyTopics := Some None;
     u_sentiment := Some None;
     u_errorMessage := Some None;
     u_uploadDate := None; u_processedDate := None |}.

(** POST /api/documents/:id/reprocess.  [processDocument(id)] is started and
    not awaited: the handler records the start and answers. *)
Definition reprocessRoute (i : nat) : M Response :=
  tryCatch
    (document <- getDocument i ;;
     match document with
     | None => sendError 404 "Document not found"
     | Some _ =>
         deleteDocumentPages i ;;
         deleteDocumentEmbeddings i ;;
         updateDocument i resetUpdate ;;
         emit (EvSpawnProcess i) ;;
         sendJson (JObj [(lit "message", JStr (lit "Document reprocessing started"));
                         (lit "documentId", jnum i)])
     end)
    (fun _ => sendError 500 "Failed to reprocess document").

Definition pageBlock (p : DocumentPage) : str :=
  lit "[Page " ++ JS.ofNat (pageNumber p) ++ lit "]" ++ [10%N]
  ++ match pageText p with Some t => t | None => lit "null" end.

Definition hasText (p : DocumentPage) : bool :=
  match textOf (pageText p) with Some _ => true | None => false end.

Definition documentContext (pagesWithText : list DocumentPage) : str :=
  JS.prefix contextBudget (JS.join separator (map pageBlock pagesWithText)).

Definition documentRequest (document : Document) (context question : str) : GenRequest :=
  mkGenRequest (lit "claude-sonnet-4-5") 2048
    (DocumentAskPrompt (title document) context question).

(** From the generation call to the response of the document-scoped ask. *)
Definition answerFromPages (document : Document) (pagesWithText : list DocumentPage)
    (question : str) : M Response :=
  text <- textContent (documentRequest document (documentContext pagesWithText) question) ;;
  match JS.matchBraces text with
  | None => sendJson (answerObject text [])
  | Some jsonMatch => parsed <- jsonParse jsonMatch ;; sendJson parsed
  end.

(** POST /api/documents/:id/ask *)
Definition documentAskRoute (i : nat) (question : str) : M Response :=
  tryCatch
    (if negb (JS.truthy question) then sendError 400 "Question is required" else
     document <- getDocument i ;;
     match document with
     | None => sendError 404 "Document not found"
     | Some document =>
         pages <- getDocumentPages i ;;
         let pagesWithText := filter hasText pages in
         if Nat.eqb (length pagesWithText) 0 then
           sendJson (answerObject
             (lit "No text content available in this document to answer your question.") [])
         else answerFromPages document pagesWithText question
     end)
    (fun _ => sendError 500 "Failed to answer question").

Definition orNull (t : option str) : json :=
  match textOf t with Some x => JStr x | None => JNull end.

Definition searchResult (documentId : nat) (docTitle : str) (docType : option str)
    (pageNo : json) (text : str) : json :=
  JObj [(lit "documentId", jnum documentId);
        (lit "documentTitle", JStr docTitle);
        (lit "documentType", orNull docType);
        (lit "pageNumber", pageNo);
        (lit "chunkText", JStr text);
        (lit "score", jnum 1)].

Definition searchEnvelope (results : list json) : json :=
  JObj [(lit "results", JArr results); (lit "total", jnum (length results))].

(** One pseudo-result of the title fallback. *)
Definition titleResult (doc : Document) : M json :=
  pages <- getDocumentPages (id doc) ;;
  let firstPage :=
    match pages with p :: _ => textOf (option_map (JS.prefix 300) (pageText p)) | [] => None end in
  let preview :=
    match firstPage with
    | Some t => t
    | None =>
        match textOf (option_map (JS.prefix 300) (fullText doc)) with
        | Some t => t
        | None => lit "No preview available"
        end
    end in
  ret (searchResult (id doc) (title doc) (documentType doc) (jnum 1) preview).

(** One result of the chunk search. *)
Definition chunkResult (emb : Embedding) : M json :=
  doc <- getDocument (emb_documentId emb) ;;
  let docTitle :=
    match textOf (option_map title doc) with Some t => t | None => lit "Unknown" end in
  let docType := match doc with Some d => documentType d | None => None end in
  let pageNo := match emb_pageNumber emb with Some n => jnum n | None => JNull end in
  ret (searchResult (emb_documentId emb) docTitle docType pageNo (chunkText emb)).

(** POST /api/search *)
Definition searchRoute (query : str) : M Response :=
  tryCatch
    (if negb (JS.truthy query) then sendError 400 "Query is required" else
     found <- searchEmbeddings query 20 ;;
     if Nat.eqb (length found) 0 then
       allDocs <- getDocuments (mkFilters None None (Some query)) ;;
       results <- mapM titleResult (firstn 10 allDocs) ;;
       sendJson (searchEnvelope results)
     else
       results <- mapM chunkResult found ;;
       sendJson (searchEnvelope results))
    (fun _ => sendError 500 "Failed to search documents").

(** An entry of [allContent] / [chunksWithDocs]. *)
Record Source := mkSource {
  src_documentId : nat;
  src_documentTitle : str;
  src_pageNumber : option nat;
  src_chunkText : str
}.

(** The body of the loop over the listed documents: the pages that have
    text, and the full text when the document has no page at all. *)
Definition sourcesOf (doc : Document) (pages : list DocumentPage) : list Source :=
  flat_map (fun page =>
              match textOf (pageText page) with
              | Some t => [mkSource (id doc) (title doc) (Some (pageNumber page)) t]
              | None => []
              end) pages
  ++ (if Nat.eqb (length pages) 0 then
        match textOf (fullText doc) with
        | Some t => [mkSource (id doc) (title doc) (Some 1) t]
        | None => []
        end
      else []).

Definition documentSources (doc : Document) : M (list Source) :=
  pages <- getDocumentPages (id doc) ;;
  ret (sourcesOf doc pages).

Definition recentLimit : nat := 5.

Definition collectContent (allDocs : list Document) : M (list Source) :=
  perDoc <- mapM documentSources (firstn recentLimit allDocs) ;;
  ret (concat perDoc).

(** [`[Source ${i + 1}: ${title}, Page ${page}]\n${text}`] *)
Definition sourceBlock (pageLabel : option nat -> str) (i : nat) (c : Source) : str :=
  lit "[Source " ++ JS.ofNat (i + 1) ++ lit ": " ++ src_documentTitle c
  ++ lit ", Page " ++ pageLabel (src_pageNumber c) ++ lit "]" ++ [10%N]
  ++ src_chunkText c.

Definition pageLabelPlain (n : option nat) : str :=
  match n with Some k => JS.ofNat k | None => lit "null" end.

(** [c.pageNumber || "N/A"] *)
Definition pageLabelOrNA (n : option nat) : str :=
  match n with
  | Some 0 | None => lit "N/A"
  | Some k => JS.ofNat k
  end.

(** The context of the fallback branch. *)
Definition fallbackContext (allContent : list Source) : str :=
  JS.prefix contextBudget
    (JS.join separator (mapiFrom 0 (sourceBlock pageLabelPlain) allContent)).

(** The context of the branch that found chunks. *)
Definition chunkContext (chunksWithDocs : list Source) : str :=
  JS.join separator (mapiFrom 0 (sourceBlock pageLabelOrNA) chunksWithDocs).

Definition corpusRequest (context question : str) : GenRequest :=
  mkGenRequest (lit "claude-sonnet-4-5") 2048 (CorpusAskPrompt context question).

(** From the generation call to the recorded exchange; shared by the two
    branches of the corpus-wide ask. *)
Definition synthesize (context question : str) (consulted : list nat) : M Response :=
  text <- textContent (corpusRequest context question) ;;
  response <-
    match JS.matchBraces text with
    | Some jsonMatch => jsonParse jsonMatch
    | None => ret (answerObject text [(lit "insufficientEvidence", JBool false)])
    end ;;
  answer <- property "answer" response ;;
  citations <- property "citations" response ;;
  createQaHistory (mkQa question answer citations (dedupe [] consulted)) ;;
  sendJson response.

Definition insufficient (answer : string) : json :=
  answerObject (lit answer) [(lit "insufficientEvidence", JBool true)].

Definition chunkSource (chunk : Embedding) : M Source :=
  doc <- getDocument (emb_documentId chunk) ;;
  let docTitle :=
    match textOf (option_map title doc) with
    | Some t => t
    | None => lit "Unknown Document"
    end in
  ret (mkSource (emb_documentId chunk) docTitle (emb_pageNumber chunk) (chunkText chunk)).

(** POST /api/qa/ask *)
Definition qaAskRoute (question : str) : M Response :=
  tryCatch
    (if negb (JS.truthy question) then sendError 400 "Question is required" else
     relevantChunks <- searchEmbeddings question 10 ;;
     if Nat.eqb (length relevantChunks) 0 then
       allDocs <- getDocuments noFilters ;;
       if Nat.eqb (length allDocs) 0 then
         sendJson (insufficient
           "No documents have been uploaded yet. Please upload some documents first.")
       else
         allContent <- collectContent allDocs ;;
         if Nat.eqb (length allContent) 0 then
           sendJson (insufficient
             "I cannot answer this question - the documents appear to have no extractable text content.")
         else
           synthesize (fallbackContext allContent) question
             (map src_documentId allContent)
     else
       chunksWithDocs <- mapM chunkSource relevantChunks ;;
       synthesize (chunkContext chunksWithDocs) question
         (map src_documentId chunksWithDocs))
    (fun _ => sendError 500 "Failed to answer question").

(* ------------------------------------------------------------------ *)
(** ** [processDocument] *)

Definition pdfFailureText : str :=
  lit "Failed to extract PDF text. The document may be scanned or image-based.".

(** The page slices of a parsed PDF: [pageCount] slices of
    [ceil(length / pageCount)] code units. *)
Definition pdfSlices (extractedText : str) (pages : nat) : list str :=
  let charsPerPage := JS.ceilDiv (length extractedText) pages in
  map (fun i => JS.slice extractedText (i * charsPerPage)
                  (Nat.min ((i + 1) * charsPerPage) (length extractedText)))
      (seq 0 pages).

Record Extraction := mkExtraction {
  extractedText : str;
  ex_pageCount : nat;
  pageTexts : list str
}.

Definition extractPdf (o : PdfOutcome) : Extraction :=
  match o with
  | PdfThrows => mkExtraction pdfFailureText 1 [pdfFailureText]
  | PdfParsed text total destroyed =>
      let pages := if Nat.eqb total 0 then 1 else total in
      let slices := if Nat.ltb 0 (length text) then pdfSlices text pages else [] in
      if destroyed then mkExtraction text pages slices
      else mkExtraction pdfFailureText pages (slices ++ [pdfFailureText])
  end.

Definition placeholder (text : string) : Extraction :=
  mkExtraction (lit text) 1 [lit text].

Definition extract (mime : str) (fileBuffer : list N) : Extraction :=
  if JS.eqb mime (lit "application/pdf") then extractPdf (PDFParse E fileBuffer)
  else if JS.includes mime (lit "spreadsheet") || JS.includes mime (lit "excel")
  then placeholder "Excel/CSV content extraction not yet implemented."
  else if JS.includes mime (lit "image")
  then placeholder "Image OCR not yet implemented."
  else placeholder "Unsupported document type for text extraction.".

Definition chunkLimit : nat := 2000.

(** The loop over [pageTexts], from index [i] on. *)
Fixpoint indexPages (documentId i : nat) (texts : list str) : M unit :=
  match texts with
  | [] => ret tt
  | text :: rest =>
      (if JS.truthy (JS.trim text) then
         createDocumentPage documentId (i + 1) text ;;
         createEmbedding documentId (i + 1) (JS.prefix chunkLimit text) i
           (JS.ceilDiv (length text) 4) ;;
         ret tt
       else ret tt) ;;
      indexPages documentId (S i) rest
  end.

Definition validTypes : list str :=
  map lit ["annual_report"; "quarterly_earnings"; "concall_transcript";
           "industry_report"; "research_note"; "investor_presentation";
           "regulatory_filing"; "other"]%string.

(** Classification never fails the run: any exception leaves "other". *)
Definition classify (document : Document) (text : str) : M str :=
  tryCatch
    (content <- messagesCreate
       (mkGenRequest (lit "claude-haiku-4-5") 256
          (ClassifyPrompt (title document) (JS.prefix 2000 text))) ;;
     match content with
     | Some answer =>
         let classified := JS.trim (JS.toLowerCase answer) in
         if existsb (JS.eqb classified) validTypes then ret classified
         else ret (lit "other")
     | None => ret (lit "other")
     end)
    (fun _ => ret (lit "other")).

Definition statusUpdate (s : Status) : DocumentUpdate :=
  {| u_title := None; u_originalFilename := None; u_filePath := None;
     u_fileSizeBytes := None; u_fileType := None;
     u_processingStatus := Some s;
     u_pageCount := None; u_fullText := None; u_documentType := None;
     u_aiSummary := None; u_keyTopics := None; u_sentiment := None;
     u_errorMessage := None; u_uploadDate := None; u_processedDate := None |}.

Definition completedUpdate (x : Extraction) (docType : str) : DocumentUpdate :=
  {| u_title := None; u_originalFilename := None; u_filePath := None;
     u_fileSizeBytes := None; u_fileType := None;
     u_processingStatus := Some completed;
     u_pageCount := Some (Some (ex_pageCount x));
     u_fullText := Some (Some (extractedText x));
     u_documentType := Some (Some docType);
     u_aiSummary := None; u_keyTopics := None; u_sentiment := None;
     u_errorMessage := None; u_uploadDate := None;
     u_processedDate := Some (Some (now E)) |}.

Definition failedUpdate (message : str) : DocumentUpdate :=
  {| u_title := None; u_originalFilename := None; u_filePath := None;
     u_fileSizeBytes := None; u_fileType := None;
     u_processingStatus := Some failed;
     u_pageCount := None; u_fullText := None; u_documentType := None;
     u_aiSummary := None; u_keyTopics := None; u_sentiment := None;
     u_errorMessage := Some (Some message);
     u_uploadDate := None; u_processedDate := None |}.

Definition download (path : str) : M (list N) :=
  match objectFile E path with
  | FetchOk bytes => ret bytes
  | FetchError message => throw message
  end.

(** The body of the [try] up to, and without, the final update: [None] when
    the document row is gone. *)
Definition runPipeline (documentId : nat) : M (option (Extraction * str)) :=
  updateDocument documentId (statusUpdate processing) ;;
  document <- getDocument documentId ;;
  match document with
  | None => ret None
  | Some document =>
      fileBuffer <- download (filePath document) ;;
      let x := extract (fileType document) fileBuffer in
      indexPages documentId 0 (pageTexts x) ;;
      docType <- classify document (extractedText x) ;;
      ret (Some (x, docType))
  end.

Definition processDocument (documentId : nat) : M unit :=
  tryCatch
    (done <- runPipeline documentId ;;
     match done with
     | None => ret tt
     | Some (x, docType) =>
         updateDocument documentId (completedUpdate x docType) ;;
         ret tt
     end)
    (fun message =>
       updateDocument documentId (failedUpdate message) ;;
       ret tt).

(* ------------------------------------------------------------------ *)
(** ** More of [DatabaseStorage] and of the routes *)

Definition getDocumentPage (documentId pageNo : nat) : M (option DocumentPage) :=
  s <- getStore ;;
  ret (find (fun p => Nat.eqb (pg_documentId p) documentId && Nat.eqb (pageNumber p) pageNo)
            (documentPages s)).

Definition hasStatus (name : string) (d : Document) : bool :=
  JS.eqb (statusName (processingStatus d)) (lit name).

Record Stats := mkStats {
  totalDocuments : nat;
  processingDocuments : nat;
  completedDocuments : nat;
  failedDocuments : nat;
  recentDocuments : list Document
}.

Definition getDocumentStats : M Stats :=
  s <- getStore ;;
  let allDocs := documents s in
  let recentDocs := firstn 5 (orderBy newerFirst (documents s)) in
  ret (mkStats (length allDocs)
         (length (filter (hasStatus "processing") allDocs))
         (length (filter (hasStatus "completed") allDocs))
         (length (filter (hasStatus "failed") allDocs))
         recentDocs).

(** GET /api/documents/:id/status *)
Definition statusRoute (i : nat) : M Response :=
  tryCatch
    (document <- getDocument i ;;
     match document with
     | None => sendError 404 "Document not found"
     | Some document =>
         sendJson (JObj [(lit "processingStatus",
                          JStr (statusName (processingStatus document)));
                         (lit "errorMessage",
                          match errorMessage document with
                          | Some message => JStr message
                          | None => JNull
                          end)])
     end)
    (fun _ => sendError 500 "Failed to get document status").

(** The upload filter of multer. *)
Definition allowedTypes : list str :=
  map lit ["application/pdf";
           "application/vnd.openxmlformats-officedocument.spreadsheetml.sheet";
           "application/vnd.ms-excel";
           "application/vnd.openxmlformats-officedocument.wordprocessingml.document";
           "text/csv";
           "image/png";
           "image/jpeg"]%string.

Definition fileFilter (mimetype : str) : bool := existsb (JS.eqb mimetype) allowedTypes.

(** The title of an upload: the original name with the match of
    [/\.[^/.]+$/] replaced by the empty string.  The match, if any, starts at the
    last dot, which must be followed to the end of the name by at least one
    code unit, none of them a slash. *)
Definition titleOf (originalname : str) : str :=
  match JS.lastIndexOf 46%N originalname with
  | None => originalname
  | Some j =>
      let extension := skipn (S j) originalname in
      if JS.truthy extension && negb (existsb (N.eqb 47) extension)
      then firstn j originalname
      else originalname
  end.

End Server.

(* ------------------------------------------------------------------ *)
(** ** Vocabulary of the statements *)

Definition lookup (s : Store) (i : nat) : option Document :=
  find (byId i) (documents s).

(** A page text is indexed when something is left after trimming. *)
Definition nonBlank (text : str) : bool := JS.truthy (JS.trim text).

(** The non-blank page texts with their positions, counted from [i]. *)
Fixpoint indexedFrom (i : nat) (texts : list str) : list (nat * str) :=
  match texts with
  | [] => []
  | text :: rest =>
      (if nonBlank text then [(i, text)] else []) ++ indexedFrom (S i) rest
  end.

(** The loop gets past a page text that is blank, and so not written, or
    that the database takes. *)
Definition storableOrBlank (text : str) : bool := negb (nonBlank text) || Pg.storable text.

(** The page texts the loop gets past: those before the first one refused. *)
Fixpoint reached (texts : list str) : list str :=
  match texts with
  | [] => []
  | text :: rest => if storableOrBlank text then text :: reached rest else []
  end.

(** The database takes everything a run writes of this extraction. *)
Definition accepts (x : Extraction) : bool :=
  forallb storableOrBlank (pageTexts x) && Pg.storable (extractedText x).

(** The extraction with its text as the documents table returns it. *)
Definition asStored (x : Extraction) : Extraction :=
  mkExtraction (Pg.wellFormed (extractedText x)) (ex_pageCount x) (pageTexts x).

(** No code unit of the text is half of a surrogate pair. *)
Definition noSurrogate (text : str) : bool :=
  forallb (fun c => negb (Pg.isHigh c || Pg.isLow c)) text.

(** The page row and the chunk row written for a page text at a position. *)
Definition pageOf (documentId : nat) (it : nat * str) (p : DocumentPage) : Prop :=
  pg_documentId p = documentId
  /\ pageNumber p = fst it + 1
  /\ pageText p = Some (Pg.wellFormed (snd it)).

Definition chunkOf (documentId : nat) (it : nat * str) (e : Embedding) : Prop :=
  emb_documentId e = documentId
  /\ emb_pageNumber e = Some (fst it + 1)
  /\ chunkText e = Pg.wellFormed (JS.prefix chunkLimit (snd it))
  /\ chunkIndex e = fst it
  /\ tokenCount e = Some (JS.ceilDiv (length (snd it)) 4).

(** What a run will extract, read off the store it starts from: nothing when
    the row is missing or the file cannot be read. *)
Definition plannedExtraction (E : Env) (s : Store) (documentId : nat) : option Extraction :=
  match lookup s documentId with
  | Some d =>
      match objectFile E (filePath d) with
      | FetchOk bytes => Some (extract E (fileType d) bytes)
      | FetchError _ => None
      end
  | None => None
  end.

Definition plannedTexts (E : Env) (s : Store) (documentId : nat) : list str :=
  match plannedExtraction E s documentId with
  | Some x => pageTexts x
  | None => []
  end.

(** The columns that the reset of reprocess does not name. *)
Definition keepsOtherFields (old new : Document) : Prop :=
  id new = id old
  /\ title new = title old
  /\ originalFilename new = originalFilename old
  /\ filePath new = filePath old
  /\ fileSizeBytes new = fileSizeBytes old
  /\ fileType new = fileType old
  /\ pageCount new = pageCount old
  /\ documentType new = documentType old
  /\ uploadDate new = uploadDate old
  /\ processedDate new = processedDate old.

(** The columns that the reset clears. *)
Definition derivedFieldsCleared (d : Document) : Prop :=
  fullText d = None
  /\ aiSummary d = None
  /\ keyTopics d = None
  /\ sentiment d = None
  /\ errorMessage d = None.

(** The events a computation appended to the trace. *)
Definition eventsOf {A} (m : M A) (w : World) : list Event :=
  skipn (length (trace w)) (trace (snd (m w))).

Definition isGenerate (e : Event) : bool :=
  match e with EvGenerate _ => true | _ => false end.


(** What [searchEmbeddings] returns. *)
Definition found (E : Env) (s : Store) (query : str) (limit : nat) : list Embedding :=
  if Nat.ltb 0 (length (fullTextRows E s query limit))
  then fullTextRows E s query limit
  else substringRows E s query limit.

(** [chunkSource] as a function of the store. *)
Definition chunkSourceOf (s : Store) (chunk : Embedding) : Source :=
  mkSource (emb_documentId chunk)
    (match textOf (option_map title (lookup s (emb_documentId chunk))) with
     | Some t => t
     | None => lit "Unknown Document"
     end)
    (emb_pageNumber chunk) (chunkText chunk).

Definition failedToAnswer : Response :=
  mkResponse 500 (Some (JObj [(lit "error", JStr (lit "Failed to answer question"))])).

(** The world after the one generation call of the corpus-wide ask. *)
Definition generated (context question : str) (w : World) : World :=
  mkWorld (store w) (trace w ++ [EvGenerate (corpusRequest context question)]).

(** The answer substituted for a response without braces. *)
Definition plainAnswer (text : str) : json :=
  answerObject text [(lit "insufficientEvidence", JBool false)].

(** The world after the exchange is recorded. *)
Definition recorded (qa : QaHistory) (w : World) : World :=
  mkWorld (mkStore (documents (store w)) (documentPages (store w)) (embeddings (store w))
             (qaHistory (store w) ++ [qa]) (nextId (store w)))
          (trace w).

(** The listing of the fallback branch, its first five documents and what
    is read from them. *)
Definition listed (s : Store) : list Document := orderBy newerFirst (documents s).

Definition chosen (s : Store) : list Document := firstn recentLimit (listed s).

Definition contentOf (s : Store) : list Source :=
  concat (map (fun d => sourcesOf d (orderedPages s (id d))) (chosen s)).





(** The world after the two reads that open the fallback branch. *)
Definition searched (question : str) (w : World) : World :=
  mkWorld (store w)
    (trace w ++ [EvSearchEmbeddings question 10; EvGetDocuments noFilters]).


Definition classifyEvent (d : Document) (x : Extraction) : Event :=
  EvGenerate (mkGenRequest (lit "claude-haiku-4-5") 256
                (ClassifyPrompt (title d) (JS.prefix 2000 (extractedText x)))).

(* ------------------------------------------------------------------ *)
(** ** Reference instances of the environment

    Executable stand-ins used to run the handlers on concrete inputs. *)

Module Reference.

(** [JSON.parse] after ECMA-404. *)
Definition isWs (c : N) : bool :=
  N.eqb c 32 || N.eqb c 9 || N.eqb c 10 || N.eqb c 13.

Fixpoint skipWs (s : str) : str :=
  match s with
  | c :: s' => if isWs c then skipWs s' else s
  | [] => []
  end.

Definition isDigit (c : N) : bool := N.leb 48 c && N.leb c 57.

Definition hexValue (c : N) : option N :=
  if isDigit c then Some (c - 48)%N
  else if N.leb 97 c && N.leb c 102 then Some (c - 87)%N
  else if N.leb 65 c && N.leb c 70 then Some (c - 55)%N
  else None.

Definition hex4 (a b c d : N) : option N :=
  match hexValue a, hexValue b, hexValue c, hexValue d with
  | Some x, Some y, Some z, Some t => Some (((x * 16 + y) * 16 + z) * 16 + t)%N
  | _, _, _, _ => None
  end.

Definition simpleEscape (c : N) : option N :=
  if N.eqb c 34 || N.eqb c 92 || N.eqb c 47 then Some c
  else if N.eqb c 98 then Some 8%N
  else if N.eqb c 102 then Some 12%N
  else if N.eqb c 110 then Some 10%N
  else if N.eqb c 114 then Some 13%N
  else if N.eqb c 116 then Some 9%N
  else None.

(** The characters of a string after its opening quote. *)
Fixpoint stringBody (fuel : nat) (s acc : str) : option (str * str) :=
  match fuel with
  | 0 => None
  | S fuel' =>
      match s with
      | [] => None
      | c :: rest =>
          if N.eqb c 34 then Some (rev acc, rest)
          else if N.ltb c 32 then None
          else if N.eqb c 92 then
            match rest with
            | e :: rest' =>
                if N.eqb e 117 then
                  match rest' with
                  | h1 :: h2 :: h3 :: h4 :: rest'' =>
                      match hex4 h1 h2 h3 h4 with
                      | Some u => stringBody fuel' rest'' (u :: acc)
                      | None => None
                      end
                  | _ => None
                  end
                else match simpleEscape e with
                     | Some u => stringBody fuel' rest' (u :: acc)
                     | None => None
                     end
            | [] => None
            end
          else stringBody fuel' rest (c :: acc)
      end
  end.

Fixpoint digits (s acc : str) : str * str :=
  match s with
  | c :: rest => if isDigit c then digits rest (c :: acc) else (rev acc, s)
  | [] => (rev acc, [])
  end.

(** A number: optional minus, an integer part without a leading zero, an
    optional fraction, an optional exponent. *)
Definition fraction (s : str) : option (str * str) :=
  match s with
  | c :: r =>
      if N.eqb c 46 then
        match digits r [] with
        | ([], _) => None
        | (f, r') => Some (c :: f, r')
        end
      else Some ([], s)
  | [] => Some ([], s)
  end.

Definition exponent (s : str) : option (str * str) :=
  match s with
  | c :: r =>
      if N.eqb c 101 || N.eqb c 69 then
        let '(sg, r1) :=
          match r with
          | g :: r' => if N.eqb g 43 || N.eqb g 45 then ([g], r') else ([], r)
          | [] => ([], r)
          end in
        match digits r1 [] with
        | ([], _) => None
        | (ds, r2) => Some (c :: sg ++ ds, r2)
        end
      else Some ([], s)
  | [] => Some ([], s)
  end.

Definition number (s : str) : option (str * str) :=
  let '(sign, s1) :=
    match s with c :: r => if N.eqb c 45 then ([c], r) else ([], s) | [] => ([], s) end in
  match digits s1 [] with
  | ([], _) => None
  | (d :: more, s2) =>
      if N.eqb d 48 && JS.truthy more then None else
      match fraction s2 with
      | None => None
      | Some (frac, s3) =>
          match exponent s3 with
          | None => None
          | Some (expo, s4) => Some (sign ++ (d :: more) ++ frac ++ expo, s4)
          end
      end
  end.

Definition keyword (word : string) (v : json) (s : str) : option (json * str) :=
  if JS.startsWith (lit word) s then Some (v, skipn (length (lit word)) s) else None.

Fixpoint value (fuel : nat) (s : str) : option (json * str) :=
  match fuel with
  | 0 => None
  | S fuel' =>
      match skipWs s with
      | [] => None
      | c :: rest =>
          if N.eqb c 123 then
            match skipWs rest with
            | c' :: rest' =>
                if N.eqb c' 125 then Some (JObj [], rest')
                else members fuel' (skipWs rest) []
            | [] => None
            end
          else if N.eqb c 91 then
            match skipWs rest with
            | c' :: rest' =>
                if N.eqb c' 93 then Some (JArr [], rest')
                else elements fuel' (skipWs rest) []
            | [] => None
            end
          else if N.eqb c 34 then
            match stringBody (S (length rest)) rest [] with
            | Some (text, rest') => Some (JStr text, rest')
            | None => None
            end
          else if N.eqb c 116 then keyword "true" (JBool true) (c :: rest)
          else if N.eqb c 102 then keyword "false" (JBool false) (c :: rest)
          else if N.eqb c 110 then keyword "null" JNull (c :: rest)
          else match number (c :: rest) with
               | Some (lexeme, rest') => Some (JNum lexeme, rest')
               | None => None
               end
      end
  end
with members (fuel : nat) (s : str) (acc : list (str * json)) : option (json * str) :=
  match fuel with
  | 0 => None
  | S fuel' =>
      match s with
      | q :: rest =>
          if negb (N.eqb q 34) then None else
          match stringBody (S (length rest)) rest [] with
          | Some (key, rest1) =>
              match skipWs rest1 with
              | colon :: rest2 =>
                  if negb (N.eqb colon 58) then None else
                  match value fuel' rest2 with
                  | Some (v, rest3) =>
                      match skipWs rest3 with
                      | d :: rest4 =>
                          if N.eqb d 125 then Some (JObj (rev ((key, v) :: acc)), rest4)
                          else if N.eqb d 44
                          then members fuel' (skipWs rest4) ((key, v) :: acc)
                          else None
                      | [] => None
                      end
                  | None => None
                  end
              | [] => None
              end
          | None => None
          end
      | [] => None
      end
  end
with elements (fuel : nat) (s : str) (acc : list json) : option (json * str) :=
  match fuel with
  | 0 => None
  | S fuel' =>
      match value fuel' s with
      | Some (v, rest) =>
          match skipWs rest with
          | d :: rest' =>
              if N.eqb d 93 then Some (JArr (rev (v :: acc)), rest')
              else if N.eqb d 44 then elements fuel' rest' (v :: acc)
              else None
          | [] => None
          end
      | None => None
      end
  end.

Definition parse (text : str) : option json :=
  match value (2 * length text + 4) text with
  | Some (v, rest) => match skipWs rest with [] => Some v | _ :: _ => None end
  | None => None
  end.

(** [text LIKE pattern] with [%], [_] and the backslash escape, comparing
    without regard to ASCII case. *)
Definition sameLetter (a b : N) : bool := N.eqb (JS.lower a) (JS.lower b).

Fixpoint like (pattern : str) : str -> bool :=
  match pattern with
  | [] => fun text => negb (JS.truthy text)
  | p :: pattern' =>
      if N.eqb p 37 then
        fix star (text : str) : bool :=
          like pattern' text
          || match text with [] => false | _ :: text' => star text' end
      else if N.eqb p 95 then
        fun text => match text with [] => false | _ :: text' => like pattern' text' end
      else if N.eqb p 92 then
        match pattern' with
        | q :: pattern'' =>
            fun text =>
              match text with
              | [] => false
              | c :: text' => sameLetter c q && like pattern'' text'
              end
        | [] => fun _ => false
        end
      else
        fun text =>
          match text with
          | [] => false
          | c :: text' => sameLetter c p && like pattern' text'
          end
  end.

Definition ilike (text pattern : str) : bool := like pattern text.

(** A word-level stand-in for the english text-search configuration: words
    are maximal runs of letters and digits, lower-cased; stop words are
    dropped; there is no stemming.  A query without words matches nothing. *)
Definition isWordChar (c : N) : bool :=
  isDigit c || (N.leb 97 (JS.lower c) && N.leb (JS.lower c) 122).

Fixpoint wordsFrom (s current : str) (acc : list str) : list str :=
  let flush := match current with [] => acc | _ => rev current :: acc end in
  match s with
  | [] => rev flush
  | c :: rest =>
      if isWordChar c then wordsFrom rest (JS.lower c :: current) acc
      else wordsFrom rest [] flush
  end.

Definition stopWords : list str :=
  map lit ["a"; "an"; "and"; "are"; "as"; "at"; "be"; "by"; "for"; "in"; "is";
           "it"; "of"; "on"; "or"; "the"; "to"; "was"; "what"; "with"]%string.

Definition lexemes (s : str) : list str :=
  filter (fun w => negb (existsb (JS.eqb w) stopWords)) (wordsFrom s [] []).

Definition fts (text query : str) : bool :=
  let wanted := lexemes query in
  JS.truthy (concat wanted)
  && forallb (fun w => existsb (JS.eqb w) (lexemes text)) wanted.

Definition env (generate : GenRequest -> GenOutcome) (pdf : list N -> PdfOutcome)
    (fetch : str -> Fetched) : Env :=
  mkEnv fts ilike generate pdf fetch parse 1700000000%Z.

End Reference.

(** A quoted JSON string, written without a quote character in the source. *)
Definition quoted (s : string) : str := [34%N] ++ lit s ++ [34%N].

(* ------------------------------------------------------------------ *)
(** ** Sample inputs *)

Module Sample.

Definition report : Document :=
  mkDocument 1 (lit "Q3 Report") (lit "Q3 Report.pdf") (lit "/objects/uploads/q3")
    4821 (lit "application/pdf") pending None None None None None None None
    1700000000%Z None.

(** The store right after the upload of [report]. *)
Definition uploaded : World := mkWorld (mkStore [report] [] [] [] 2) [].

(** A generation service that labels every document a research note and
    answers every question with [reply]. *)
Definition answers (reply : str) (r : GenRequest) : GenOutcome :=
  match prompt r with
  | ClassifyPrompt _ _ => GenText (lit "research_note")
  | _ => GenText reply
  end.

Definition env (pdf : PdfOutcome) (reply : str) : Env :=
  Reference.env (answers reply) (fun _ => pdf) (fun _ => FetchOk []).

(** One page of plain text. *)
Definition onePage : PdfOutcome := PdfParsed (lit "Annual report 2023") 1 true.

(** Three pages whose middle slice is blank. *)
Definition gappyText : str := lit "Summary" ++ repeat 32%N 12 ++ lit "Appendix".
Definition gappy : PdfOutcome := PdfParsed gappyText 3 true.

(** One page of 2001 code units. *)
Definition longText : str := repeat 97%N 2001.
Definition long : PdfOutcome := PdfParsed longText 1 true.

(** The world after the pipeline ran on the uploaded report. *)
Definition processed (pdf : PdfOutcome) : World :=
  snd (processDocument (env pdf []) 1 uploaded).

(** A reply of prose with braces in it. *)
Definition braces : str := lit "The excerpts give no figure {unknown}.".
Definition prose : str := lit "The excerpts give no figure.".

Definition question : str := lit "What does the annual report say?".



End Sample.

(* ------------------------------------------------------------------ *)
(** ** More vocabulary *)

(** The 400 response. *)
Definition badRequest (message : string) : Response :=
  mkResponse 400 (Some (JObj [(lit "error", JStr (lit message))])).

(** The answer of the document-scoped ask when no page has text. *)
Definition noTextAnswer : Response :=
  mkResponse 200
    (Some (answerObject
             (lit "No text content available in this document to answer your question.") [])).



(** A chunk row beside the page row it was cut from.  Both texts are read
    as stored: the chunk text is the first 2000 code units of the page text,
    but for the last of them, which is U+FFFD when the cut falls inside a
    surrogate pair. *)
Definition chunkOfPage (p : DocumentPage) (e : Embedding) : Prop :=
  emb_documentId e = pg_documentId p
  /\ emb_pageNumber e = Some (pageNumber p)
  /\ chunkIndex e + 1 = pageNumber p
  /\ exists text tokens,
       pageText p = Some text
       /\ (chunkText e = JS.prefix chunkLimit text
           \/ chunkText e = firstn 1999 text ++ [Pg.replacement])
       /\ (length text <= 2000 -> chunkText e = text)
       /\ 1 <= length (chunkText e) <= 2000
       /\ tokenCount e = Some tokens
       /\ JS.ceilDiv (length (chunkText e)) 4 <= tokens
       /\ 1 <= tokens.

(** ** More sample inputs *)

Module Edge.

(** An object store that has lost the file. *)
Definition unreadable : Env :=
  Reference.env (Sample.answers []) (fun _ => Sample.onePage)
    (fun _ => FetchError (lit "Object not found")).

(** A generation service that gives the same reply to every request. *)
Definition always (reply : str) : Env :=
  Reference.env (fun _ => GenText reply) (fun _ => Sample.onePage) (fun _ => FetchOk []).

(** An uploaded CSV file. *)
Definition sheet : Document :=
  mkDocument 2 (lit "Budget") (lit "budget.csv") (lit "/objects/uploads/budget")
    120 (lit "text/csv") pending None None None None None None None
    1700000100%Z None.

Definition withSheet : World := mkWorld (mkStore [sheet] [] [] [] 3) [].

(** The third page slice of [Sample.gappyText]. *)
Definition lastSlice : str := 32%N :: lit "Appendix".

(** One page whose text holds a NUL code unit. *)
Definition nulText : str := lit "Total" ++ [0%N] ++ lit "revenue".
Definition nul : PdfOutcome := PdfParsed nulText 1 true.

(** Two pages of five code units, the second with a NUL. *)
Definition tornText : str := lit "Intro" ++ lit "." ++ [0%N] ++ lit "end".
Definition torn : PdfOutcome := PdfParsed tornText 2 true.

(** One page of 2001 code units whose last two are a surrogate pair, so
    that the cut at 2000 falls inside the pair. *)
Definition splitText : str := repeat 97%N 1999 ++ [55357; 56832]%N.
Definition split : PdfOutcome := PdfParsed splitText 1 true.

End Edge.

(* ------------------------------------------------------------------ *)
(** ** Sanity checks of the helpers *)

Example matchBraces_plain : JS.matchBraces (lit "no json here") = None.
Proof. reflexivity. Qed.

Example matchBraces_inner :
  JS.matchBraces (lit "so {a} and {b} end") = Some (lit "{a} and {b}").
Proof. reflexivity. Qed.

Example matchBraces_reversed : JS.matchBraces (lit "} then {") = None.
Proof. reflexivity. Qed.

Example trim_blank : JS.truthy (JS.trim (lit "   ")) = false.
Proof. reflexivity. Qed.

Example ceilDiv_2001 : JS.ceilDiv 2001 4 = 501.
Proof. reflexivity. Qed.

Example parse_object :
  Reference.parse (lit "{ " ++ quoted "answer" ++ lit " : " ++ quoted "ok" ++ lit ", "
                   ++ quoted "citations" ++ lit ": [] }")
  = Some (JObj [(lit "answer", JStr (lit "ok")); (lit "citations", JArr [])]).
Proof. reflexivity. Qed.

Example parse_rejects_bare_words : Reference.parse (lit "{not json}") = None.
Proof. reflexivity. Qed.

Example parse_empty_object : Reference.parse (lit " {} ") = Some (JObj []).
Proof. reflexivity. Qed.

Example parse_nested :
  Reference.parse (lit "{} {}") = None
  /\ Reference.parse (lit "[1, [2, {}], -0.5e+3, true, null]")
     = Some (JArr [JNum (lit "1"); JArr [JNum (lit "2"); JObj []];
                   JNum (lit "-0.5e+3"); JBool true; JNull]).
Proof. split; reflexivity. Qed.

Example like_examples :
  Reference.ilike (lit "Annual Report") (lit "%repo%") = true
  /\ Reference.ilike (lit "Annual Report") (lit "%x%") = false
  /\ Reference.ilike (lit "abc") (lit "a_c") = true.
Proof. repeat split; reflexivity. Qed.

Example fts_examples :
  Reference.fts (lit "Annual report 2023") (lit "report") = true
  /\ Reference.fts (lit "Annual report 2023") (lit "repo") = false
  /\ Reference.fts (lit "the report") (lit "the") = false.
Proof. repeat split; reflexivity. Qed.

(* ------------------------------------------------------------------ *)
(** ** Running the storage methods *)

Section Theory.

Variable E : Env.

Lemma hasDocument_lookup s i :
  hasDocument s i = true <-> exists d, lookup s i = Some d.
Proof.
  unfold hasDocument, hasId, lookup. induction (documents s) as [|d ds IH]; simpl.
  - split; [discriminate | intros [d H]; discriminate].
  - destruct (byId i d).
    + split; eauto.
    + simpl. exact IH.
Qed.

Lemma lookup_updateRows i u ds :
  find (byId i) (updateRows i u ds) = option_map (applyUpdate u) (find (byId i) ds).
Proof.
  unfold updateRows. induction ds as [|d ds IH]; simpl; [reflexivity|].
  destruct (byId i d) eqn:Hd; simpl.
  - unfold byId in *. simpl. rewrite Hd. reflexivity.
  - rewrite Hd. exact IH.
Qed.

Lemma lookup_updateRows_other i j u ds :
  i <> j -> find (byId j) (updateRows i u ds) = find (byId j) ds.
Proof.
  intros Hij. unfold updateRows, byId. induction ds as [|d ds IH]; simpl; [reflexivity|].
  destruct (Nat.eqb (id d) i) eqn:Hd; simpl.
  - apply Nat.eqb_eq in Hd.
    destruct (Nat.eqb (id d) j) eqn:Hj; [apply Nat.eqb_eq in Hj; congruence | exact IH].
  - destruct (Nat.eqb (id d) j); [reflexivity | exact IH].
Qed.

Lemma hasDocument_updateRows s i u pages chunks qa n j :
  hasDocument (mkStore (updateRows i u (documents s)) pages chunks qa n) j
  = hasDocument s j.
Proof.
  unfold hasDocument, hasId, updateRows, byId; simpl.
  induction (documents s) as [|d ds IH]; simpl; [reflexivity|].
  rewrite IH. destruct (Nat.eqb (id d) i); reflexivity.
Qed.

(** *** Text values *)

Lemma storable_firstn n (t : str) :
  Pg.storable t = true -> Pg.storable (firstn n t) = true.
Proof.
  unfold Pg.storable. rewrite !negb_true_iff. intros H.
  destruct (existsb (N.eqb 0) (firstn n t)) eqn:Hex; [|reflexivity].
  apply existsb_exists in Hex. destruct Hex as (c & Hin & Hc).
  rewrite <- H. symmetry. apply existsb_exists. exists c. split; [|exact Hc].
  rewrite <- (firstn_skipn n t). apply in_or_app. left. exact Hin.
Qed.

Lemma storable_prefix n (t : str) :
  Pg.storable t = true -> Pg.storable (JS.prefix n t) = true.
Proof.
  unfold JS.prefix, JS.slice. rewrite Nat.sub_0_r. cbn [skipn]. apply storable_firstn.
Qed.

Lemma wellFormed_cons c (rest : str) :
  Pg.wellFormed (c :: rest)
  = if Pg.isHigh c then
      match rest with
      | d :: rest' =>
          if Pg.isLow d then c :: d :: Pg.wellFormed rest'
          else Pg.replacement :: Pg.wellFormed rest
      | [] => [Pg.replacement]
      end
    else if Pg.isLow c then Pg.replacement :: Pg.wellFormed rest
    else c :: Pg.wellFormed rest.
Proof. reflexivity. Qed.

Lemma wellFormed_lengths (t : str) :
  length (Pg.wellFormed t) = length t
  /\ forall c, length (Pg.wellFormed (c :: t)) = S (length t).
Proof.
  induction t as [|d t [IH1 IH2]].
  - split; [reflexivity|]. intros c. rewrite wellFormed_cons.
    destruct (Pg.isHigh c); [reflexivity|]. destruct (Pg.isLow c); reflexivity.
  - split; [apply IH2|]. intros c. rewrite (wellFormed_cons c (d :: t)). cbv beta iota.
    destruct (Pg.isHigh c).
    + destruct (Pg.isLow d); cbn [length]; [rewrite IH1; reflexivity|].
      f_equal. exact (IH2 d).
    + destruct (Pg.isLow c); cbn [length]; f_equal; exact (IH2 d).
Qed.

Lemma wellFormed_length (t : str) : length (Pg.wellFormed t) = length t.
Proof. apply wellFormed_lengths. Qed.

(** What is stored of the first [n + 1] code units is the first [n + 1]
    code units of what is stored of the whole, but for the last, which is
    U+FFFD when the cut falls inside a surrogate pair. *)
Lemma wellFormed_cut_last (t : str) :
  (forall n, Pg.wellFormed (firstn (S n) t) = firstn (S n) (Pg.wellFormed t)
             \/ Pg.wellFormed (firstn (S n) t)
                = firstn n (Pg.wellFormed t) ++ [Pg.replacement])
  /\ (forall c n, Pg.wellFormed (firstn (S n) (c :: t))
                  = firstn (S n) (Pg.wellFormed (c :: t))
                  \/ Pg.wellFormed (firstn (S n) (c :: t))
                     = firstn n (Pg.wellFormed (c :: t)) ++ [Pg.replacement]).
Proof.
  induction t as [|d t [IH1 IH2]].
  - split; [intros n; left; reflexivity|]. intros c n. left.
    cbn [firstn]. rewrite firstn_nil, wellFormed_cons.
    destruct (Pg.isHigh c); [|destruct (Pg.isLow c)];
      cbn [Pg.wellFormed firstn]; rewrite firstn_nil; reflexivity.
  - split; [intros n; apply IH2|]. intros c [|m].
    + change (firstn 1 (c :: d :: t)) with [c].
      rewrite (wellFormed_cons c []), (wellFormed_cons c (d :: t)). cbv beta match.
      destruct (Pg.isHigh c).
      * destruct (Pg.isLow d); [right | left]; reflexivity.
      * destruct (Pg.isLow c); left; reflexivity.
    + change (firstn (S (S m)) (c :: d :: t)) with (c :: firstn (S m) (d :: t)).
      rewrite (wellFormed_cons c (firstn (S m) (d :: t))), (wellFormed_cons c (d :: t)).
      destruct (Pg.isHigh c).
      * change (firstn (S m) (d :: t)) with (d :: firstn m t). cbv beta match.
        destruct (Pg.isLow d).
        -- destruct m as [|m']; [left; reflexivity|].
           destruct (IH1 m') as [H|H]; rewrite H; [left | right]; reflexivity.
        -- change (d :: firstn m t) with (firstn (S m) (d :: t)).
           destruct (IH2 d m) as [H|H]; rewrite H; [left | right]; reflexivity.
      * destruct (Pg.isLow c); destruct (IH2 d m) as [H|H]; rewrite H;
          try (left; reflexivity); right; reflexivity.
Qed.

Lemma wellFormed_plain (t : str) : noSurrogate t = true -> Pg.wellFormed t = t.
Proof.
  unfold noSurrogate. induction t as [|c t IH]; intros H; [reflexivity|].
  cbn [forallb] in H. apply andb_true_iff in H. destruct H as [Hc Ht].
  apply negb_true_iff, orb_false_iff in Hc. destruct Hc as [Hhigh Hlow].
  cbn [Pg.wellFormed]. rewrite Hhigh, Hlow, (IH Ht). reflexivity.
Qed.

Lemma text_label label : In label validTypes -> Pg.text label = Some label.
Proof.
  cbn [validTypes map In].
  intros [<-|[<-|[<-|[<-|[<-|[<-|[<-|[<-|[]]]]]]]]]; reflexivity.
Qed.

Lemma storedUpdate_status s : storedUpdate (statusUpdate s) = Some (statusUpdate s).
Proof. reflexivity. Qed.

Lemma storedUpdate_failed message :
  storedUpdate (failedUpdate message) = option_map failedUpdate (Pg.text message).
Proof.
  unfold storedUpdate, failedUpdate. cbn. destruct (Pg.text message); reflexivity.
Qed.

Lemma storedUpdate_completed x label :
  In label validTypes ->
  storedUpdate (completedUpdate E x label)
  = if Pg.storable (extractedText x) then Some (completedUpdate E (asStored x) label)
    else None.
Proof.
  intros Hlabel. unfold storedUpdate, completedUpdate. cbn.
  rewrite (text_label _ Hlabel). unfold Pg.text.
  destruct (Pg.storable (extractedText x)); reflexivity.
Qed.

Lemma rejection_is_storable :
  Pg.text Pg.invalidByteSequence = Some Pg.invalidByteSequence.
Proof. reflexivity. Qed.

(** *** The storage methods that write *)

Lemma createDocumentPage_run documentId pageNo text docs pages chunks qa n tr :
  Pg.storable text = true ->
  createDocumentPage documentId pageNo text (mkWorld (mkStore docs pages chunks qa n) tr)
  = (Ok (mkPage n documentId pageNo (Some (Pg.wellFormed text))),
     mkWorld (mkStore docs (pages ++ [mkPage n documentId pageNo (Some (Pg.wellFormed text))])
                chunks qa (S n)) tr).
Proof.
  intros H. unfold createDocumentPage, Pg.text. rewrite H. reflexivity.
Qed.

Lemma createDocumentPage_refused documentId pageNo text w :
  Pg.storable text = false ->
  createDocumentPage documentId pageNo text w = (Throw Pg.invalidByteSequence, w).
Proof.
  intros H. unfold createDocumentPage, Pg.text. rewrite H. reflexivity.
Qed.

Lemma createEmbedding_run documentId pageNo text index tokens docs pages chunks qa n tr :
  Pg.storable text = true ->
  createEmbedding documentId pageNo text index tokens
    (mkWorld (mkStore docs pages chunks qa n) tr)
  = (Ok (mkEmbedding n documentId (Some pageNo) (Pg.wellFormed text) index (Some tokens)),
     mkWorld (mkStore docs pages
                (chunks ++ [mkEmbedding n documentId (Some pageNo) (Pg.wellFormed text)
                              index (Some tokens)])
                qa (S n)) tr).
Proof.
  intros H. unfold createEmbedding, Pg.text. rewrite H. reflexivity.
Qed.

(** The loop writes one page row and one chunk row for each non-blank page
    text, in order, up to the first page text that the database refuses; it
    throws there, and touches nothing else. *)
Lemma indexPages_run documentId :
  forall texts i docs pages chunks qa n tr,
    exists newPages newChunks n',
      indexPages documentId i texts (mkWorld (mkStore docs pages chunks qa n) tr)
      = (if forallb storableOrBlank texts then Ok tt else Throw Pg.invalidByteSequence,
         mkWorld (mkStore docs (pages ++ newPages) (chunks ++ newChunks) qa n') tr)
      /\ Forall2 (pageOf documentId) (indexedFrom i (reached texts)) newPages
      /\ Forall2 (chunkOf documentId) (indexedFrom i (reached texts)) newChunks.
Proof.
  induction texts as [|text rest IH]; intros i docs pages chunks qa n tr.
  - exists [], [], n. simpl. rewrite !app_nil_r. repeat split; constructor.
  - cbn [indexPages reached forallb]. fold (nonBlank text).
    destruct (nonBlank text) eqn:Hb.
    + destruct (Pg.storable text) eqn:Hs.
      * assert (Hsb : storableOrBlank text = true)
          by (unfold storableOrBlank; rewrite Hs; apply orb_true_r).
        rewrite Hsb. cbn [andb indexedFrom]. rewrite Hb. cbn [app].
        set (p := mkPage n documentId (i + 1) (Some (Pg.wellFormed text))).
        set (e := mkEmbedding (S n) documentId (Some (i + 1))
                    (Pg.wellFormed (JS.prefix chunkLimit text)) i
                    (Some (JS.ceilDiv (length text) 4))).
        destruct (IH (S i) docs (pages ++ [p]) (chunks ++ [e]) qa (S (S n)) tr)
          as (ps & cs & n' & Hrun & Hps & Hcs).
        exists (p :: ps), (e :: cs), n'.
        split; [|split].
        -- unfold bind.
           rewrite createDocumentPage_run by exact Hs.
           rewrite createEmbedding_run by (apply storable_prefix; exact Hs).
           unfold ret. rewrite <- !app_assoc in Hrun. exact Hrun.
        -- constructor; [repeat split | exact Hps].
        -- constructor; [repeat split | exact Hcs].
      * assert (Hsb : storableOrBlank text = false)
          by (unfold storableOrBlank; rewrite Hb, Hs; reflexivity).
        rewrite Hsb. cbn [andb indexedFrom].
        exists [], [], n. rewrite !app_nil_r. split; [|split; constructor].
        unfold bind. rewrite createDocumentPage_refused by exact Hs. reflexivity.
    + assert (Hsb : storableOrBlank text = true)
        by (unfold storableOrBlank; rewrite Hb; reflexivity).
      rewrite Hsb. cbn [andb indexedFrom]. rewrite Hb. cbn [app].
      destruct (IH (S i) docs pages chunks qa n tr) as (ps & cs & n' & Hrun & Hps & Hcs).
      exists ps, cs, n'. split; [|split; assumption].
      unfold bind, ret. exact Hrun.
Qed.

Lemma updateDocument_run i u values docs pages chunks qa n tr :
  storedUpdate u = Some values ->
  updateDocument i u (mkWorld (mkStore docs pages chunks qa n) tr)
  = (Ok (find (byId i) (updateRows i values docs)),
     mkWorld (mkStore (updateRows i values docs) pages chunks qa n) tr).
Proof. intros H. unfold updateDocument. rewrite H. reflexivity. Qed.

Lemma updateDocument_refused i u w :
  storedUpdate u = None -> updateDocument i u w = (Throw Pg.invalidByteSequence, w).
Proof. intros H. unfold updateDocument. rewrite H. reflexivity. Qed.

Lemma getDocument_run i w : getDocument i w = (Ok (lookup (store w) i), w).
Proof. reflexivity. Qed.

Lemma hasId_updateRows i u ds j : hasId (updateRows i u ds) j = hasId ds j.
Proof.
  unfold hasId, updateRows, byId. induction ds as [|d ds IH]; simpl; [reflexivity|].
  rewrite IH. destruct (Nat.eqb (id d) i); reflexivity.
Qed.

Lemma find_hasId ds i d : find (byId i) ds = Some d -> hasId ds i = true.
Proof.
  unfold hasId. induction ds as [|x ds IH]; simpl; [discriminate|].
  destruct (byId i x); [reflexivity | exact IH].
Qed.

(** Classification returns a label whatever the service does, and writes
    nothing. *)
Lemma classify_run d text w :
  exists label, classify E d text w
    = (Ok label,
       mkWorld (store w)
         (trace w ++ [EvGenerate (mkGenRequest (lit "claude-haiku-4-5") 256
                                    (ClassifyPrompt (title d) (JS.prefix 2000 text)))])).
Proof.
  unfold classify, messagesCreate.
  cbv [tryCatch bind emit ret throw store trace].
  destruct (messages_create E _) as [message| |answer].
  - eexists; reflexivity.
  - eexists; reflexivity.
  - match goal with |- context [existsb ?f validTypes] => destruct (existsb f validTypes) end;
      eexists; reflexivity.
Qed.

Lemma eqb_eq (a b : str) : JS.eqb a b = true <-> a = b.
Proof.
  revert b. induction a as [|x a IH]; intros [|y b]; cbn [JS.eqb];
    try (split; [discriminate | intros H; discriminate H]); [tauto|].
  rewrite andb_true_iff, N.eqb_eq, IH. split.
  - intros [-> ->]. reflexivity.
  - intros H. inversion H. auto.
Qed.

Lemma classify_label (d : Document) (text : str) (w : World) :
  exists label,
    classify E d text w
    = (Ok label,
       mkWorld (store w)
         (trace w ++ [EvGenerate (mkGenRequest (lit "claude-haiku-4-5") 256
                                    (ClassifyPrompt (title d) (JS.prefix 2000 text)))]))
    /\ In label validTypes
    /\ (forall answer,
          messages_create E (mkGenRequest (lit "claude-haiku-4-5") 256
                               (ClassifyPrompt (title d) (JS.prefix 2000 text)))
          = GenText answer ->
          In (JS.trim (JS.toLowerCase answer)) validTypes ->
          label = JS.trim (JS.toLowerCase answer)).
Proof.
  assert (Hother : In (lit "other") validTypes) by (cbn; tauto).
  unfold classify, messagesCreate.
  cbv [tryCatch bind emit ret throw store trace].
  destruct (messages_create E _) as [message| |answer].
  - eexists. split; [reflexivity|]. split; [exact Hother | intros a Ha; discriminate].
  - eexists. split; [reflexivity|]. split; [exact Hother | intros a Ha; discriminate].
  - destruct (existsb (JS.eqb (JS.trim (JS.toLowerCase answer))) validTypes) eqn:Hvalid.
    + eexists. split; [reflexivity|]. split.
      * apply existsb_exists in Hvalid. destruct Hvalid as (t & Ht & Heq).
        apply eqb_eq in Heq. rewrite Heq. exact Ht.
      * intros a Ha _. inversion Ha. reflexivity.
    + eexists. split; [reflexivity|]. split; [exact Hother|].
      intros a Ha Hin. inversion Ha; subst a.
      assert (Hex : existsb (JS.eqb (JS.trim (JS.toLowerCase answer))) validTypes = true).
      { apply existsb_exists. eexists. split; [exact Hin | apply eqb_eq; reflexivity]. }
      rewrite Hex in Hvalid. discriminate.
Qed.


(** *** The run *)

Lemma runPipeline_found documentId docs pages chunks qa n tr d bytes :
  find (byId documentId) docs = Some d ->
  objectFile E (filePath d) = FetchOk bytes ->
  let x := extract E (fileType d) bytes in
  let docs' := updateRows documentId (statusUpdate processing) docs in
  runPipeline E documentId (mkWorld (mkStore docs pages chunks qa n) tr)
  = (indexPages documentId 0 (pageTexts x) ;;
     docType <- classify E (applyUpdate (statusUpdate processing) d) (extractedText x) ;;
     ret (Some (x, docType)))
      (mkWorld (mkStore docs' pages chunks qa n) tr).
Proof.
  intros Hd Hfetch x docs'.
  unfold runPipeline, download.
  unfold bind at 1. rewrite (updateDocument_run _ _ _ _ _ _ _ _ _ (storedUpdate_status _)).
  fold docs'. unfold bind at 1. rewrite getDocument_run. unfold lookup.
  cbn [store documents]. unfold docs' at 1. rewrite lookup_updateRows, Hd. cbn [option_map].
  cbn [applyUpdate statusUpdate filePath fileType u_filePath u_fileType orKeep].
  rewrite Hfetch. unfold bind at 1. unfold ret at 1. reflexivity.
Qed.

(** The body of the [try] on a document that exists and whose file can be
    read. *)
Lemma runPipeline_readable documentId docs pages chunks qa n tr d bytes :
  find (byId documentId) docs = Some d ->
  objectFile E (filePath d) = FetchOk bytes ->
  let x := extract E (fileType d) bytes in
  let docs' := updateRows documentId (statusUpdate processing) docs in
  exists newPages newChunks n',
    Forall2 (pageOf documentId) (indexedFrom 0 (reached (pageTexts x))) newPages
    /\ Forall2 (chunkOf documentId) (indexedFrom 0 (reached (pageTexts x))) newChunks
    /\ if forallb storableOrBlank (pageTexts x) then
         exists label,
           In label validTypes
           /\ runPipeline E documentId (mkWorld (mkStore docs pages chunks qa n) tr)
              = (Ok (Some (x, label)),
                 mkWorld (mkStore docs' (pages ++ newPages) (chunks ++ newChunks) qa n')
                         (tr ++ [classifyEvent d x]))
       else
         runPipeline E documentId (mkWorld (mkStore docs pages chunks qa n) tr)
         = (Throw Pg.invalidByteSequence,
            mkWorld (mkStore docs' (pages ++ newPages) (chunks ++ newChunks) qa n') tr).
Proof.
  intros Hd Hfetch x docs'.
  rewrite (runPipeline_found documentId docs pages chunks qa n tr d bytes Hd Hfetch).
  fold x docs'.
  destruct (indexPages_run documentId (pageTexts x) 0 docs' pages chunks qa n tr)
    as (ps & cs & n' & Hrun & Hps & Hcs).
  exists ps, cs, n'. split; [exact Hps|]. split; [exact Hcs|].
  destruct (forallb storableOrBlank (pageTexts x)).
  - destruct (classify_label (applyUpdate (statusUpdate processing) d) (extractedText x)
                (mkWorld (mkStore docs' (pages ++ ps) (chunks ++ cs) qa n') tr))
      as (label & Hc & Hvalid & _).
    exists label. split; [exact Hvalid|].
    unfold bind at 1. rewrite Hrun. unfold bind. rewrite Hc. reflexivity.
  - unfold bind at 1. rewrite Hrun. reflexivity.
Qed.

(** The run on a document that exists and whose file can be read: it ends
    completed when the database takes all it writes, and failed when not. *)
Lemma processDocument_readable documentId docs pages chunks qa n tr d bytes :
  find (byId documentId) docs = Some d ->
  objectFile E (filePath d) = FetchOk bytes ->
  let x := extract E (fileType d) bytes in
  let docs' := updateRows documentId (statusUpdate processing) docs in
  exists newPages newChunks n' docs'' tr',
    processDocument E documentId (mkWorld (mkStore docs pages chunks qa n) tr)
    = (Ok tt, mkWorld (mkStore docs'' (pages ++ newPages) (chunks ++ newChunks) qa n') tr')
    /\ Forall2 (pageOf documentId) (indexedFrom 0 (reached (pageTexts x))) newPages
    /\ Forall2 (chunkOf documentId) (indexedFrom 0 (reached (pageTexts x))) newChunks
    /\ (accepts x = true ->
        tr' = tr ++ [classifyEvent d x]
        /\ exists label,
             In label validTypes
             /\ docs'' = updateRows documentId (completedUpdate E (asStored x) label) docs')
    /\ (accepts x = false ->
        docs'' = updateRows documentId (failedUpdate Pg.invalidByteSequence) docs'
        /\ tr' = if forallb storableOrBlank (pageTexts x)
                 then tr ++ [classifyEvent d x] else tr).
Proof.
  intros Hd Hfetch x docs'.
  destruct (runPipeline_readable documentId docs pages chunks qa n tr d bytes Hd Hfetch)
    as (ps & cs & n' & Hps & Hcs & Hrun).
  fold x docs' in Hps, Hcs, Hrun.
  assert (Hfail : storedUpdate (failedUpdate Pg.invalidByteSequence)
                  = Some (failedUpdate Pg.invalidByteSequence)) by reflexivity.
  unfold accepts. unfold processDocument, tryCatch. unfold bind at 1.
  destruct (forallb storableOrBlank (pageTexts x)); cbn [andb].
  - destruct Hrun as (label & Hvalid & Hrun). rewrite Hrun. unfold bind.
    pose proof (storedUpdate_completed x label Hvalid) as Hdone.
    destruct (Pg.storable (extractedText x)).
    + rewrite (updateDocument_run _ _ _ _ _ _ _ _ _ Hdone).
      eexists ps, cs, n', _, _. split; [reflexivity|].
      split; [exact Hps|]. split; [exact Hcs|]. split; [|discriminate].
      intros _. split; [reflexivity|]. exists label. split; [exact Hvalid | reflexivity].
    + rewrite (updateDocument_refused _ _ _ Hdone).
      rewrite (updateDocument_run _ _ _ _ _ _ _ _ _ Hfail).
      eexists ps, cs, n', _, _. split; [reflexivity|].
      split; [exact Hps|]. split; [exact Hcs|]. split; [discriminate|].
      intros _. split; reflexivity.
  - rewrite Hrun. unfold bind.
    rewrite (updateDocument_run _ _ _ _ _ _ _ _ _ Hfail).
    eexists ps, cs, n', _, _. split; [reflexivity|].
    split; [exact Hps|]. split; [exact Hcs|]. split; [discriminate|].
    intros _. split; reflexivity.
Qed.

Lemma updateRows_absent i u ds : find (byId i) ds = None -> updateRows i u ds = ds.
Proof.
  unfold updateRows. induction ds as [|d ds IH]; intros Hno; [reflexivity|].
  cbn [find] in Hno. cbn [map]. destruct (byId i d); [discriminate|].
  rewrite IH by exact Hno. reflexivity.
Qed.

Lemma runPipeline_missing documentId docs pages chunks qa n tr :
  find (byId documentId) docs = None ->
  runPipeline E documentId (mkWorld (mkStore docs pages chunks qa n) tr)
  = (Ok None, mkWorld (mkStore docs pages chunks qa n) tr).
Proof.
  intros Hno. unfold runPipeline.
  unfold bind at 1. rewrite (updateDocument_run _ _ _ _ _ _ _ _ _ (storedUpdate_status _)).
  rewrite updateRows_absent by exact Hno.
  unfold bind at 1. rewrite getDocument_run. unfold lookup. cbn [store documents].
  rewrite Hno. reflexivity.
Qed.

Lemma runPipeline_unreadable documentId docs pages chunks qa n tr d message :
  find (byId documentId) docs = Some d ->
  objectFile E (filePath d) = FetchError message ->
  runPipeline E documentId (mkWorld (mkStore docs pages chunks qa n) tr)
  = (Throw message,
     mkWorld (mkStore (updateRows documentId (statusUpdate processing) docs)
                pages chunks qa n) tr).
Proof.
  intros Hd Hfetch. unfold runPipeline, download.
  unfold bind at 1. rewrite (updateDocument_run _ _ _ _ _ _ _ _ _ (storedUpdate_status _)).
  unfold bind at 1. rewrite getDocument_run. unfold lookup.
  cbn [store documents]. rewrite lookup_updateRows, Hd. cbn [option_map].
  cbn [applyUpdate statusUpdate filePath u_filePath orKeep].
  rewrite Hfetch. reflexivity.
Qed.

(** The run on an id without a document row. *)
Lemma processDocument_missing documentId docs pages chunks qa n tr :
  find (byId documentId) docs = None ->
  processDocument E documentId (mkWorld (mkStore docs pages chunks qa n) tr)
  = (Ok tt, mkWorld (mkStore docs pages chunks qa n) tr).
Proof.
  intros Hno. unfold processDocument, tryCatch, bind.
  rewrite (runPipeline_missing _ _ _ _ _ _ _ Hno). reflexivity.
Qed.

(** The run on a document whose file cannot be read. *)
Lemma processDocument_unreadable documentId docs pages chunks qa n tr d message :
  find (byId documentId) docs = Some d ->
  objectFile E (filePath d) = FetchError message ->
  let docs' := updateRows documentId (statusUpdate processing) docs in
  processDocument E documentId (mkWorld (mkStore docs pages chunks qa n) tr)
  = match Pg.text message with
    | Some stored =>
        (Ok tt,
         mkWorld (mkStore (updateRows documentId (failedUpdate stored) docs')
                    pages chunks qa n) tr)
    | None =>
        (Throw Pg.invalidByteSequence, mkWorld (mkStore docs' pages chunks qa n) tr)
    end.
Proof.
  intros Hd Hfetch docs'.
  unfold processDocument, tryCatch, bind.
  rewrite (runPipeline_unreadable _ _ _ _ _ _ _ _ _ Hd Hfetch). fold docs'.
  pose proof (storedUpdate_failed message) as Hstored.
  destruct (Pg.text message) as [stored|]; cbn [option_map] in Hstored.
  - rewrite (updateDocument_run _ _ _ _ _ _ _ _ _ Hstored). reflexivity.
  - rewrite (updateDocument_refused _ _ _ Hstored). reflexivity.
Qed.

(** What one run adds to the two owned tables. *)
Lemma processDocument_tables documentId w :
  let w' := snd (processDocument E documentId w) in
  exists newPages newChunks,
    documentPages (store w') = documentPages (store w) ++ newPages
    /\ embeddings (store w') = embeddings (store w) ++ newChunks
    /\ Forall2 (pageOf documentId)
         (indexedFrom 0 (reached (plannedTexts E (store w) documentId))) newPages
    /\ Forall2 (chunkOf documentId)
         (indexedFrom 0 (reached (plannedTexts E (store w) documentId))) newChunks.
Proof.
  destruct w as [[docs pages chunks qa n] tr]. cbn [store].
  unfold plannedTexts, plannedExtraction, lookup. cbn [documents documentPages embeddings].
  destruct (find (byId documentId) docs) as [d|] eqn:Hd.
  - destruct (objectFile E (filePath d)) as [message|bytes] eqn:Hfetch.
    + rewrite (processDocument_unreadable _ _ _ _ _ _ _ _ _ Hd Hfetch).
      exists [], []. destruct (Pg.text message); cbn; rewrite !app_nil_r;
        repeat split; constructor.
    + destruct (processDocument_readable documentId docs pages chunks qa n tr d bytes
                  Hd Hfetch) as (ps & cs & n' & docs'' & tr' & Hrun & Hps & Hcs & _).
      exists ps, cs. rewrite Hrun. cbn. auto.
  - rewrite (processDocument_missing _ _ _ _ _ _ _ Hd).
    exists [], []. cbn. rewrite !app_nil_r. repeat split; constructor.
Qed.

(** The documents table after a run: the rows are those of before, the
    row of the document updated. *)
Lemma processDocument_documents documentId w :
  exists u,
    documents (store (snd (processDocument E documentId w)))
    = updateRows documentId u
        (updateRows documentId (statusUpdate processing) (documents (store w))).
Proof.
  destruct w as [[docs pages chunks qa n] tr]. cbn [store documents].
  destruct (find (byId documentId) docs) as [d|] eqn:Hd.
  - destruct (objectFile E (filePath d)) as [message|bytes] eqn:Hfetch.
    + rewrite (processDocument_unreadable _ _ _ _ _ _ _ _ _ Hd Hfetch).
      destruct (Pg.text message) as [stored|]; cbn [snd store documents].
      * eexists. reflexivity.
      * exists (statusUpdate processing). unfold updateRows. rewrite map_map.
        apply map_ext. intros r. destruct (byId documentId r) eqn:Hr; [|rewrite Hr; reflexivity].
        assert (Hr' : byId documentId (applyUpdate (statusUpdate processing) r) = true)
          by exact Hr.
        rewrite Hr'. reflexivity.
    + destruct (processDocument_readable documentId docs pages chunks qa n tr d bytes
                  Hd Hfetch) as (ps & cs & n' & docs'' & tr' & Hrun & _ & _ & Hok & Hbad).
      rewrite Hrun. cbn [snd store documents].
      destruct (accepts (extract E (fileType d) bytes)).
      * destruct (Hok eq_refl) as (_ & label & _ & ->). eexists. reflexivity.
      * destruct (Hbad eq_refl) as (-> & _). eexists. reflexivity.
  - rewrite (processDocument_missing _ _ _ _ _ _ _ Hd). cbn [snd store documents].
    exists (statusUpdate processing).
    rewrite (updateRows_absent _ _ _ Hd), (updateRows_absent _ _ _ Hd). reflexivity.
Qed.

(** *** Positions of the non-blank pages *)

Lemma indexedFrom_bounds texts : forall i it,
  In it (indexedFrom i texts) -> i <= fst it < i + length texts.
Proof.
  induction texts as [|text rest IH]; intros i it Hin; [destruct Hin|].
  cbn [indexedFrom] in Hin. apply in_app_or in Hin. cbn [length].
  destruct Hin as [Hin|Hin].
  - destruct (nonBlank text); [|destruct Hin].
    destruct Hin as [<-|[]]. simpl. lia.
  - apply IH in Hin. lia.
Qed.

Lemma indexedFrom_nth texts : forall i j text,
  In (j, text) (indexedFrom i texts) <->
  i <= j /\ nth_error texts (j - i) = Some text /\ nonBlank text = true.
Proof.
  induction texts as [|t rest IH]; intros i j text.
  - simpl. split; [intros [] | intros (_ & H & _)].
    destruct (j - i); discriminate.
  - cbn [indexedFrom]. rewrite in_app_iff, IH. split.
    + intros [Hin | (Hle & Hnth & Hb)].
      * destruct (nonBlank t) eqn:Ht; [|destruct Hin].
        destruct Hin as [Heq|[]]. inversion Heq; subst.
        rewrite Nat.sub_diag. auto.
      * replace (j - i) with (S (j - S i)) by lia. split; [lia | auto].
    + intros (Hle & Hnth & Hb).
      destruct (Nat.eq_dec i j) as [->|Hne].
      * rewrite Nat.sub_diag in Hnth. simpl in Hnth. inversion Hnth; subst.
        left. rewrite Hb. left. reflexivity.
      * right. replace (j - i) with (S (j - S i)) in Hnth by lia.
        split; [lia | auto].
Qed.

Lemma indexedFrom_increasing texts : forall i,
  StronglySorted lt (map fst (indexedFrom i texts)).
Proof.
  induction texts as [|text rest IH]; intros i; [constructor|].
  cbn [indexedFrom]. destruct (nonBlank text); cbn [app map]; [|apply IH].
  constructor; [apply IH|].
  apply Forall_forall. intros k Hk. apply in_map_iff in Hk.
  destruct Hk as (it & <- & Hin). apply indexedFrom_bounds in Hin. simpl. lia.
Qed.

Lemma indexedFrom_dense texts : forall i,
  forallb nonBlank texts = true ->
  map fst (indexedFrom i texts) = seq i (length texts).
Proof.
  induction texts as [|text rest IH]; intros i Hall; [reflexivity|].
  cbn [forallb] in Hall. apply andb_true_iff in Hall. destruct Hall as [Ht Hrest].
  cbn [indexedFrom]. rewrite Ht. cbn. f_equal. apply IH. exact Hrest.
Qed.

Lemma chunkOf_indices documentId items chunks :
  Forall2 (chunkOf documentId) items chunks ->
  map chunkIndex chunks = map fst items.
Proof.
  induction 1 as [|it e items chunks H _ IH]; [reflexivity|].
  cbn. rewrite IH. destruct H as (_ & _ & _ & -> & _). reflexivity.
Qed.

Lemma pageOf_numbers documentId items pages :
  Forall2 (pageOf documentId) items pages ->
  map pageNumber pages = map (fun it => fst it + 1) items.
Proof.
  induction 1 as [|it p items pages H _ IH]; [reflexivity|].
  cbn. rewrite IH. destruct H as (_ & -> & _). reflexivity.
Qed.

Lemma increasing_injective {A} (f : A -> nat) (l : list A) :
  StronglySorted lt (map f l) ->
  forall a b, In a l -> In b l -> f a = f b -> a = b.
Proof.
  induction l as [|x l IH]; intros Hs a b Ha Hb Hf; [destruct Ha|].
  cbn in Hs. apply StronglySorted_inv in Hs. destruct Hs as [Hs Hx].
  rewrite Forall_forall in Hx.
  destruct Ha as [<-|Ha], Hb as [<-|Hb]; auto.
  - specialize (Hx (f b) (in_map f l b Hb)). lia.
  - specialize (Hx (f a) (in_map f l a Ha)). lia.
Qed.

Lemma increasing_shift (l : list nat) :
  StronglySorted lt l -> StronglySorted lt (map (fun k => k + 1) l).
Proof.
  induction 1 as [|k l Hs IH Hk]; cbn; constructor; auto.
  rewrite Forall_forall in *. intros j Hj. apply in_map_iff in Hj.
  destruct Hj as (j' & <- & Hj'). specialize (Hk j' Hj'). lia.
Qed.

Lemma prefix_length n (s : str) : length (JS.prefix n s) <= n.
Proof.
  unfold JS.prefix, JS.slice. rewrite Nat.sub_0_r. cbn [skipn].
  rewrite length_firstn. lia.
Qed.

Lemma prefix_short n (s : str) : length s <= n -> JS.prefix n s = s.
Proof.
  intros H. unfold JS.prefix, JS.slice. rewrite Nat.sub_0_r. cbn [skipn].
  apply firstn_all2. exact H.
Qed.

(** The rows of a document among freshly written ones. *)
Lemma chunksOf_new documentId items chunks :
  Forall2 (chunkOf documentId) items chunks ->
  filter (fun e => ofDocument documentId (emb_documentId e)) chunks = chunks.
Proof.
  induction 1 as [|it e items chunks H _ IH]; [reflexivity|].
  cbn. destruct H as (-> & _). unfold ofDocument at 1. rewrite Nat.eqb_refl.
  rewrite IH. reflexivity.
Qed.

Lemma pagesOf_new documentId items pages :
  Forall2 (pageOf documentId) items pages ->
  filter (fun p => ofDocument documentId (pg_documentId p)) pages = pages.
Proof.
  induction 1 as [|it p items pages H _ IH]; [reflexivity|].
  cbn. destruct H as (-> & _). unfold ofDocument at 1. rewrite Nat.eqb_refl.
  rewrite IH. reflexivity.
Qed.

Lemma filter_none {A} (f : A -> bool) (l : list A) :
  (forall a, In a l -> f a = false) -> filter f l = [].
Proof.
  induction l as [|x l IH]; intros H; [reflexivity|].
  cbn. rewrite (H x (or_introl eq_refl)). apply IH. intros a Ha. apply H. right. exact Ha.
Qed.

Lemma Forall2_In_left {A B} (R : A -> B -> Prop) l l' a :
  Forall2 R l l' -> In a l -> exists b, In b l' /\ R a b.
Proof.
  induction 1 as [|x y l l' Hxy _ IH]; intros Hin; [destruct Hin|].
  destruct Hin as [<-|Hin].
  - exists y. split; [left; reflexivity | exact Hxy].
  - destruct (IH Hin) as (b & Hb & HR). exists b. split; [right; exact Hb | exact HR].
Qed.

Lemma Forall2_right {A B} (R : A -> B -> Prop) (P : B -> Prop) l l' :
  Forall2 R l l' -> (forall a b, R a b -> P b) -> Forall P l'.
Proof.
  induction 1 as [|x y l l' Hxy _ IH]; intros HP; constructor; eauto.
Qed.

(* ------------------------------------------------------------------ *)
(** ** Chunk indexer *)

(** *** The page texts the loop gets past *)

Lemma reached_all texts : forallb storableOrBlank texts = true -> reached texts = texts.
Proof.
  induction texts as [|t rest IH]; intros H; [reflexivity|].
  cbn [forallb] in H. apply andb_true_iff in H. destruct H as [Ht Hrest].
  cbn [reached]. rewrite Ht, (IH Hrest). reflexivity.
Qed.

Lemma reached_prefix texts : exists rest, texts = reached texts ++ rest.
Proof.
  induction texts as [|t rest (tail & IH)]; [exists []; reflexivity|].
  cbn [reached]. destruct (storableOrBlank t).
  - exists tail. cbn [app]. rewrite <- IH. reflexivity.
  - exists (t :: rest). reflexivity.
Qed.

Lemma reached_length texts : length (reached texts) <= length texts.
Proof.
  destruct (reached_prefix texts) as (rest & H). rewrite H at 2.
  rewrite length_app. lia.
Qed.

Lemma reached_nth texts : forall i text,
  nth_error (reached texts) i = Some text <->
  nth_error texts i = Some text /\ forallb storableOrBlank (firstn (S i) texts) = true.
Proof.
  induction texts as [|t rest IH]; intros i text.
  - cbn [reached]. split; [destruct i; discriminate | intros [H _]; destruct i; discriminate].
  - cbn [reached firstn forallb]. destruct (storableOrBlank t) eqn:Ht; cbn [andb].
    + destruct i as [|i]; cbn [nth_error].
      * cbn [firstn forallb]. tauto.
      * apply IH.
    + split; [destruct i; discriminate | intros [_ H]; discriminate].
Qed.

Lemma reached_nonBlank texts :
  forallb nonBlank texts = true -> forallb nonBlank (reached texts) = true.
Proof.
  induction texts as [|t rest IH]; intros H; [reflexivity|].
  cbn [forallb] in H. apply andb_true_iff in H. destruct H as [Ht Hrest].
  cbn [reached]. destruct (storableOrBlank t); [|reflexivity].
  cbn [forallb]. rewrite Ht, (IH Hrest). reflexivity.
Qed.

Lemma indexedFrom_app a : forall i b,
  indexedFrom i (a ++ b) = indexedFrom i a ++ indexedFrom (i + length a) b.
Proof.
  induction a as [|t a IH]; intros i b.
  - cbn [app indexedFrom length]. rewrite Nat.add_0_r. reflexivity.
  - cbn [app indexedFrom length]. rewrite IH, <- app_assoc.
    replace (S i + length a) with (i + S (length a)) by lia. reflexivity.
Qed.

(** The positions written are the first of the non-blank positions. *)
Lemma reached_positions texts :
  exists later,
    map fst (indexedFrom 0 texts) = map fst (indexedFrom 0 (reached texts)) ++ later.
Proof.
  destruct (reached_prefix texts) as (rest & H).
  exists (map fst (indexedFrom (0 + length (reached texts)) rest)).
  rewrite H at 1. rewrite indexedFrom_app, map_app. reflexivity.
Qed.

Lemma chunkOf_length documentId it e :
  chunkOf documentId it e -> length (chunkText e) <= 2000.
Proof.
  intros (_ & _ & -> & _). rewrite wellFormed_length. apply prefix_length.
Qed.

(** C2 (amended).  Take a non-blank page text of a processing run.  When the
    database takes every non-blank page text up to and including it, the run
    creates exactly one chunk with that page's 0-based position as chunk
    index; its text is the first 2000 code units of the page text as the
    database stores them, which are those code units themselves when none of
    them is half of a surrogate pair, and its token count is the ceiling of
    the length of the whole page text over 4, which is the ceiling of the
    chunk text's length over 4 whenever the page has at most 2000 code
    units.  When the database refuses that page text or an earlier one, the
    run creates no chunk with that index. *)
Theorem C2_one_chunk_per_indexed_page (documentId : nat) (w : World) (i : nat) (text : str) :
  nth_error (plannedTexts E (store w) documentId) i = Some text ->
  nonBlank text = true ->
  let w' := snd (processDocument E documentId w) in
  let taken := forallb storableOrBlank (firstn (S i) (plannedTexts E (store w) documentId)) in
  exists created,
    embeddings (store w') = embeddings (store w) ++ created
    /\ (taken = true ->
        exists e,
          In e created
          /\ (forall e', In e' created -> chunkIndex e' = i -> e' = e)
          /\ emb_documentId e = documentId
          /\ emb_pageNumber e = Some (i + 1)
          /\ chunkText e = Pg.wellFormed (JS.prefix 2000 text)
          /\ (noSurrogate (JS.prefix 2000 text) = true -> chunkText e = JS.prefix 2000 text)
          /\ chunkIndex e = i
          /\ tokenCount e = Some (JS.ceilDiv (length text) 4)
          /\ (length text <= 2000 ->
              tokenCount e = Some (JS.ceilDiv (length (chunkText e)) 4)))
    /\ (taken = false -> forall e', In e' created -> chunkIndex e' <> i).
Proof.
  intros Hnth Hb w' taken.
  destruct (processDocument_tables documentId w) as (ps & cs & _ & Hemb & _ & Hcs).
  fold w' in Hemb. exists cs. split; [exact Hemb|].
  pose proof (chunkOf_indices _ _ _ Hcs) as Hidx.
  split.
  - intros Htaken.
    assert (Hin : In (i, text)
                    (indexedFrom 0 (reached (plannedTexts E (store w) documentId)))).
    { apply indexedFrom_nth. rewrite Nat.sub_0_r.
      split; [lia|]. split; [|exact Hb]. apply reached_nth. split; assumption. }
    destruct (@Forall2_In_left _ _ _ _ _ _ Hcs Hin)
      as (e & He & Hdoc & Hpage & Htext & Hi & Htok).
    cbn [fst snd] in *.
    exists e. repeat split; try assumption.
    + intros e' He' Hi'.
      apply (@increasing_injective _ chunkIndex cs); try assumption; [|congruence].
      rewrite Hidx. apply indexedFrom_increasing.
    + intros Hplain. rewrite Htext. apply wellFormed_plain. exact Hplain.
    + intros Hlen. rewrite Htok, Htext, wellFormed_length.
      unfold chunkLimit. rewrite prefix_short by exact Hlen. reflexivity.
  - intros Hrefused e' He' Hi'.
    assert (Hk : In (chunkIndex e') (map chunkIndex cs)) by (apply in_map; exact He').
    rewrite Hidx, Hi' in Hk. apply in_map_iff in Hk. destruct Hk as ([j t] & Hj & Hin).
    cbn [fst] in Hj. subst j. apply indexedFrom_nth in Hin. rewrite Nat.sub_0_r in Hin.
    destruct Hin as (_ & Hin & _). apply reached_nth in Hin. destruct Hin as [_ Hin].
    unfold taken in Hrefused. congruence.
Qed.

(** C3 (amended).  After a processing run that started with no chunk of the
    document (as after upload or after the reset of reprocess), every stored
    chunk text of the document has at most 2000 code units, and the chunk
    indices, in creation order, are the 0-based positions of the non-blank
    extracted pages up to the first page text that the database refuses:
    strictly increasing, so without repeats, each below the number of
    extracted pages, all the non-blank positions when no page text is
    refused, and exactly 0, 1, ..., n-1 when moreover none of the n extracted
    pages is blank. *)
Theorem C3_chunk_bounds_and_indices (documentId : nat) (w : World) :
  chunksOf (store w) documentId = [] ->
  let texts := plannedTexts E (store w) documentId in
  let chunks := chunksOf (store (snd (processDocument E documentId w))) documentId in
  Forall (fun e => length (chunkText e) <= 2000) chunks
  /\ map chunkIndex chunks = map fst (indexedFrom 0 (reached texts))
  /\ (exists later, map fst (indexedFrom 0 texts) = map chunkIndex chunks ++ later)
  /\ StronglySorted lt (map chunkIndex chunks)
  /\ Forall (fun k => k < length texts) (map chunkIndex chunks)
  /\ (forallb storableOrBlank texts = true ->
      map chunkIndex chunks = map fst (indexedFrom 0 texts))
  /\ (forallb storableOrBlank texts = true -> forallb nonBlank texts = true ->
      map chunkIndex chunks = seq 0 (length texts)).
Proof.
  intros Hfresh texts chunks.
  destruct (processDocument_tables documentId w) as (ps & cs & _ & Hemb & _ & Hcs).
  fold texts in Hcs.
  assert (Hchunks : chunks = cs).
  { unfold chunks, chunksOf. rewrite Hemb, filter_app.
    unfold chunksOf in Hfresh. rewrite Hfresh. cbn [app].
    eapply chunksOf_new; eassumption. }
  rewrite Hchunks. pose proof (chunkOf_indices _ _ _ Hcs) as Hidx.
  split; [|split; [|split; [|split; [|split; [|split]]]]].
  - eapply Forall2_right; [exact Hcs|]. intros it e. apply chunkOf_length.
  - exact Hidx.
  - rewrite Hidx. apply reached_positions.
  - rewrite Hidx. apply indexedFrom_increasing.
  - rewrite Hidx. apply Forall_forall. intros k Hk. apply in_map_iff in Hk.
    destruct Hk as (it & <- & Hin). apply indexedFrom_bounds in Hin.
    pose proof (reached_length texts). lia.
  - intros Hall. rewrite Hidx, (reached_all _ Hall). reflexivity.
  - intros Hall Hdense. rewrite Hidx, (reached_all _ Hall).
    apply indexedFrom_dense. exact Hdense.
Qed.

(** C4 (amended).  After a processing run that started with no page of the
    document, the page numbers of the document's stored pages, in creation
    order, are the 1-based positions of the non-blank extracted pages up to
    the first page text that the database refuses: strictly increasing, so
    unique, each between 1 and the number of extracted pages, all the
    non-blank positions when no page text is refused, and exactly 1, 2, ...,
    n when moreover none of the n extracted pages is blank. *)
Theorem C4_page_numbers (documentId : nat) (w : World) :
  pagesOf (store w) documentId = [] ->
  let texts := plannedTexts E (store w) documentId in
  let pages := pagesOf (store (snd (processDocument E documentId w))) documentId in
  map pageNumber pages = map (fun it => fst it + 1) (indexedFrom 0 (reached texts))
  /\ (exists later,
        map (fun it => fst it + 1) (indexedFrom 0 texts) = map pageNumber pages ++ later)
  /\ StronglySorted lt (map pageNumber pages)
  /\ Forall (fun k => 1 <= k <= length texts) (map pageNumber pages)
  /\ (forallb storableOrBlank texts = true ->
      map pageNumber pages = map (fun it => fst it + 1) (indexedFrom 0 texts))
  /\ (forallb storableOrBlank texts = true -> forallb nonBlank texts = true ->
      map pageNumber pages = seq 1 (length texts)).
Proof.
  intros Hfresh texts pages.
  destruct (processDocument_tables documentId w) as (ps & cs & Hpg & _ & Hps & _).
  fold texts in Hps.
  assert (Hpages : pages = ps).
  { unfold pages, pagesOf. rewrite Hpg, filter_app.
    unfold pagesOf in Hfresh. rewrite Hfresh. cbn [app].
    eapply pagesOf_new; eassumption. }
  rewrite Hpages. pose proof (pageOf_numbers _ _ _ Hps) as Hnum.
  split; [|split; [|split; [|split; [|split]]]].
  - exact Hnum.
  - rewrite Hnum. destruct (reached_positions texts) as (later & Hlater).
    exists (map (fun k => k + 1) later).
    rewrite <- !(map_map fst (fun k => k + 1)), Hlater, map_app. reflexivity.
  - rewrite Hnum, <- (map_map fst (fun k => k + 1)).
    apply increasing_shift, indexedFrom_increasing.
  - rewrite Hnum. apply Forall_forall. intros k Hk. apply in_map_iff in Hk.
    destruct Hk as (it & <- & Hin). apply indexedFrom_bounds in Hin.
    pose proof (reached_length texts). lia.
  - intros Hall. rewrite Hnum, (reached_all _ Hall). reflexivity.
  - intros Hall Hdense. rewrite Hnum, (reached_all _ Hall), <- (map_map fst (fun k => k + 1)).
    rewrite indexedFrom_dense by exact Hdense.
    rewrite <- seq_shift. apply map_ext. intros k. lia.
Qed.

(* ------------------------------------------------------------------ *)
(** ** Extraction *)

Lemma pdfFailureText_nonBlank : nonBlank pdfFailureText = true.
Proof. reflexivity. Qed.

(** C6.  When the document is a PDF whose parsing throws, extraction yields
    exactly one page holding the fixed failure text, that page is stored as
    page 1, and the run ends with the document completed. *)
Theorem C6_unparseable_pdf_completes (documentId : nat) (w : World)
    (d : Document) (bytes : list N) :
  lookup (store w) documentId = Some d ->
  fileType d = lit "application/pdf" ->
  objectFile E (filePath d) = FetchOk bytes ->
  PDFParse E bytes = PdfThrows ->
  let result := processDocument E documentId w in
  pageTexts (extract E (fileType d) bytes) = [pdfFailureText]
  /\ fst result = Ok tt
  /\ (exists p,
        documentPages (store (snd result)) = documentPages (store w) ++ [p]
        /\ pg_documentId p = documentId
        /\ pageNumber p = 1
        /\ pageText p = Some pdfFailureText)
  /\ (exists d',
        lookup (store (snd result)) documentId = Some d'
        /\ processingStatus d' = completed
        /\ fullText d' = Some pdfFailureText
        /\ errorMessage d' = errorMessage d).
Proof.
  intros Hd Hmime Hfetch Hpdf result.
  assert (Hx : extract E (fileType d) bytes
               = mkExtraction pdfFailureText 1 [pdfFailureText]).
  { unfold extract. rewrite Hmime. cbn [JS.eqb]. rewrite Hpdf. reflexivity. }
  assert (Hstored : Pg.wellFormed pdfFailureText = pdfFailureText) by reflexivity.
  destruct w as [[docs pages chunks qa n] tr]. unfold lookup in Hd. cbn [store documents] in *.
  destruct (processDocument_readable documentId docs pages chunks qa n tr d bytes Hd Hfetch)
    as (ps & cs & n' & docs'' & tr' & Hrun & Hps & _ & Hok & _).
  cbv zeta in Hps, Hok. rewrite Hx in Hps, Hok.
  destruct (Hok eq_refl) as (_ & label & _ & Hdocs).
  cbn [pageTexts reached indexedFrom] in Hps.
  change (storableOrBlank pdfFailureText) with true in Hps.
  cbn [indexedFrom] in Hps. rewrite pdfFailureText_nonBlank in Hps. cbn [app] in Hps.
  inversion Hps as [|it p items ps' Hp Hrest]; subst ps.
  inversion Hrest; subst. destruct Hp as (Hp1 & Hp2 & Hp3). cbn [fst snd] in *.
  subst result. rewrite Hrun. cbn [fst snd store documentPages].
  split; [rewrite Hx; reflexivity|]. split; [reflexivity|]. split.
  - exists p. rewrite Hstored in Hp3. auto.
  - unfold lookup. cbn [documents]. rewrite !lookup_updateRows, Hd.
    cbn [option_map]. eexists. split; [reflexivity|].
    cbn [applyUpdate completedUpdate statusUpdate asStored extractedText orKeep
         processingStatus fullText errorMessage
         u_processingStatus u_fullText u_errorMessage].
    rewrite Hstored. repeat split.
Qed.

(* ------------------------------------------------------------------ *)
(** ** Deletion *)

Lemma find_removed i ds : find (byId i) (filter (fun d => negb (byId i d)) ds) = None.
Proof.
  induction ds as [|d ds IH]; [reflexivity|]. cbn [filter].
  destruct (byId i d) eqn:Hd; cbn [negb]; [exact IH|].
  cbn [find]. rewrite Hd. exact IH.
Qed.

Lemma find_kept i j ds :
  j <> i -> find (byId j) (filter (fun d => negb (byId i d)) ds) = find (byId j) ds.
Proof.
  intros Hne. induction ds as [|d ds IH]; [reflexivity|]. cbn [filter find].
  unfold byId in *. destruct (Nat.eqb (id d) i) eqn:Hi; cbn [negb].
  - apply Nat.eqb_eq in Hi. destruct (Nat.eqb (id d) j) eqn:Hj; [|exact IH].
    apply Nat.eqb_eq in Hj. congruence.
  - cbn [find]. destruct (Nat.eqb (id d) j); [reflexivity | exact IH].
Qed.

Lemma filter_owned_removed {A} (owner : A -> nat) i (rows : list A) :
  filter (fun r => ofDocument i (owner r))
    (filter (fun r => negb (ofDocument i (owner r))) rows) = [].
Proof.
  apply filter_none. intros r Hr. apply filter_In in Hr. destruct Hr as [_ Hr].
  destruct (ofDocument i (owner r)); [discriminate | reflexivity].
Qed.

Lemma filter_owned_kept {A} (owner : A -> nat) i j (rows : list A) :
  j <> i ->
  filter (fun r => ofDocument j (owner r))
    (filter (fun r => negb (ofDocument i (owner r))) rows)
  = filter (fun r => ofDocument j (owner r)) rows.
Proof.
  intros Hne. induction rows as [|r rows IH]; [reflexivity|]. cbn [filter].
  unfold ofDocument in *. destruct (Nat.eqb (owner r) i) eqn:Hi; cbn [negb].
  - apply Nat.eqb_eq in Hi. destruct (Nat.eqb (owner r) j) eqn:Hj; [|exact IH].
    apply Nat.eqb_eq in Hj. congruence.
  - cbn [filter]. rewrite IH. reflexivity.
Qed.

Lemma deleteRoute_run i docs pages chunks qa n tr :
  hasId docs i = true ->
  deleteRoute i (mkWorld (mkStore docs pages chunks qa n) tr)
  = (Ok (mkResponse 204 None),
     mkWorld (mkStore (filter (fun d => negb (byId i d)) docs)
                (filter (fun p => negb (ofDocument i (pg_documentId p))) pages)
                (filter (fun e => negb (ofDocument i (emb_documentId e))) chunks)
                qa n) tr).
Proof.
  intros Hhas. unfold deleteRoute, deleteDocument, deleteDocumentUnder, schema.
  cbv [tryCatch bind getStore setStore ret throw store trace hasDocument
       documents documentPages embeddings qaHistory nextId
       pagesOnDelete embeddingsOnDelete orb].
  rewrite Hhas. reflexivity.
Qed.

(** C7.  Deleting an existing document answers 204 and removes the document
    row together with every page row and every chunk row of that document;
    the rows of the other documents stay as they were. *)
Theorem C7_delete_cascades (i : nat) (w : World) (d : Document) :
  lookup (store w) i = Some d ->
  let result := deleteRoute i w in
  let s' := store (snd result) in
  fst result = Ok (mkResponse 204 None)
  /\ lookup s' i = None
  /\ pagesOf s' i = []
  /\ chunksOf s' i = []
  /\ (forall p, In p (documentPages s') -> pg_documentId p <> i)
  /\ (forall e, In e (embeddings s') -> emb_documentId e <> i)
  /\ (forall j, j <> i ->
        lookup s' j = lookup (store w) j
        /\ pagesOf s' j = pagesOf (store w) j
        /\ chunksOf s' j = chunksOf (store w) j).
Proof.
  destruct w as [[docs pages chunks qa n] tr]. unfold lookup. cbn [store documents].
  intros Hd.
  rewrite deleteRoute_run by (eapply find_hasId; eassumption).
  unfold lookup, pagesOf, chunksOf.
  cbn [fst snd store documents documentPages embeddings].
  split; [reflexivity|]. split; [apply find_removed|].
  split; [apply (filter_owned_removed pg_documentId)|].
  split; [apply (filter_owned_removed emb_documentId)|].
  split; [|split].
  - intros p Hp Heq. apply filter_In in Hp. destruct Hp as [_ Hp].
    unfold ofDocument in Hp. rewrite Heq, Nat.eqb_refl in Hp. discriminate.
  - intros e He Heq. apply filter_In in He. destruct He as [_ He].
    unfold ofDocument in He. rewrite Heq, Nat.eqb_refl in He. discriminate.
  - intros j Hj. split; [apply find_kept; exact Hj|].
    split; [apply (filter_owned_kept pg_documentId) | apply (filter_owned_kept emb_documentId)];
      exact Hj.
Qed.

(** Under a schema whose keys do not cascade the same request fails and
    removes nothing, so the cascade is owed to the declared keys. *)
Lemma delete_without_cascade_is_refused i docs pages chunks qa n tr p :
  hasId docs i = true -> In p pages -> pg_documentId p = i ->
  exists message,
    deleteDocumentUnder (mkSchema NoAction NoAction) i
      (mkWorld (mkStore docs pages chunks qa n) tr)
    = (Throw message, mkWorld (mkStore docs pages chunks qa n) tr).
Proof.
  intros Hhas Hin Hp. unfold deleteDocumentUnder.
  cbv [bind getStore setStore ret throw store trace hasDocument
       documents documentPages embeddings qaHistory nextId
       pagesOnDelete embeddingsOnDelete].
  rewrite Hhas. cbn [negb].
  assert (Hex : existsb (fun p0 => ofDocument i (pg_documentId p0)) pages = true).
  { apply existsb_exists. exists p. split; [exact Hin|].
    unfold ofDocument. rewrite Hp. apply Nat.eqb_refl. }
  rewrite Hex. cbn [orb]. eexists. reflexivity.
Qed.

(* ------------------------------------------------------------------ *)
(** ** Reprocess *)

Lemma reprocessRoute_run i docs pages chunks qa n tr d :
  find (byId i) docs = Some d ->
  snd (reprocessRoute i (mkWorld (mkStore docs pages chunks qa n) tr))
  = mkWorld (mkStore (updateRows i resetUpdate docs)
               (filter (fun p => negb (ofDocument i (pg_documentId p))) pages)
               (filter (fun e => negb (ofDocument i (emb_documentId e))) chunks)
               qa n)
            (tr ++ [EvSpawnProcess i]).
Proof.
  intros Hd. unfold reprocessRoute, deleteDocumentPages, deleteDocumentEmbeddings,
    sendError, sendJson.
  cbv [tryCatch bind getDocument updateDocument getStore setStore emit ret throw
       store trace documents documentPages embeddings qaHistory nextId].
  rewrite Hd. reflexivity.
Qed.

Lemma runPipeline_documents i w :
  documents (store (snd (runPipeline E i w)))
  = updateRows i (statusUpdate processing) (documents (store w)).
Proof.
  destruct w as [[docs pages chunks qa n] tr]. cbn [store documents].
  destruct (find (byId i) docs) as [d|] eqn:Hd.
  - destruct (objectFile E (filePath d)) as [message|bytes] eqn:Hfetch.
    + rewrite (runPipeline_unreadable _ _ _ _ _ _ _ _ _ Hd Hfetch). reflexivity.
    + destruct (runPipeline_readable i docs pages chunks qa n tr d bytes Hd Hfetch)
        as (ps & cs & n' & _ & _ & Hrun).
      cbv zeta in Hrun.
      destruct (forallb storableOrBlank (pageTexts (extract E (fileType d) bytes))).
      * destruct Hrun as (label & _ & Hrun). rewrite Hrun. reflexivity.
      * rewrite Hrun. reflexivity.
  - rewrite (runPipeline_missing _ _ _ _ _ _ _ Hd). cbn [snd store documents].
    symmetry. apply updateRows_absent. exact Hd.
Qed.

(** C10.  The reset of reprocess writes exactly six columns of the document
    row: the status becomes pending and fullText, aiSummary, keyTopics,
    sentiment and errorMessage become null.  All other columns (documentType,
    pageCount, title, filePath, fileSizeBytes, processedDate among them) keep
    their values, the rows of other documents are untouched, and the columns
    keep those values through the new run up to its final update. *)
Theorem C10_reprocess_reset_frame (i : nat) (w : World) (d : Document) :
  lookup (store w) i = Some d ->
  let w1 := snd (reprocessRoute i w) in
  let w2 := snd (runPipeline E i w1) in
  documents (store w1) = updateRows i resetUpdate (documents (store w))
  /\ (exists d1,
        lookup (store w1) i = Some d1
        /\ processingStatus d1 = pending
        /\ derivedFieldsCleared d1
        /\ keepsOtherFields d d1)
  /\ (forall j, j <> i -> lookup (store w1) j = lookup (store w) j)
  /\ (exists d2,
        lookup (store w2) i = Some d2
        /\ processingStatus d2 = processing
        /\ derivedFieldsCleared d2
        /\ keepsOtherFields d d2).
Proof.
  destruct w as [[docs pages chunks qa n] tr]. unfold lookup. cbn [store documents].
  intros Hd.
  set (w1 := snd (reprocessRoute i _)). set (w2 := snd (runPipeline E i w1)).
  assert (H1 : documents (store w1) = updateRows i resetUpdate docs).
  { unfold w1. erewrite reprocessRoute_run by exact Hd. reflexivity. }
  assert (H2 : documents (store w2)
               = updateRows i (statusUpdate processing) (updateRows i resetUpdate docs)).
  { unfold w2. rewrite runPipeline_documents, H1. reflexivity. }
  split; [exact H1|]. split; [|split].
  - rewrite H1, lookup_updateRows, Hd. cbn [option_map]. eexists.
    split; [reflexivity|]. repeat split.
  - intros j Hj. rewrite H1. apply lookup_updateRows_other. congruence.
  - rewrite H2, !lookup_updateRows, Hd. cbn [option_map]. eexists.
    split; [reflexivity|]. repeat split.
Qed.

(* ------------------------------------------------------------------ *)
(** ** Reading the store *)


Lemma searchEmbeddings_run query limit w :
  searchEmbeddings E query limit w
  = (Ok (found E (store w) query limit),
     mkWorld (store w) (trace w ++ [EvSearchEmbeddings query limit])).
Proof.
  unfold searchEmbeddings, found.
  cbv [bind emit getStore ret store trace].
  destruct (Nat.ltb 0 _); reflexivity.
Qed.

Lemma getDocuments_run f w :
  getDocuments E f w
  = (Ok (orderBy newerFirst (filter (docMatches E f) (documents (store w)))),
     mkWorld (store w) (trace w ++ [EvGetDocuments f])).
Proof. reflexivity. Qed.

Lemma filter_noFilters ds : filter (docMatches E noFilters) ds = ds.
Proof. induction ds as [|d ds IH]; [reflexivity|]. cbn. rewrite IH. reflexivity. Qed.

Lemma mapM_read {A B} (f : A -> M B) (g : A -> B) (w : World) (xs : list A) :
  (forall x, f x w = (Ok (g x), w)) -> mapM f xs w = (Ok (map g xs), w).
Proof.
  intros Hf. induction xs as [|x xs IH]; [reflexivity|].
  cbn [mapM map]. unfold bind at 1. rewrite Hf. unfold bind at 1. rewrite IH.
  reflexivity.
Qed.

Lemma mapM_read_some {A B} (f : A -> M B) (w : World) (xs : list A) :
  (forall x, exists y, f x w = (Ok y, w)) ->
  exists ys, mapM f xs w = (Ok ys, w) /\ length ys = length xs.
Proof.
  intros Hf. induction xs as [|x xs (ys & IH & Hlen)]; [exists []; split; reflexivity|].
  destruct (Hf x) as (y & Hy). exists (y :: ys). split; [|cbn; congruence].
  cbn [mapM]. unfold bind at 1. rewrite Hy. unfold bind at 1. rewrite IH. reflexivity.
Qed.

Lemma eventsOf_appended {A} (m : M A) (w : World) r s' evs :
  m w = (r, mkWorld s' (trace w ++ evs)) -> eventsOf m w = evs.
Proof.
  intros H. unfold eventsOf. rewrite H. cbn [snd trace].
  rewrite skipn_app, Nat.sub_diag, skipn_all. reflexivity.
Qed.

(* ------------------------------------------------------------------ *)
(** ** Corpus search *)

Lemma titleResult_read doc w : exists j, titleResult doc w = (Ok j, w).
Proof. unfold titleResult, getDocumentPages. cbv [bind getStore ret]. eexists. reflexivity. Qed.

Lemma chunkResult_read emb w : exists j, chunkResult emb w = (Ok j, w).
Proof. unfold chunkResult, getDocument. cbv [bind getStore ret]. eexists. reflexivity. Qed.


(* ------------------------------------------------------------------ *)
(** ** Corpus-wide ask *)

(** A response without braces is answered as plain text and recorded. *)
Lemma synthesize_plain_text context question ids w text :
  messages_create E (corpusRequest context question) = GenText text ->
  JS.matchBraces text = None ->
  synthesize E context question ids w
  = (Ok (mkResponse 200 (Some (plainAnswer text))),
     recorded (mkQa question (Some (JStr text)) (Some (JArr [])) (dedupe [] ids))
       (generated context question w)).
Proof.
  intros Hgen Hmatch. unfold synthesize, textContent, messagesCreate.
  cbv [bind emit ret throw store trace]. rewrite Hgen, Hmatch.
  reflexivity.
Qed.

(** A response with braces around something [JSON.parse] rejects throws. *)
Lemma synthesize_unparseable context question ids w text jsonMatch :
  messages_create E (corpusRequest context question) = GenText text ->
  JS.matchBraces text = Some jsonMatch ->
  JSON_parse E jsonMatch = None ->
  synthesize E context question ids w
  = (Throw (lit "Unexpected token in JSON"), generated context question w).
Proof.
  intros Hgen Hmatch Hparse. unfold synthesize, textContent, messagesCreate, jsonParse.
  cbv [bind emit ret throw store trace]. rewrite Hgen, Hmatch, Hparse.
  reflexivity.
Qed.



(** The fallback branch, step by step. *)
Lemma qaAskRoute_fallback question w :
  JS.truthy question = true ->
  found E (store w) question 10 = [] ->
  qaAskRoute E question w
  = if Nat.eqb (length (listed (store w))) 0 then
      (Ok (mkResponse 200 (Some (insufficient
         "No documents have been uploaded yet. Please upload some documents first."))),
       searched question w)
    else if Nat.eqb (length (contentOf (store w))) 0 then
      (Ok (mkResponse 200 (Some (insufficient
         "I cannot answer this question - the documents appear to have no extractable text content."))),
       searched question w)
    else
      tryCatch (synthesize E (fallbackContext (contentOf (store w))) question
                  (map src_documentId (contentOf (store w))))
               (fun _ => sendError 500 "Failed to answer question")
               (searched question w).
Proof.
  intros Hq Hfound. unfold qaAskRoute. rewrite Hq. cbn [negb].
  unfold tryCatch at 1. unfold bind at 1. rewrite searchEmbeddings_run, Hfound.
  cbn [length Nat.eqb]. unfold bind at 1. rewrite getDocuments_run.
  rewrite filter_noFilters. cbn [store trace]. rewrite <- app_assoc. cbn [app].
  fold (listed (store w)). fold (searched question w).
  destruct (Nat.eqb (length (listed (store w))) 0) eqn:Hdocs; [reflexivity|].
  unfold collectContent. unfold bind at 1. unfold bind at 1.
  rewrite (@mapM_read _ _ documentSources
             (fun d => sourcesOf d (orderedPages (store w) (id d)))) by reflexivity.
  unfold ret at 1. fold (chosen (store w)). fold (contentOf (store w)).
  destruct (Nat.eqb (length (contentOf (store w))) 0) eqn:Hcontent; [reflexivity|].
  reflexivity.
Qed.



(** *** The listing is newest first *)

Lemma insertBy_perm {A} (before : A -> A -> bool) x l :
  Permutation (insertBy before x l) (x :: l).
Proof.
  induction l as [|y l IH]; [reflexivity|]. cbn [insertBy].
  destruct (before x y); [reflexivity|].
  rewrite IH. apply perm_swap.
Qed.

Lemma orderBy_perm {A} (before : A -> A -> bool) l : Permutation (orderBy before l) l.
Proof.
  induction l as [|x l IH]; [reflexivity|]. cbn [orderBy fold_right].
  fold (orderBy before l). rewrite insertBy_perm, IH. reflexivity.
Qed.




Lemma sourcesOf_owner d pages c : In c (sourcesOf d pages) -> src_documentId c = id d.
Proof.
  unfold sourcesOf. intros Hin. apply in_app_or in Hin. destruct Hin as [Hin|Hin].
  - apply in_flat_map in Hin. destruct Hin as (p & _ & Hin).
    destruct (textOf (pageText p)); [|destruct Hin].
    destruct Hin as [<-|[]]. reflexivity.
  - destruct (Nat.eqb (length pages) 0); [|destruct Hin].
    destruct (textOf (fullText d)); [|destruct Hin].
    destruct Hin as [<-|[]]. reflexivity.
Qed.

Lemma eventsOf_trace {A} (m : M A) (w : World) evs :
  trace (snd (m w)) = trace w ++ evs -> eventsOf m w = evs.
Proof.
  intros H. unfold eventsOf. rewrite H.
  rewrite skipn_app, Nat.sub_diag, skipn_all. reflexivity.
Qed.





(* ------------------------------------------------------------------ *)
(** ** Responses of the generation service that are not JSON *)

Lemma documentAskRoute_reaches i question w d :
  JS.truthy question = true ->
  lookup (store w) i = Some d ->
  filter hasText (orderedPages (store w) i) <> [] ->
  documentAskRoute E i question w
  = tryCatch (answerFromPages E d (filter hasText (orderedPages (store w) i)) question)
      (fun _ => sendError 500 "Failed to answer question") w.
Proof.
  intros Hq Hd Hpages. unfold documentAskRoute. rewrite Hq. cbn [negb].
  unfold tryCatch, getDocumentPages.
  cbv [bind getDocument getStore ret]. unfold lookup in Hd. rewrite Hd.
  destruct (filter hasText (orderedPages (store w) i)) as [|p rest];
    [contradiction Hpages; reflexivity | reflexivity].
Qed.

Lemma answerFromPages_plain_text d pages question w text :
  messages_create E (documentRequest d (documentContext pages) question) = GenText text ->
  JS.matchBraces text = None ->
  answerFromPages E d pages question w
  = (Ok (mkResponse 200 (Some (answerObject text []))),
     mkWorld (store w)
       (trace w ++ [EvGenerate (documentRequest d (documentContext pages) question)])).
Proof.
  intros Hgen Hmatch. unfold answerFromPages, textContent, messagesCreate.
  cbv [bind emit ret throw store trace]. rewrite Hgen, Hmatch. reflexivity.
Qed.

Lemma answerFromPages_unparseable d pages question w text jsonMatch :
  messages_create E (documentRequest d (documentContext pages) question) = GenText text ->
  JS.matchBraces text = Some jsonMatch ->
  JSON_parse E jsonMatch = None ->
  answerFromPages E d pages question w
  = (Throw (lit "Unexpected token in JSON"),
     mkWorld (store w)
       (trace w ++ [EvGenerate (documentRequest d (documentContext pages) question)])).
Proof.
  intros Hgen Hmatch Hparse. unfold answerFromPages, textContent, messagesCreate, jsonParse.
  cbv [bind emit ret throw store trace]. rewrite Hgen, Hmatch, Hparse. reflexivity.
Qed.

(** The part of C1 that the document-scoped ask keeps: text without braces
    is returned as the answer, with no citation. *)
Lemma documentAsk_plain_text_succeeds i question w d text :
  JS.truthy question = true ->
  lookup (store w) i = Some d ->
  filter hasText (orderedPages (store w) i) <> [] ->
  (forall r, messages_create E r = GenText text) ->
  JS.matchBraces text = None ->
  fst (documentAskRoute E i question w)
  = Ok (mkResponse 200 (Some (answerObject text []))).
Proof.
  intros Hq Hd Hpages Hgen Hmatch.
  rewrite (documentAskRoute_reaches i question w d Hq Hd Hpages). unfold tryCatch.
  rewrite (answerFromPages_plain_text _ _ _ _ text (Hgen _) Hmatch). reflexivity.
Qed.

(** The part it misses: braces around something that is not JSON. *)
Lemma documentAsk_unparseable_fails i question w d text jsonMatch :
  JS.truthy question = true ->
  lookup (store w) i = Some d ->
  filter hasText (orderedPages (store w) i) <> [] ->
  (forall r, messages_create E r = GenText text) ->
  JS.matchBraces text = Some jsonMatch ->
  JSON_parse E jsonMatch = None ->
  fst (documentAskRoute E i question w) = Ok failedToAnswer.
Proof.
  intros Hq Hd Hpages Hgen Hmatch Hparse.
  rewrite (documentAskRoute_reaches i question w d Hq Hd Hpages). unfold tryCatch.
  rewrite (answerFromPages_unparseable _ _ _ _ text jsonMatch (Hgen _) Hmatch Hparse).
  reflexivity.
Qed.

Lemma chunkSource_read w chunk : chunkSource chunk w = (Ok (chunkSourceOf (store w) chunk), w).
Proof. reflexivity. Qed.

(** The branch of the corpus-wide ask that found chunks. *)
Lemma qaAskRoute_chunks question w :
  JS.truthy question = true ->
  found E (store w) question 10 <> [] ->
  let sources := map (chunkSourceOf (store w)) (found E (store w) question 10) in
  qaAskRoute E question w
  = tryCatch (synthesize E (chunkContext sources) question (map src_documentId sources))
      (fun _ => sendError 500 "Failed to answer question")
      (mkWorld (store w) (trace w ++ [EvSearchEmbeddings question 10])).
Proof.
  intros Hq Hfound sources. unfold qaAskRoute. rewrite Hq. cbn [negb].
  unfold tryCatch at 1. unfold bind at 1. rewrite searchEmbeddings_run.
  destruct (found E (store w) question 10) as [|e rows] eqn:Hrows;
    [contradiction Hfound; reflexivity|].
  cbn [length Nat.eqb]. unfold bind at 1.
  rewrite (mapM_read chunkSource (chunkSourceOf (store w))) by (intros x; reflexivity).
  reflexivity.
Qed.

(** Both branches of the corpus-wide ask: text without braces becomes the
    answer, with no citation and insufficientEvidence false. *)
Lemma corpusAsk_plain_text_succeeds question w text :
  JS.truthy question = true ->
  (forall r, messages_create E r = GenText text) ->
  JS.matchBraces text = None ->
  existsb isGenerate (eventsOf (qaAskRoute E question) w) = true ->
  fst (qaAskRoute E question w) = Ok (mkResponse 200 (Some (plainAnswer text))).
Proof.
  intros Hq Hgen Hmatch Hcalled.
  destruct (found E (store w) question 10) as [|e rows] eqn:Hfound.
  - pose proof (qaAskRoute_fallback question w Hq Hfound) as Hrun.
    destruct (Nat.eqb (length (listed (store w))) 0);
      [rewrite (@eventsOf_appended _ _ _ _ _ _ Hrun) in Hcalled; discriminate|].
    destruct (Nat.eqb (length (contentOf (store w))) 0);
      [rewrite (@eventsOf_appended _ _ _ _ _ _ Hrun) in Hcalled; discriminate|].
    rewrite Hrun. unfold tryCatch.
    rewrite (synthesize_plain_text _ _ _ _ text (Hgen _) Hmatch). reflexivity.
  - assert (Hne : found E (store w) question 10 <> []) by (rewrite Hfound; discriminate).
    rewrite (qaAskRoute_chunks question w Hq Hne). unfold tryCatch.
    rewrite (synthesize_plain_text _ _ _ _ text (Hgen _) Hmatch). reflexivity.
Qed.

(** And braces around something that is not JSON end in the 500 response. *)
Lemma corpusAsk_unparseable_fails question w text jsonMatch :
  JS.truthy question = true ->
  (forall r, messages_create E r = GenText text) ->
  JS.matchBraces text = Some jsonMatch ->
  JSON_parse E jsonMatch = None ->
  existsb isGenerate (eventsOf (qaAskRoute E question) w) = true ->
  fst (qaAskRoute E question w) = Ok failedToAnswer.
Proof.
  intros Hq Hgen Hmatch Hparse Hcalled.
  destruct (found E (store w) question 10) as [|e rows] eqn:Hfound.
  - pose proof (qaAskRoute_fallback question w Hq Hfound) as Hrun.
    destruct (Nat.eqb (length (listed (store w))) 0);
      [rewrite (@eventsOf_appended _ _ _ _ _ _ Hrun) in Hcalled; discriminate|].
    destruct (Nat.eqb (length (contentOf (store w))) 0);
      [rewrite (@eventsOf_appended _ _ _ _ _ _ Hrun) in Hcalled; discriminate|].
    rewrite Hrun. unfold tryCatch.
    rewrite (synthesize_unparseable _ _ _ _ text jsonMatch (Hgen _) Hmatch Hparse).
    reflexivity.
  - assert (Hne : found E (store w) question 10 <> []) by (rewrite Hfound; discriminate).
    rewrite (qaAskRoute_chunks question w Hq Hne). unfold tryCatch.
    rewrite (synthesize_unparseable _ _ _ _ text jsonMatch (Hgen _) Hmatch Hparse).
    reflexivity.
Qed.

(* ------------------------------------------------------------------ *)
(** ** Referential integrity is kept by the handlers that write *)

Lemma hasId_filter_other i j ds :
  j <> i -> hasId (filter (fun d => negb (byId i d)) ds) j = hasId ds j.
Proof.
  intros Hne. unfold hasId. induction ds as [|d ds IH]; [reflexivity|].
  cbn [filter existsb]. unfold byId in *.
  destruct (Nat.eqb (id d) i) eqn:Hi; cbn [negb].
  - apply Nat.eqb_eq in Hi. destruct (Nat.eqb (id d) j) eqn:Hj; [|exact IH].
    apply Nat.eqb_eq in Hj. congruence.
  - cbn [existsb]. rewrite IH. reflexivity.
Qed.

Lemma deleteRoute_absent i w :
  hasDocument (store w) i = false -> store (snd (deleteRoute i w)) = store w.
Proof.
  intros Hno. unfold deleteRoute, deleteDocument, deleteDocumentUnder.
  cbv [tryCatch bind getStore ret]. rewrite Hno. reflexivity.
Qed.

Lemma deleteRoute_keeps_foreign_keys i w :
  foreignKeysHold (store w) -> foreignKeysHold (store (snd (deleteRoute i w))).
Proof.
  intros Hfk. destruct (hasDocument (store w) i) eqn:Hhas;
    [|rewrite deleteRoute_absent by exact Hhas; exact Hfk].
  destruct w as [[docs pages chunks qa n] tr]. destruct Hfk as [Hp Hc].
  unfold hasDocument in *. cbn [store documents documentPages embeddings] in *.
  rewrite deleteRoute_run by exact Hhas. cbn [snd store].
  split; unfold hasDocument; cbn [documents documentPages embeddings].
  - intros p Hin. apply filter_In in Hin. destruct Hin as [Hin Hown].
    rewrite hasId_filter_other; [apply Hp; exact Hin|].
    unfold ofDocument in Hown. intros Heq. rewrite Heq, Nat.eqb_refl in Hown. discriminate.
  - intros e Hin. apply filter_In in Hin. destruct Hin as [Hin Hown].
    rewrite hasId_filter_other; [apply Hc; exact Hin|].
    unfold ofDocument in Hown. intros Heq. rewrite Heq, Nat.eqb_refl in Hown. discriminate.
Qed.

Lemma reprocessRoute_absent i w :
  lookup (store w) i = None -> store (snd (reprocessRoute i w)) = store w.
Proof.
  intros Hno. unfold reprocessRoute. cbv [tryCatch bind getDocument getStore ret].
  unfold lookup in Hno. rewrite Hno. reflexivity.
Qed.

Lemma reprocessRoute_keeps_foreign_keys i w :
  foreignKeysHold (store w) -> foreignKeysHold (store (snd (reprocessRoute i w))).
Proof.
  intros Hfk. destruct (lookup (store w) i) as [d|] eqn:Hd;
    [|rewrite reprocessRoute_absent by exact Hd; exact Hfk].
  destruct w as [[docs pages chunks qa n] tr]. destruct Hfk as [Hp Hc].
  unfold lookup, hasDocument in *. cbn [store documents documentPages embeddings] in *.
  erewrite reprocessRoute_run by exact Hd. cbn [store].
  split; unfold hasDocument; cbn [documents documentPages embeddings];
    intros r Hin; apply filter_In in Hin; destruct Hin as [Hin _];
    rewrite hasId_updateRows; auto.
Qed.

Lemma planned_exists s documentId :
  plannedTexts E s documentId <> [] -> hasDocument s documentId = true.
Proof.
  unfold plannedTexts, plannedExtraction. intros H. apply hasDocument_lookup.
  destruct (lookup s documentId) as [d|]; [exists d; reflexivity|].
  contradiction H. reflexivity.
Qed.

Lemma written_exists s documentId :
  indexedFrom 0 (reached (plannedTexts E s documentId)) <> [] ->
  hasDocument s documentId = true.
Proof.
  intros H. apply planned_exists. intros Hnone. rewrite Hnone in H.
  contradiction H. reflexivity.
Qed.

(** The rows a run writes carry the id the run was started with, and a run
    that writes a row was started for a document that exists. *)
Lemma processDocument_owner documentId w :
  let w' := snd (processDocument E documentId w) in
  exists newPages newChunks,
    documentPages (store w') = documentPages (store w) ++ newPages
    /\ embeddings (store w') = embeddings (store w) ++ newChunks
    /\ Forall (fun p => pg_documentId p = documentId) newPages
    /\ Forall (fun e => emb_documentId e = documentId) newChunks
    /\ (newPages <> [] \/ newChunks <> [] -> hasDocument (store w) documentId = true)
    /\ (forall j, hasDocument (store w') j = hasDocument (store w) j).
Proof.
  destruct (processDocument_tables documentId w) as (ps & cs & Hpg & Hemb & Hps & Hcs).
  destruct (processDocument_documents documentId w) as (u & Hdocs).
  exists ps, cs. split; [exact Hpg|]. split; [exact Hemb|].
  split; [eapply Forall2_right; [exact Hps | intros a b (H & _); exact H]|].
  split; [eapply Forall2_right; [exact Hcs | intros a b (H & _); exact H]|].
  split.
  - intros Hsome. apply written_exists.
    destruct Hsome as [Hsome|Hsome]; intros Hnone; rewrite Hnone in *.
    + inversion Hps; subst. contradiction Hsome. reflexivity.
    + inversion Hcs; subst. contradiction Hsome. reflexivity.
  - intros j. unfold hasDocument. rewrite Hdocs, !hasId_updateRows. reflexivity.
Qed.

Lemma processDocument_keeps_foreign_keys documentId w :
  foreignKeysHold (store w) ->
  foreignKeysHold (store (snd (processDocument E documentId w))).
Proof.
  intros [Hp Hc].
  destruct (processDocument_owner documentId w)
    as (ps & cs & Hpg & Hemb & Hps & Hcs & Hexists & Hdocs).
  rewrite Forall_forall in Hps, Hcs.
  split; intros r Hin; rewrite Hdocs.
  - rewrite Hpg in Hin. apply in_app_or in Hin. destruct Hin as [Hin|Hin]; [auto|].
    rewrite (Hps r Hin). apply Hexists. left. intros Hnone. rewrite Hnone in Hin. exact Hin.
  - rewrite Hemb in Hin. apply in_app_or in Hin. destruct Hin as [Hin|Hin]; [auto|].
    rewrite (Hcs r Hin). apply Hexists. right. intros Hnone. rewrite Hnone in Hin. exact Hin.
Qed.

(* ------------------------------------------------------------------ *)
(** ** Page slices of a parsed PDF *)

Lemma ceilDiv_covers a b : 1 <= b -> a <= b * JS.ceilDiv a b.
Proof.
  intros Hb. unfold JS.ceilDiv.
  pose proof (Nat.div_mod (a + (b - 1)) b ltac:(lia)) as Hdm.
  pose proof (Nat.mod_upper_bound (a + (b - 1)) b ltac:(lia)) as Hlt.
  lia.
Qed.

Lemma firstn_plus {A} (a b : nat) (l : list A) :
  firstn (a + b) l = firstn a l ++ firstn b (skipn a l).
Proof.
  revert l. induction a as [|a IH]; intros l; [reflexivity|].
  destruct l as [|x l]; cbn [Nat.add firstn skipn app].
  - rewrite firstn_nil. reflexivity.
  - rewrite IH. reflexivity.
Qed.

Lemma slice_step (text : str) (c i : nat) :
  JS.slice text (i * c) (Nat.min ((i + 1) * c) (length text))
  = firstn c (skipn (i * c) text).
Proof.
  unfold JS.slice.
  destruct (Nat.le_gt_cases ((i + 1) * c) (length text)) as [Hle|Hgt].
  - rewrite Nat.min_l by exact Hle. f_equal. lia.
  - rewrite Nat.min_r by lia.
    rewrite !firstn_all2; [reflexivity | rewrite length_skipn; lia..].
Qed.

Lemma slices_concat (text : str) (c n : nat) :
  concat (map (fun i => JS.slice text (i * c) (Nat.min ((i + 1) * c) (length text)))
              (seq 0 n))
  = firstn (n * c) text.
Proof.
  induction n as [|n IH]; [reflexivity|].
  rewrite seq_S, map_app, concat_app, IH. cbn [Nat.add map concat].
  rewrite app_nil_r, slice_step.
  replace (S n * c) with (n * c + c) by lia. symmetry. apply firstn_plus.
Qed.

(** X1.  The page slices of a parsed PDF, put back together, are the
    extracted text: nothing is lost and nothing repeated.  There are as many
    slices as pages unless the text is empty, each of at most
    ceil(length / pages) code units, and the page count is at least 1. *)
Theorem pdf_slices_cover_the_text (text : str) (total : nat) :
  let x := extractPdf (PdfParsed text total true) in
  concat (pageTexts x) = text
  /\ extractedText x = text
  /\ 1 <= ex_pageCount x
  /\ (text <> [] -> length (pageTexts x) = ex_pageCount x)
  /\ Forall (fun t => length t <= JS.ceilDiv (length text) (ex_pageCount x)) (pageTexts x).
Proof.
  cbn [extractPdf]. set (pages := if Nat.eqb total 0 then 1 else total).
  assert (Hpages : 1 <= pages) by (unfold pages; destruct total; cbn; lia).
  cbv zeta. cbn [pageTexts extractedText ex_pageCount].
  destruct text as [|c0 text0]; cbn [length Nat.ltb Nat.leb].
  - repeat split; [lia | intros H; contradiction H; reflexivity | constructor].
  - set (text := c0 :: text0). change (S (length text0)) with (length text).
    unfold pdfSlices. repeat split.
    + rewrite slices_concat. apply firstn_all2.
      pose proof (ceilDiv_covers (length text) pages Hpages). lia.
    + exact Hpages.
    + intros _. rewrite length_map, length_seq. reflexivity.
    + apply Forall_forall. intros t Ht. apply in_map_iff in Ht.
      destruct Ht as (i & <- & _). rewrite slice_step, length_firstn. lia.
Qed.

(* ------------------------------------------------------------------ *)
(** ** Outcome of a processing run *)

(** X2.  Classification never throws and writes nothing: it makes one
    generation call and returns a label of the fixed list, which is the
    service's answer, lower-cased and trimmed, whenever that is on the list. *)
Theorem classify_returns_a_listed_type (d : Document) (text : str) (w : World) :
  exists label,
    classify E d text w
    = (Ok label,
       mkWorld (store w)
         (trace w ++ [EvGenerate (mkGenRequest (lit "claude-haiku-4-5") 256
                                    (ClassifyPrompt (title d) (JS.prefix 2000 text)))]))
    /\ In label validTypes
    /\ (forall answer,
          messages_create E (mkGenRequest (lit "claude-haiku-4-5") 256
                               (ClassifyPrompt (title d) (JS.prefix 2000 text)))
          = GenText answer ->
          In (JS.trim (JS.toLowerCase answer)) validTypes ->
          label = JS.trim (JS.toLowerCase answer)).
Proof. exact (classify_label d text w). Qed.

Lemma extract_pageCount mime bytes : 1 <= ex_pageCount (extract E mime bytes).
Proof.
  unfold extract, placeholder.
  destruct (JS.eqb mime _); [|destruct (_ || _); [|destruct (JS.includes mime _)]];
    cbn [ex_pageCount]; try lia.
  destruct (PDFParse E bytes) as [|text total destroyed]; cbn [extractPdf ex_pageCount];
    [lia|].
  destruct destroyed; cbn [ex_pageCount]; destruct total; cbn; lia.
Qed.

Lemma statusRoute_run i w :
  statusRoute i w
  = (Ok match lookup (store w) i with
        | None => mkResponse 404 (Some (JObj [(lit "error", JStr (lit "Document not found"))]))
        | Some d =>
            mkResponse 200
              (Some (JObj [(lit "processingStatus", JStr (statusName (processingStatus d)));
                           (lit "errorMessage",
                            match errorMessage d with
                            | Some message => JStr message
                            | None => JNull
                            end)]))
        end, w).
Proof.
  unfold statusRoute, lookup. cbv [tryCatch bind getDocument getStore ret].
  destruct (find (byId i) (documents (store w))); reflexivity.
Qed.

(** X3.  A run on a document whose file cannot be read writes no page and
    no chunk, calls no service and leaves the other documents alone.  When
    the database takes the read error's message, the run ends with the
    document failed, that message (as stored) as errorMessage and every
    other column as it was, and the status route then reports failed with
    that message.  When the database refuses the message, the run throws and
    leaves the document in status processing. *)
Theorem unreadable_file_fails_the_document (documentId : nat) (w : World)
    (d : Document) (message : str) :
  lookup (store w) documentId = Some d ->
  objectFile E (filePath d) = FetchError message ->
  let result := processDocument E documentId w in
  let w' := snd result in
  documentPages (store w') = documentPages (store w)
  /\ embeddings (store w') = embeddings (store w)
  /\ trace w' = trace w
  /\ (forall j, j <> documentId -> lookup (store w') j = lookup (store w) j)
  /\ (forall stored,
        Pg.text message = Some stored ->
        fst result = Ok tt
        /\ lookup (store w') documentId
           = Some {| id := id d; title := title d;
                     originalFilename := originalFilename d; filePath := filePath d;
                     fileSizeBytes := fileSizeBytes d; fileType := fileType d;
                     processingStatus := failed;
                     pageCount := pageCount d; fullText := fullText d;
                     documentType := documentType d; aiSummary := aiSummary d;
                     keyTopics := keyTopics d; sentiment := sentiment d;
                     errorMessage := Some stored;
                     uploadDate := uploadDate d; processedDate := processedDate d |}
        /\ fst (statusRoute documentId w')
           = Ok (mkResponse 200
                   (Some (JObj [(lit "processingStatus", JStr (lit "failed"));
                                (lit "errorMessage", JStr stored)]))))
  /\ (Pg.text message = None ->
      (exists refusal, fst result = Throw refusal)
      /\ lookup (store w') documentId
         = Some {| id := id d; title := title d;
                   originalFilename := originalFilename d; filePath := filePath d;
                   fileSizeBytes := fileSizeBytes d; fileType := fileType d;
                   processingStatus := processing;
                   pageCount := pageCount d; fullText := fullText d;
                   documentType := documentType d; aiSummary := aiSummary d;
                   keyTopics := keyTopics d; sentiment := sentiment d;
                   errorMessage := errorMessage d;
                   uploadDate := uploadDate d; processedDate := processedDate d |}).
Proof.
  destruct w as [[docs pages chunks qa n] tr]. unfold lookup. cbn [store documents].
  intros Hd Hfetch. cbv zeta.
  rewrite (processDocument_unreadable _ _ _ _ _ _ _ _ _ Hd Hfetch).
  destruct (Pg.text message) as [stored'|];
    cbn [fst snd store trace documents documentPages embeddings].
  - split; [reflexivity|]. split; [reflexivity|]. split; [reflexivity|].
    split; [|split; [|discriminate]].
    + intros j Hj. rewrite !lookup_updateRows_other by congruence. reflexivity.
    + intros stored Hstored. inversion Hstored; subst stored'.
      rewrite statusRoute_run. unfold lookup. cbn [fst snd store documents].
      rewrite !lookup_updateRows, Hd. cbn [option_map].
      split; [reflexivity|]. split; reflexivity.
  - split; [reflexivity|]. split; [reflexivity|]. split; [reflexivity|].
    split; [|split; [discriminate|]].
    + intros j Hj. rewrite !lookup_updateRows_other by congruence. reflexivity.
    + intros _. rewrite !lookup_updateRows, Hd. cbn [option_map].
      split; [eexists; reflexivity | reflexivity].
Qed.

(** X4.  A run on a document that exists and whose file can be read returns
    without an error.  When the database takes every non-blank page text and
    the extracted text, the document ends completed, whatever the parser and
    the generation service do: the page count is that of the extraction and
    at least 1, the type is one of the fixed list, the full text is the
    extracted text as stored, the processed date is set and every other
    column is as it was.  When the database refuses one of them, as it does a
    text with a NUL code unit, the document ends failed with an error
    message and every other column as it was.  The status route reports the
    one or the other. *)
Theorem readable_file_completes_or_fails (documentId : nat) (w : World)
    (d : Document) (bytes : list N) :
  lookup (store w) documentId = Some d ->
  objectFile E (filePath d) = FetchOk bytes ->
  let result := processDocument E documentId w in
  let w' := snd result in
  let x := extract E (fileType d) bytes in
  fst result = Ok tt
  /\ 1 <= ex_pageCount x
  /\ (accepts x = true ->
      (exists label,
         In label validTypes
         /\ lookup (store w') documentId
            = Some {| id := id d; title := title d;
                      originalFilename := originalFilename d; filePath := filePath d;
                      fileSizeBytes := fileSizeBytes d; fileType := fileType d;
                      processingStatus := completed;
                      pageCount := Some (ex_pageCount x);
                      fullText := Some (Pg.wellFormed (extractedText x));
                      documentType := Some label; aiSummary := aiSummary d;
                      keyTopics := keyTopics d; sentiment := sentiment d;
                      errorMessage := errorMessage d;
                      uploadDate := uploadDate d; processedDate := Some (now E) |})
      /\ exists status,
           fst (statusRoute documentId w') = Ok (mkResponse 200 (Some (JObj status)))
           /\ member (lit "processingStatus") status = Some (JStr (lit "completed")))
  /\ (accepts x = false ->
      exists message,
        lookup (store w') documentId
        = Some {| id := id d; title := title d;
                  originalFilename := originalFilename d; filePath := filePath d;
                  fileSizeBytes := fileSizeBytes d; fileType := fileType d;
                  processingStatus := failed;
                  pageCount := pageCount d; fullText := fullText d;
                  documentType := documentType d; aiSummary := aiSummary d;
                  keyTopics := keyTopics d; sentiment := sentiment d;
                  errorMessage := Some message;
                  uploadDate := uploadDate d; processedDate := processedDate d |}
        /\ fst (statusRoute documentId w')
           = Ok (mkResponse 200
                   (Some (JObj [(lit "processingStatus", JStr (lit "failed"));
                                (lit "errorMessage", JStr message)]))))
  /\ (Pg.storable (extractedText x) = false -> accepts x = false)
  /\ (forall text, In text (pageTexts x) -> nonBlank text = true ->
                   Pg.storable text = false -> accepts x = false).
Proof.
  destruct w as [[docs pages chunks qa n] tr]. unfold lookup. cbn [store documents].
  intros Hd Hfetch.
  destruct (processDocument_readable documentId docs pages chunks qa n tr d bytes Hd Hfetch)
    as (ps & cs & n' & docs'' & tr' & Hrun & _ & _ & Hok & Hbad).
  cbv zeta in Hrun, Hok, Hbad |- *. rewrite Hrun, statusRoute_run. unfold lookup.
  cbn [fst snd store documents].
  split; [reflexivity|]. split; [apply extract_pageCount|].
  split; [|split; [|split]].
  - intros Hacc. destruct (Hok Hacc) as (_ & label & Hvalid & ->).
    rewrite !lookup_updateRows, Hd. cbn [option_map].
    split; [exists label; split; [exact Hvalid | reflexivity]|].
    eexists. split; reflexivity.
  - intros Hacc. destruct (Hbad Hacc) as (-> & _).
    rewrite !lookup_updateRows, Hd. cbn [option_map].
    exists Pg.invalidByteSequence. split; reflexivity.
  - intros Hs. unfold accepts. rewrite Hs. apply andb_false_r.
  - intros text Hin Hb Hs. unfold accepts. apply andb_false_iff. left.
    destruct (forallb storableOrBlank _) eqn:Hall; [|reflexivity].
    rewrite forallb_forall in Hall. specialize (Hall text Hin).
    unfold storableOrBlank in Hall. rewrite Hb, Hs in Hall. discriminate.
Qed.

(** X5.  A run on an id that has no document row returns without an error
    and leaves the whole store and the trace as they were. *)
Theorem run_on_missing_document_changes_nothing (documentId : nat) (w : World) :
  lookup (store w) documentId = None ->
  processDocument E documentId w = (Ok tt, w).
Proof.
  destruct w as [[docs pages chunks qa n] tr]. unfold lookup. cbn [store documents].
  apply processDocument_missing.
Qed.

(** X6.  A file that is not a PDF is never parsed: extraction yields exactly
    one page holding a fixed notice, and the run stores that page as page 1,
    one chunk with index 0, and a page count of 1. *)
Theorem other_file_types_get_one_notice_page (documentId : nat) (w : World)
    (d : Document) (bytes : list N) :
  lookup (store w) documentId = Some d ->
  JS.eqb (fileType d) (lit "application/pdf") = false ->
  objectFile E (filePath d) = FetchOk bytes ->
  let w' := snd (processDocument E documentId w) in
  exists notice p e d',
    extract E (fileType d) bytes = mkExtraction notice 1 [notice]
    /\ In notice [lit "Excel/CSV content extraction not yet implemented.";
                  lit "Image OCR not yet implemented.";
                  lit "Unsupported document type for text extraction."]
    /\ documentPages (store w') = documentPages (store w) ++ [p]
    /\ pageNumber p = 1 /\ pageText p = Some notice
    /\ embeddings (store w') = embeddings (store w) ++ [e]
    /\ chunkIndex e = 0 /\ chunkText e = notice
    /\ lookup (store w') documentId = Some d'
    /\ pageCount d' = Some 1 /\ processingStatus d' = completed.
Proof.
  destruct w as [[docs pages chunks qa n] tr]. unfold lookup. cbn [store documents].
  intros Hd Hmime Hfetch.
  destruct (processDocument_readable documentId docs pages chunks qa n tr d bytes Hd Hfetch)
    as (ps & cs & n' & docs'' & tr' & Hrun & Hps & Hcs & Hok & _).
  cbv zeta in Hrun, Hps, Hcs, Hok |- *. rewrite Hrun.
  assert (Hx : exists notice,
            extract E (fileType d) bytes = mkExtraction notice 1 [notice]
            /\ In notice [lit "Excel/CSV content extraction not yet implemented.";
                          lit "Image OCR not yet implemented.";
                          lit "Unsupported document type for text extraction."]
            /\ nonBlank notice = true /\ Pg.storable notice = true
            /\ Pg.wellFormed notice = notice
            /\ Pg.wellFormed (JS.prefix chunkLimit notice) = notice).
  { unfold extract, placeholder. rewrite Hmime.
    destruct (_ || _); [|destruct (JS.includes (fileType d) _)];
      eexists; (split; [reflexivity|]); (split; [cbn [In]; tauto|]);
      repeat split; reflexivity. }
  destruct Hx as (notice & Hx & Hin & Hnb & Hst & Hwf & Hshort).
  rewrite Hx in Hps, Hcs, Hok.
  assert (Hsb : storableOrBlank notice = true)
    by (unfold storableOrBlank; rewrite Hst; apply orb_true_r).
  assert (Hacc : accepts (mkExtraction notice 1 [notice]) = true).
  { unfold accepts. cbn [pageTexts extractedText forallb]. rewrite Hsb, Hst. reflexivity. }
  destruct (Hok Hacc) as (_ & label & _ & Hdocs).
  cbn [pageTexts reached] in Hps, Hcs. rewrite Hsb in Hps, Hcs.
  cbn [reached indexedFrom] in Hps, Hcs. rewrite Hnb in Hps, Hcs. cbn [app] in Hps, Hcs.
  inversion Hps as [|it p items ps' Hp Hrest]; subst ps. inversion Hrest; subst.
  inversion Hcs as [|it e items cs' He Hrest']; subst cs. inversion Hrest'; subst.
  destruct Hp as (_ & Hp2 & Hp3). destruct He as (_ & _ & He3 & He4 & _).
  cbn [fst snd] in *.
  exists notice, p, e. eexists.
  cbn [snd store documents documentPages embeddings].
  rewrite !lookup_updateRows, Hd. cbn [option_map].
  rewrite Hx. repeat split; try assumption; try reflexivity.
  - rewrite Hp3, Hwf. reflexivity.
  - rewrite He3. exact Hshort.
Qed.

(* ------------------------------------------------------------------ *)
(** ** Reprocess and delete at their edges *)

Lemma find_none_hasId ds i : find (byId i) ds = None -> hasId ds i = false.
Proof.
  unfold hasId. induction ds as [|d ds IH]; intros H; [reflexivity|].
  cbn [find] in H. cbn [existsb]. destruct (byId i d); [discriminate | exact (IH H)].
Qed.

Lemma reprocessRoute_full i docs pages chunks qa n tr d :
  find (byId i) docs = Some d ->
  reprocessRoute i (mkWorld (mkStore docs pages chunks qa n) tr)
  = (Ok (mkResponse 200
           (Some (JObj [(lit "message", JStr (lit "Document reprocessing started"));
                        (lit "documentId", jnum i)]))),
     mkWorld (mkStore (updateRows i resetUpdate docs)
                (filter (fun p => negb (ofDocument i (pg_documentId p))) pages)
                (filter (fun e => negb (ofDocument i (emb_documentId e))) chunks)
                qa n)
             (tr ++ [EvSpawnProcess i])).
Proof.
  intros Hd. unfold reprocessRoute, deleteDocumentPages, deleteDocumentEmbeddings,
    sendError, sendJson.
  cbv [tryCatch bind getDocument updateDocument getStore setStore emit ret throw
       store trace documents documentPages embeddings qaHistory nextId].
  rewrite Hd. reflexivity.
Qed.

(** X7.  Reprocess of an existing document answers 200, removes every page
    and every chunk of that document and none of any other document, leaves
    the question history alone, and starts exactly one background run. *)
Theorem reprocess_clears_pages_and_chunks (i : nat) (w : World) (d : Document) :
  lookup (store w) i = Some d ->
  let result := reprocessRoute i w in
  let s' := store (snd result) in
  (exists reply, fst result = Ok (mkResponse 200 (Some (JObj reply)))
                 /\ member (lit "documentId") reply = Some (jnum i))
  /\ pagesOf s' i = []
  /\ chunksOf s' i = []
  /\ (forall j, j <> i ->
        pagesOf s' j = pagesOf (store w) j /\ chunksOf s' j = chunksOf (store w) j)
  /\ qaHistory s' = qaHistory (store w)
  /\ eventsOf (reprocessRoute i) w = [EvSpawnProcess i].
Proof.
  destruct w as [[docs pages chunks qa n] tr]. unfold lookup. cbn [store documents].
  intros Hd. cbv zeta.
  rewrite (eventsOf_appended _ _ _ _ _ (reprocessRoute_full i docs pages chunks qa n tr d Hd)).
  rewrite (reprocessRoute_full i docs pages chunks qa n tr d Hd).
  unfold pagesOf, chunksOf. cbn [fst snd store documentPages embeddings qaHistory].
  split; [eexists; split; reflexivity|].
  split; [apply (filter_owned_removed pg_documentId)|].
  split; [apply (filter_owned_removed emb_documentId)|].
  split; [|split; reflexivity].
  intros j Hj.
  split; [apply (filter_owned_kept pg_documentId) | apply (filter_owned_kept emb_documentId)];
    exact Hj.
Qed.

Lemma plannedTexts_after_reset i docs pages chunks qa n pages' chunks' qa' n' d :
  find (byId i) docs = Some d ->
  plannedTexts E (mkStore (updateRows i resetUpdate docs) pages' chunks' qa' n') i
  = plannedTexts E (mkStore docs pages chunks qa n) i.
Proof.
  intros Hd. unfold plannedTexts, plannedExtraction, lookup. cbn [documents].
  rewrite lookup_updateRows, Hd. reflexivity.
Qed.

Lemma filter_owned_other {A} (owner : A -> nat) i j (rows : list A) :
  j <> i -> (forall r, In r rows -> owner r = i) ->
  filter (fun r => ofDocument j (owner r)) rows = [].
Proof.
  intros Hne Hown. apply filter_none. intros r Hr. unfold ofDocument.
  rewrite (Hown r Hr). apply Nat.eqb_neq. congruence.
Qed.

(** X8.  Reprocess followed by its run leaves, whatever was stored before,
    exactly the rows of the new run for the document: the chunk indices are
    the 0-based and the page numbers the 1-based positions of the non-blank
    extracted pages up to the first page text that the database refuses,
    strictly increasing, so no index or number of an earlier cycle survives
    or repeats; they are all the non-blank positions when no page text is
    refused.  Rows of other documents are as before. *)
Theorem reprocess_then_run_replaces_the_rows (i : nat) (w : World) (d : Document) :
  lookup (store w) i = Some d ->
  let w2 := snd (processDocument E i (snd (reprocessRoute i w))) in
  let texts := plannedTexts E (store w) i in
  let items := indexedFrom 0 (reached texts) in
  map chunkIndex (chunksOf (store w2) i) = map fst items
  /\ map pageNumber (pagesOf (store w2) i) = map (fun it => fst it + 1) items
  /\ StronglySorted lt (map chunkIndex (chunksOf (store w2) i))
  /\ StronglySorted lt (map pageNumber (pagesOf (store w2) i))
  /\ (forallb storableOrBlank texts = true -> items = indexedFrom 0 texts)
  /\ (forall j, j <> i ->
        pagesOf (store w2) j = pagesOf (store w) j
        /\ chunksOf (store w2) j = chunksOf (store w) j).
Proof.
  destruct w as [[docs pages chunks qa n] tr]. unfold lookup. cbn [store documents].
  intros Hd. cbv zeta.
  rewrite (reprocessRoute_full i docs pages chunks qa n tr d Hd). cbn [snd].
  match goal with |- context [processDocument E i ?w1] =>
    destruct (processDocument_tables i w1) as (ps & cs & Hpg & Hemb & Hps & Hcs)
  end.
  cbv zeta in Hpg, Hemb. cbn [store documentPages embeddings] in Hpg, Hemb, Hps, Hcs.
  rewrite (plannedTexts_after_reset i docs pages chunks qa n _ _ _ _ d Hd) in Hps, Hcs.
  unfold pagesOf, chunksOf. rewrite Hpg, Hemb, !filter_app.
  rewrite (filter_owned_removed pg_documentId), (filter_owned_removed emb_documentId).
  cbn [app]. rewrite (pagesOf_new _ _ _ Hps), (chunksOf_new _ _ _ Hcs).
  rewrite (chunkOf_indices _ _ _ Hcs), (pageOf_numbers _ _ _ Hps).
  split; [reflexivity|]. split; [reflexivity|].
  split; [apply indexedFrom_increasing|].
  split; [rewrite <- (map_map fst (fun k => k + 1));
          apply increasing_shift, indexedFrom_increasing|].
  split; [intros Hall; rewrite (reached_all _ Hall); reflexivity|].
  intros j Hj. rewrite !filter_app.
  rewrite (filter_owned_kept pg_documentId), (filter_owned_kept emb_documentId) by exact Hj.
  rewrite (filter_owned_other pg_documentId i j ps), (filter_owned_other emb_documentId i j cs),
    !app_nil_r; try exact Hj.
  - cbn [store documentPages embeddings]. split; reflexivity.
  - assert (Hall : Forall (fun e => emb_documentId e = i) cs)
      by (eapply Forall2_right; [exact Hcs | intros a b (H & _); exact H]).
    rewrite Forall_forall in Hall. exact Hall.
  - assert (Hall : Forall (fun p => pg_documentId p = i) ps)
      by (eapply Forall2_right; [exact Hps | intros a b (H & _); exact H]).
    rewrite Forall_forall in Hall. exact Hall.
Qed.

(** X9.  Reprocess of an id without a document row answers 404 and does
    nothing: no row is removed or changed and no run is started. *)
Theorem reprocess_of_missing_document_is_404 (i : nat) (w : World) :
  lookup (store w) i = None ->
  reprocessRoute i w
  = (Ok (mkResponse 404 (Some (JObj [(lit "error", JStr (lit "Document not found"))]))), w).
Proof.
  intros Hno. unfold reprocessRoute, sendError.
  cbv [tryCatch bind getDocument getStore ret].
  unfold lookup in Hno. rewrite Hno. reflexivity.
Qed.

Lemma deleteRoute_missing i w :
  lookup (store w) i = None -> deleteRoute i w = (Ok (mkResponse 204 None), w).
Proof.
  intros Hno. unfold deleteRoute, deleteDocument, deleteDocumentUnder.
  cbv [tryCatch bind getStore ret]. unfold hasDocument.
  unfold lookup in Hno. rewrite (find_none_hasId _ _ Hno). reflexivity.
Qed.

(** X10.  Delete of an id without a document row answers 204 and changes
    nothing, and so a second delete of the same id answers 204 and leaves
    the world as the first delete left it. *)
Theorem delete_is_idempotent (i : nat) (w : World) :
  (lookup (store w) i = None -> deleteRoute i w = (Ok (mkResponse 204 None), w))
  /\ deleteRoute i (snd (deleteRoute i w))
     = (Ok (mkResponse 204 None), snd (deleteRoute i w)).
Proof.
  split; [apply deleteRoute_missing|].
  apply deleteRoute_missing.
  destruct (lookup (store w) i) as [d|] eqn:Hd.
  - destruct w as [[docs pages chunks qa n] tr]. unfold lookup in *.
    cbn [store documents] in Hd.
    rewrite deleteRoute_run by (eapply find_hasId; exact Hd).
    cbn [snd store documents]. apply find_removed.
  - rewrite (deleteRoute_missing i w Hd). exact Hd.
Qed.

(* ------------------------------------------------------------------ *)
(** ** What the upload filter lets in, and what extraction makes of it *)

(** X11.  Of the seven file types the upload filter accepts, only PDF is
    parsed.  The two spreadsheet types get the Excel/CSV notice, the two
    image types the OCR notice, and Word documents and CSV files, although
    accepted, get the notice for unsupported types. *)
Theorem accepted_types_and_their_extraction (mime : str) (bytes : list N) :
  fileFilter mime = true ->
  (mime = lit "application/pdf"
   /\ extract E mime bytes = extractPdf (PDFParse E bytes))
  \/ ((mime = lit "application/vnd.openxmlformats-officedocument.spreadsheetml.sheet"
       \/ mime = lit "application/vnd.ms-excel")
      /\ extract E mime bytes
         = placeholder "Excel/CSV content extraction not yet implemented.")
  \/ ((mime = lit "image/png" \/ mime = lit "image/jpeg")
      /\ extract E mime bytes = placeholder "Image OCR not yet implemented.")
  \/ ((mime = lit "application/vnd.openxmlformats-officedocument.wordprocessingml.document"
       \/ mime = lit "text/csv")
      /\ extract E mime bytes
         = placeholder "Unsupported document type for text extraction.").
Proof.
  intros Hok. unfold fileFilter in Hok. apply existsb_exists in Hok.
  destruct Hok as (t & Hin & Heq). apply eqb_eq in Heq. subst t.
  cbn [allowedTypes map In] in Hin.
  destruct Hin as [<-|[<-|[<-|[<-|[<-|[<-|[<-|[]]]]]]]].
  - left. split; reflexivity.
  - right. left. split; [left; reflexivity | reflexivity].
  - right. left. split; [right; reflexivity | reflexivity].
  - right. right. right. split; [left; reflexivity | reflexivity].
  - right. right. right. split; [right; reflexivity | reflexivity].
  - right. right. left. split; [left; reflexivity | reflexivity].
  - right. right. left. split; [right; reflexivity | reflexivity].
Qed.

(* ------------------------------------------------------------------ *)
(** ** Routes that only read *)

Lemma searchRoute_cases query w :
  JS.truthy query = true ->
  (found E (store w) query 20 = [] ->
     exists results,
       searchRoute E query w
       = (Ok (mkResponse 200 (Some (searchEnvelope results))),
          mkWorld (store w)
            (trace w ++ [EvSearchEmbeddings query 20;
                         EvGetDocuments (mkFilters None None (Some query))]))
       /\ length results <= 10)
  /\ (found E (store w) query 20 <> [] ->
        exists results,
          searchRoute E query w
          = (Ok (mkResponse 200 (Some (searchEnvelope results))),
             mkWorld (store w) (trace w ++ [EvSearchEmbeddings query 20]))
          /\ length results = length (found E (store w) query 20)).
Proof.
  intros Hq. split; intros Hfound; unfold searchRoute; rewrite Hq; cbn [negb];
    unfold tryCatch, bind; rewrite searchEmbeddings_run.
  - rewrite Hfound. cbn [length Nat.eqb]. rewrite getDocuments_run.
    cbn [store trace].
    match goal with |- context [mapM titleResult ?xs ?w0] =>
      destruct (@mapM_read_some _ _ titleResult w0 xs) as (results & Hres & Hlen);
        [intros x; apply titleResult_read|]
    end.
    exists results. rewrite Hres. unfold sendJson, ret.
    rewrite <- app_assoc. split; [reflexivity|].
    rewrite Hlen, length_firstn. lia.
  - destruct (found E (store w) query 20) as [|e rows] eqn:Hrows;
      [contradiction Hfound; reflexivity|].
    cbn [Nat.eqb]. cbn [length Nat.eqb].
    match goal with |- context [mapM chunkResult ?xs ?w0] =>
      destruct (@mapM_read_some _ _ chunkResult w0 xs) as (results & Hres & Hlen);
        [intros x; apply chunkResult_read|]
    end.
    exists results. rewrite Hres. split; [reflexivity | exact Hlen].
Qed.

Lemma searchRoute_empty_query query w :
  JS.truthy query = false ->
  searchRoute E query w = (Ok (badRequest "Query is required"), w).
Proof. intros Hq. unfold searchRoute. rewrite Hq. reflexivity. Qed.

Lemma answered_pages d pages question w :
  exists r,
    tryCatch (answerFromPages E d pages question)
      (fun _ => sendError 500 "Failed to answer question") w
    = (Ok r,
       mkWorld (store w)
         (trace w ++ [EvGenerate (documentRequest d (documentContext pages) question)])).
Proof.
  unfold answerFromPages, textContent, messagesCreate, jsonParse, sendJson, sendError.
  cbv [tryCatch bind emit ret throw store trace].
  destruct (messages_create E _) as [message| |text]; try (eexists; reflexivity).
  destruct (JS.matchBraces text) as [jsonMatch|]; [|eexists; reflexivity].
  destruct (JSON_parse E jsonMatch); eexists; reflexivity.
Qed.

Lemma documentAskRoute_cases i question w :
  documentAskRoute E i question w
  = if negb (JS.truthy question) then (Ok (badRequest "Question is required"), w)
    else match lookup (store w) i with
         | None =>
             (Ok (mkResponse 404 (Some (JObj [(lit "error", JStr (lit "Document not found"))]))),
              w)
         | Some d =>
             match filter hasText (orderedPages (store w) i) with
             | [] => (Ok noTextAnswer, w)
             | pages =>
                 tryCatch (answerFromPages E d pages question)
                   (fun _ => sendError 500 "Failed to answer question") w
             end
         end.
Proof.
  unfold documentAskRoute. destruct (JS.truthy question); cbn [negb]; [|reflexivity].
  unfold tryCatch, getDocumentPages, lookup.
  cbv [bind getDocument getStore ret].
  destruct (find (byId i) (documents (store w))) as [d|]; [|reflexivity].
  destruct (filter hasText (orderedPages (store w) i)) as [|p rest]; reflexivity.
Qed.

(** X12.  The search route, the document-scoped ask and the status route
    only read: whatever the request and whatever the services answer, the
    store after the request is the store before it. *)
Theorem reading_routes_leave_the_store (i : nat) (text : str) (w : World) :
  store (snd (searchRoute E text w)) = store w
  /\ store (snd (documentAskRoute E i text w)) = store w
  /\ store (snd (statusRoute i w)) = store w.
Proof.
  split; [|split].
  - destruct (JS.truthy text) eqn:Hq.
    + destruct (searchRoute_cases text w Hq) as [Hempty Hsome].
      destruct (found E (store w) text 20) as [|e rows] eqn:Hfound.
      * destruct (Hempty eq_refl) as (results & Hr & _). rewrite Hr. reflexivity.
      * destruct Hsome as (results & Hr & _); [discriminate|]. rewrite Hr. reflexivity.
    + rewrite searchRoute_empty_query by exact Hq. reflexivity.
  - rewrite documentAskRoute_cases.
    destruct (negb (JS.truthy text)); [reflexivity|].
    destruct (lookup (store w) i) as [d|]; [|reflexivity].
    destruct (filter hasText (orderedPages (store w) i)) as [|p rest]; [reflexivity|].
    destruct (answered_pages d (p :: rest) text w) as (r & Hr). rewrite Hr. reflexivity.
  - rewrite statusRoute_run. reflexivity.
Qed.

(** X13.  A request without a question or query is answered 400 before
    anything else happens: no storage call, no generation call, no write. *)
Theorem empty_input_is_rejected_first (i : nat) (text : str) (w : World) :
  JS.truthy text = false ->
  searchRoute E text w = (Ok (badRequest "Query is required"), w)
  /\ qaAskRoute E text w = (Ok (badRequest "Question is required"), w)
  /\ documentAskRoute E i text w = (Ok (badRequest "Question is required"), w).
Proof.
  intros Hq. split; [apply searchRoute_empty_query; exact Hq|]. split.
  - unfold qaAskRoute. rewrite Hq. reflexivity.
  - rewrite documentAskRoute_cases, Hq. reflexivity.
Qed.

(** X14.  The document-scoped ask answers 404 for an unknown document, and
    for a document none of whose pages has text it answers 200 with the
    fixed notice and no citation; in both cases the generation service is
    not called. *)
Theorem document_ask_without_text (i : nat) (question : str) (w : World) :
  JS.truthy question = true ->
  (lookup (store w) i = None ->
     documentAskRoute E i question w
     = (Ok (mkResponse 404 (Some (JObj [(lit "error", JStr (lit "Document not found"))]))),
        w))
  /\ (lookup (store w) i <> None ->
      filter hasText (orderedPages (store w) i) = [] ->
      documentAskRoute E i question w = (Ok noTextAnswer, w)).
Proof.
  intros Hq. rewrite documentAskRoute_cases, Hq. cbn [negb]. split.
  - intros ->. reflexivity.
  - intros Hd Hnone. destruct (lookup (store w) i); [|contradiction Hd; reflexivity].
    rewrite Hnone. reflexivity.
Qed.

(** X15.  Every generation request of the document-scoped ask goes to the
    same model with the question as asked, and its context has at most
    50,000 code units; one request makes at most one generation call. *)
Theorem document_ask_context_is_capped (i : nat) (question : str) (w : World) :
  length (eventsOf (documentAskRoute E i question) w) <= 1
  /\ forall e, In e (eventsOf (documentAskRoute E i question) w) ->
       exists d context,
         e = EvGenerate (documentRequest d context question)
         /\ lookup (store w) i = Some d
         /\ length context <= contextBudget.
Proof.
  assert (Hnone : forall r, documentAskRoute E i question w = (r, w) ->
                            eventsOf (documentAskRoute E i question) w = []).
  { intros r Hr. apply (eventsOf_trace _ w []). rewrite Hr, app_nil_r. reflexivity. }
  pose proof (documentAskRoute_cases i question w) as Hrun.
  destruct (negb (JS.truthy question));
    [rewrite (Hnone _ Hrun); split; [cbn; lia | intros e []]|].
  destruct (lookup (store w) i) as [d|] eqn:Hd;
    [|rewrite (Hnone _ Hrun); split; [cbn; lia | intros e []]].
  destruct (filter hasText (orderedPages (store w) i)) as [|p rest];
    [rewrite (Hnone _ Hrun); split; [cbn; lia | intros e []]|].
  destruct (answered_pages d (p :: rest) question w) as (r & Hr).
  rewrite Hr in Hrun. rewrite (eventsOf_appended _ _ _ _ _ Hrun).
  split; [cbn; lia|]. intros e [<-|[]].
  exists d, (documentContext (p :: rest)). split; [reflexivity|]. split; [reflexivity|].
  unfold documentContext. apply prefix_length.
Qed.

(* ------------------------------------------------------------------ *)
(** ** What the corpus-wide ask writes *)






(** X18.  When the reply of the generation service has no brace pair, the
    document-scoped ask answers 200 with the reply as answer and no
    citation. *)
Theorem document_ask_keeps_a_plain_reply (i : nat) (question : str) (w : World)
    (d : Document) (text : str) :
  JS.truthy question = true ->
  lookup (store w) i = Some d ->
  filter hasText (orderedPages (store w) i) <> [] ->
  (forall r, messages_create E r = GenText text) ->
  JS.matchBraces text = None ->
  documentAskRoute E i question w
  = (Ok (mkResponse 200 (Some (answerObject text []))),
     mkWorld (store w)
       (trace w ++ [EvGenerate (documentRequest d
                                  (documentContext (filter hasText (orderedPages (store w) i)))
                                  question)])).
Proof.
  intros Hq Hd Hpages Hgen Hmatch.
  rewrite (documentAskRoute_reaches i question w d Hq Hd Hpages). unfold tryCatch.
  rewrite (answerFromPages_plain_text _ _ _ _ text (Hgen _) Hmatch). reflexivity.
Qed.

(* ------------------------------------------------------------------ *)
(** ** Referential integrity over all handlers *)

(** X19.  The storage methods that insert pages and chunks do not check
    that the document exists.  A processing run nevertheless writes rows only under
    the id it was started with, writes none unless a document with that id
    exists, and neither adds nor removes a document; so when every page and
    every chunk belonged to an existing document before the run, they do so
    after it. *)
Theorem run_writes_rows_of_an_existing_document (documentId : nat) (w : World) :
  let w' := snd (processDocument E documentId w) in
  exists newPages newChunks,
    documentPages (store w') = documentPages (store w) ++ newPages
    /\ embeddings (store w') = embeddings (store w) ++ newChunks
    /\ Forall (fun p => pg_documentId p = documentId) newPages
    /\ Forall (fun e => emb_documentId e = documentId) newChunks
    /\ (newPages <> [] \/ newChunks <> [] -> lookup (store w) documentId <> None)
    /\ (forall j, lookup (store w') j = None <-> lookup (store w) j = None)
    /\ (foreignKeysHold (store w) -> foreignKeysHold (store w')).
Proof.
  assert (Hlookup : forall s j, lookup s j = None <-> hasDocument s j = false).
  { intros s j. pose proof (hasDocument_lookup s j) as H.
    destruct (hasDocument s j), (lookup s j) as [d|]; split; try reflexivity;
      try discriminate.
    - intros _. destruct (proj1 H eq_refl) as (d & Hd). discriminate.
    - intros _. assert (Ht : false = true) by (apply H; exists d; reflexivity).
      discriminate. }
  destruct (processDocument_owner documentId w)
    as (ps & cs & Hpg & Hemb & Hps & Hcs & Hexists & Hdocs).
  exists ps, cs. split; [exact Hpg|]. split; [exact Hemb|].
  split; [exact Hps|]. split; [exact Hcs|]. split; [|split].
  - intros Hsome Hnone. apply Hlookup in Hnone. rewrite (Hexists Hsome) in Hnone.
    discriminate.
  - intros j. rewrite !Hlookup, Hdocs. reflexivity.
  - apply processDocument_keeps_foreign_keys.
Qed.

(* ------------------------------------------------------------------ *)
(** ** The chunk search and the listing *)









Lemma status_counts ds :
  length (filter (hasStatus "pending") ds)
  + length (filter (hasStatus "processing") ds)
  + length (filter (hasStatus "completed") ds)
  + length (filter (hasStatus "failed") ds)
  = length ds.
Proof.
  induction ds as [|d ds IH]; [reflexivity|]. cbn [filter].
  remember (hasStatus "pending" d) as b1 eqn:H1.
  remember (hasStatus "processing" d) as b2 eqn:H2.
  remember (hasStatus "completed" d) as b3 eqn:H3.
  remember (hasStatus "failed" d) as b4 eqn:H4.
  unfold hasStatus in H1, H2, H3, H4.
  destruct (processingStatus d); vm_compute in H1, H2, H3, H4; subst b1 b2 b3 b4;
    cbn [length]; lia.
Qed.

(** X23.  In the dashboard statistics every document is counted under
    exactly one status: the processing, completed and failed counts plus the
    number of pending documents give the total.  The recent documents are
    the first five of the newest-first listing, the same five that the
    corpus-wide ask falls back to. *)
Theorem dashboard_counts_partition_the_documents (w : World) :
  exists stats,
    getDocumentStats w = (Ok stats, w)
    /\ totalDocuments stats = length (documents (store w))
    /\ length (filter (hasStatus "pending") (documents (store w)))
       + processingDocuments stats + completedDocuments stats + failedDocuments stats
       = totalDocuments stats
    /\ recentDocuments stats = chosen (store w)
    /\ length (recentDocuments stats) = Nat.min 5 (totalDocuments stats).
Proof.
  eexists. split; [reflexivity|]. cbn [totalDocuments processingDocuments
    completedDocuments failedDocuments recentDocuments].
  split; [reflexivity|]. split; [apply status_counts|]. split; [reflexivity|].
  rewrite length_firstn. f_equal.
  apply Permutation_length, orderBy_perm.
Qed.

Lemma insertBy_key_sorted {A} (key : A -> nat) x l :
  StronglySorted (fun a b => key a <= key b) l ->
  StronglySorted (fun a b => key a <= key b)
    (insertBy (fun a b => Nat.leb (key a) (key b)) x l).
Proof.
  induction 1 as [|y l Hs IH Hy]; [repeat constructor|]. cbn [insertBy].
  destruct (Nat.leb_spec (key x) (key y)) as [Hle|Hlt].
  - constructor; [constructor; assumption|].
    constructor; [exact Hle|].
    rewrite Forall_forall in *. intros z Hz. specialize (Hy z Hz). lia.
  - constructor; [exact IH|].
    rewrite Forall_forall in *. intros z Hz.
    apply (Permutation_in _ (insertBy_perm _ x l)) in Hz.
    destruct Hz as [<-|Hz]; [lia | exact (Hy z Hz)].
Qed.

Lemma orderBy_key_sorted {A} (key : A -> nat) l :
  StronglySorted (fun a b => key a <= key b)
    (orderBy (fun a b => Nat.leb (key a) (key b)) l).
Proof.
  induction l as [|x l IH]; [constructor|]. cbn [orderBy fold_right].
  apply insertBy_key_sorted. exact IH.
Qed.

(** X24.  Reading the pages of a document returns all its page rows and no
    other, ordered by page number; reading its chunks returns all its chunk
    rows and no other, ordered by chunk index.  Neither writes. *)
Theorem pages_and_chunks_are_read_in_order (i : nat) (w : World) :
  exists pages chunks,
    getDocumentPages i w = (Ok pages, w)
    /\ getEmbeddings i w = (Ok chunks, w)
    /\ Permutation pages (pagesOf (store w) i)
    /\ Permutation chunks (chunksOf (store w) i)
    /\ StronglySorted (fun p q => pageNumber p <= pageNumber q) pages
    /\ StronglySorted (fun a b => chunkIndex a <= chunkIndex b) chunks.
Proof.
  eexists. eexists. split; [reflexivity|]. split; [reflexivity|].
  split; [apply orderBy_perm|]. split; [apply orderBy_perm|].
  split; [apply (orderBy_key_sorted pageNumber) | apply (orderBy_key_sorted chunkIndex)].
Qed.

(* ------------------------------------------------------------------ *)
(** ** Pages and chunks of one run *)

Lemma find_app {A} (f : A -> bool) l1 l2 :
  find f (l1 ++ l2) = match find f l1 with Some x => Some x | None => find f l2 end.
Proof.
  induction l1 as [|x l1 IH]; [reflexivity|]. cbn [app find].
  destruct (f x); [reflexivity | exact IH].
Qed.

Lemma find_page documentId items ps k :
  Forall2 (pageOf documentId) items ps ->
  match find (fun p => Nat.eqb (pg_documentId p) documentId && Nat.eqb (pageNumber p) (k + 1)) ps
  with
  | Some p => exists t, In (k, t) items /\ pageText p = Some (Pg.wellFormed t)
  | None => forall t, ~ In (k, t) items
  end.
Proof.
  induction 1 as [|it p items ps (Hdoc & Hnum & Htext) _ IH]; [intros t []|].
  cbn [find]. rewrite Hdoc, Hnum, Nat.eqb_refl. cbn [andb].
  destruct (Nat.eqb_spec (fst it + 1) (k + 1)) as [Heq|Hne].
  - exists (snd it). split; [|exact Htext]. left.
    destruct it as [j t]. cbn [fst snd] in *. f_equal. lia.
  - destruct (find _ ps) as [q|].
    + destruct IH as (t & Hin & Hq). exists t. split; [right; exact Hin | exact Hq].
    + intros t [Hit|Hin]; [|exact (IH t Hin)].
      subst it. cbn [fst] in Hne. lia.
Qed.

(** X25.  After a run that started with no page of the document, the page
    at a 1-based position is found by its number exactly when the extracted
    page at that position is not blank and the database took every non-blank
    page text up to and including it.  The page found holds the whole text
    of that extracted page as the database stores it, which is the text
    itself when no code unit of it is half of a surrogate pair. *)
Theorem stored_pages_are_found_by_number (documentId : nat) (w : World)
    (k : nat) (text : str) :
  pagesOf (store w) documentId = [] ->
  nth_error (plannedTexts E (store w) documentId) k = Some text ->
  let w' := snd (processDocument E documentId w) in
  let taken := forallb storableOrBlank (firstn (S k) (plannedTexts E (store w) documentId)) in
  (nonBlank text = true -> taken = true ->
     exists p, getDocumentPage documentId (k + 1) w' = (Ok (Some p), w')
               /\ pageText p = Some (Pg.wellFormed text)
               /\ (noSurrogate text = true -> pageText p = Some text))
  /\ (nonBlank text = false \/ taken = false ->
        getDocumentPage documentId (k + 1) w' = (Ok None, w')).
Proof.
  intros Hfresh Hnth w' taken.
  destruct (processDocument_tables documentId w) as (ps & cs & Hpg & _ & Hps & _).
  fold w' in Hpg.
  assert (Hrun : getDocumentPage documentId (k + 1) w'
                 = (Ok (find (fun p => Nat.eqb (pg_documentId p) documentId
                                       && Nat.eqb (pageNumber p) (k + 1)) ps), w')).
  { unfold getDocumentPage. cbv [bind getStore ret]. rewrite Hpg, find_app.
    replace (find _ (documentPages (store w))) with (@None DocumentPage); [reflexivity|].
    symmetry. destruct (find _ (documentPages (store w))) as [q|] eqn:Hq; [|reflexivity].
    apply find_some in Hq. destruct Hq as [Hin Hq]. apply andb_true_iff in Hq.
    assert (Hown : In q (pagesOf (store w) documentId))
      by (apply filter_In; split; [exact Hin | exact (proj1 Hq)]).
    rewrite Hfresh in Hown. destruct Hown. }
  rewrite Hrun. pose proof (find_page documentId _ ps k Hps) as Hfind.
  assert (Hitem : forall t,
            In (k, t) (indexedFrom 0 (reached (plannedTexts E (store w) documentId)))
            <-> t = text /\ nonBlank t = true /\ taken = true).
  { intros t. rewrite indexedFrom_nth, Nat.sub_0_r, reached_nth, Hnth. fold taken. split.
    - intros (_ & [Ht Htaken] & Hb). inversion Ht. auto.
    - intros (-> & Hb & Htaken). repeat split; [lia | exact Htaken | exact Hb]. }
  destruct (find _ ps) as [p|].
  - destruct Hfind as (t & Hin & Hp). apply Hitem in Hin. destruct Hin as (-> & Hb & Htaken).
    split.
    + intros _ _. exists p. split; [reflexivity|]. split; [exact Hp|].
      intros Hplain. rewrite Hp, (wellFormed_plain _ Hplain). reflexivity.
    + intros [Hblank|Hrefused]; congruence.
  - split; [|intros _; reflexivity].
    intros Hb Htaken. contradiction (Hfind text). apply Hitem. auto.
Qed.

Lemma nonBlank_nonempty (t : str) : nonBlank t = true -> 1 <= length t.
Proof. destruct t; [discriminate | cbn; lia]. Qed.

Lemma indexedFrom_nonBlank texts : forall i,
  Forall (fun it => nonBlank (snd it) = true) (indexedFrom i texts).
Proof.
  induction texts as [|t rest IH]; intros i; [constructor|].
  cbn [indexedFrom]. destruct (nonBlank t) eqn:Hb; cbn [app]; [|apply IH].
  constructor; [exact Hb | apply IH].
Qed.

Lemma ceilDiv_mono a b : a <= b -> JS.ceilDiv a 4 <= JS.ceilDiv b 4.
Proof. intros H. unfold JS.ceilDiv. apply Nat.Div0.div_le_mono. lia. Qed.

Lemma prefix_firstn n (t : str) : JS.prefix n t = firstn n t.
Proof. unfold JS.prefix, JS.slice. rewrite Nat.sub_0_r. reflexivity. Qed.

Lemma pairing documentId items ps :
  Forall2 (pageOf documentId) items ps ->
  forall cs, Forall2 (chunkOf documentId) items cs ->
  Forall (fun it => nonBlank (snd it) = true) items ->
  Forall2 chunkOfPage ps cs.
Proof.
  induction 1 as [|it p items ps (Hp1 & Hp2 & Hp3) _ IH]; intros cs Hcs Hnb.
  - inversion Hcs. constructor.
  - inversion Hcs as [|it' e items' cs' (He1 & He2 & He3 & He4 & He5) Hrest]; subst.
    inversion Hnb as [|it' items' Hb Hnb']; subst.
    constructor; [|exact (IH _ Hrest Hnb')].
    pose proof (nonBlank_nonempty _ Hb) as Hlen.
    assert (Hcut : length (chunkText e) = Nat.min 2000 (length (snd it))).
    { rewrite He3, wellFormed_length, prefix_firstn. apply length_firstn. }
    unfold chunkOfPage.
    split; [congruence|]. split; [rewrite He2, Hp2; reflexivity|].
    split; [rewrite He4, Hp2; reflexivity|].
    exists (Pg.wellFormed (snd it)), (JS.ceilDiv (length (snd it)) 4).
    rewrite wellFormed_length, Hcut.
    split; [exact Hp3|].
    split; [|split; [|split; [lia|split; [exact He5|split]]]].
    + rewrite He3, !prefix_firstn. exact (proj1 (wellFormed_cut_last (snd it)) 1999).
    + intros Hshort. rewrite He3. unfold chunkLimit. rewrite prefix_short by exact Hshort.
      reflexivity.
    + apply ceilDiv_mono. lia.
    + pose proof (ceilDiv_covers (length (snd it)) 4 ltac:(lia)). lia.
Qed.

(** X26.  The rows a run writes come in pairs: for each page row one chunk
    row of the same document and page number, with chunk index one below
    that number.  Read as stored, the chunk text is not empty and is the
    first 2000 code units of the page text, but for the last of them, which
    is U+FFFD when the cut at 2000 falls inside a surrogate pair; it is the
    page text when that has at most 2000 code units.  The token count is at
    least 1 and never below ceil(chunk length / 4). *)
Theorem every_chunk_has_its_page (documentId : nat) (w : World) :
  let w' := snd (processDocument E documentId w) in
  exists newPages newChunks,
    documentPages (store w') = documentPages (store w) ++ newPages
    /\ embeddings (store w') = embeddings (store w) ++ newChunks
    /\ Forall2 chunkOfPage newPages newChunks.
Proof.
  destruct (processDocument_tables documentId w) as (ps & cs & Hpg & Hemb & Hps & Hcs).
  exists ps, cs. split; [exact Hpg|]. split; [exact Hemb|].
  exact (pairing documentId _ ps Hps cs Hcs (indexedFrom_nonBlank _ 0)).
Qed.

(* ------------------------------------------------------------------ *)
(** ** The two regular expressions *)

Lemma indexOf_split c s : forall i,
  JS.indexOf c s = Some i ->
  exists before after, s = before ++ c :: after /\ length before = i /\ ~ In c before.
Proof.
  induction s as [|x s IH]; intros i H; [discriminate|]. cbn [JS.indexOf] in H.
  destruct (N.eqb_spec x c) as [->|Hne].
  - inversion H. exists [], s. repeat split. intros [].
  - destruct (JS.indexOf c s) as [j|]; [|discriminate]. inversion H; subst.
    destruct (IH j eq_refl) as (b & a & -> & Hlen & Hno).
    exists (x :: b), a. repeat split; [cbn; congruence|].
    intros [Hx|Hin]; [congruence | exact (Hno Hin)].
Qed.

Lemma indexOf_none c s : JS.indexOf c s = None -> ~ In c s.
Proof.
  induction s as [|x s IH]; intros H; [intros []|]. cbn [JS.indexOf] in H.
  destruct (N.eqb_spec x c) as [->|Hne]; [discriminate|].
  destruct (JS.indexOf c s); [discriminate|].
  intros [Hx|Hin]; [congruence | exact (IH eq_refl Hin)].
Qed.

Lemma lastIndexOf_none c s : JS.lastIndexOf c s = None <-> ~ In c s.
Proof.
  induction s as [|x s IH]; [split; [intros _ [] | reflexivity]|].
  cbn [JS.lastIndexOf]. destruct (JS.lastIndexOf c s) as [j|].
  - split; [discriminate|]. intros Hno. exfalso.
    assert (Hs : ~ In c s) by (intros Hin; apply Hno; right; exact Hin).
    apply IH in Hs. discriminate.
  - destruct (N.eqb_spec x c) as [->|Hne].
    + split; [discriminate | intros Hno; contradiction Hno; left; reflexivity].
    + split; [|reflexivity]. intros _ [Hx|Hin]; [congruence|].
      exact (proj1 IH eq_refl Hin).
Qed.

Lemma lastIndexOf_app c before after :
  ~ In c after -> JS.lastIndexOf c (before ++ c :: after) = Some (length before).
Proof.
  intros Hno. induction before as [|x before IH]; cbn [app JS.lastIndexOf length].
  - rewrite (proj2 (lastIndexOf_none c after) Hno), N.eqb_refl. reflexivity.
  - rewrite IH. reflexivity.
Qed.

Lemma lastIndexOf_split c s j :
  JS.lastIndexOf c s = Some j ->
  exists before after, s = before ++ c :: after /\ length before = j /\ ~ In c after.
Proof.
  revert j. induction s as [|x s IH]; intros j H; [discriminate|].
  cbn [JS.lastIndexOf] in H. destruct (JS.lastIndexOf c s) as [k|] eqn:Hk.
  - inversion H; subst. destruct (IH k eq_refl) as (b & a & -> & Hlen & Hno).
    exists (x :: b), a. repeat split; [cbn; congruence | exact Hno].
  - destruct (N.eqb_spec x c) as [->|Hne]; [|discriminate]. inversion H; subst.
    exists [], s. repeat split. apply lastIndexOf_none. exact Hk.
Qed.

Lemma later_suffix {A} (c : A) before after b a :
  ~ In c before -> before ++ c :: after = b ++ c :: a -> exists mid, after = mid ++ a.
Proof.
  revert b. induction before as [|y before IH]; intros b Hno Heq.
  - destruct b as [|x b]; cbn [app] in Heq; inversion Heq; subst.
    + exists []. reflexivity.
    + eexists (b ++ [_]). rewrite <- app_assoc. reflexivity.
  - destruct b as [|x b]; cbn [app] in Heq; inversion Heq; subst.
    + contradiction Hno. left. reflexivity.
    + apply (IH b); [intros Hin; apply Hno; right; exact Hin | assumption].
Qed.

Lemma skipn_exact {A} (before after : list A) :
  skipn (length before) (before ++ after) = after.
Proof. induction before; [reflexivity | assumption]. Qed.

Lemma firstn_exact {A} (before after : list A) :
  firstn (length before) (before ++ after) = before.
Proof. induction before as [|x b IH]; [reflexivity | cbn; rewrite IH; reflexivity]. Qed.

Lemma skipn_after {A} (c : A) before after :
  skipn (S (length before)) (before ++ c :: after) = after.
Proof. induction before; [reflexivity | assumption]. Qed.

Lemma firstn_through {A} (c : A) l after :
  firstn (length l + 1) (l ++ c :: after) = l ++ [c].
Proof. induction l as [|x l IH]; [reflexivity | cbn; rewrite IH; reflexivity]. Qed.

Lemma firstn_before {A} (c : A) before after :
  firstn (length before) (before ++ c :: after) = before.
Proof. apply firstn_exact. Qed.

(** X27.  The JSON candidate cut out of a reply runs from the first opening
    brace of the text to its last closing brace: nothing before it has an
    opening brace and nothing after it a closing one.  There is no candidate
    exactly when no closing brace comes after an opening brace. *)
Theorem json_candidate_is_first_to_last_brace (text : str) :
  match JS.matchBraces text with
  | Some candidate =>
      exists before inner after,
        text = before ++ candidate ++ after
        /\ candidate = 123%N :: inner ++ [125%N]
        /\ ~ In 123%N before
        /\ ~ In 125%N after
  | None =>
      forall before after, text = before ++ 123%N :: after -> ~ In 125%N after
  end.
Proof.
  unfold JS.matchBraces. destruct (JS.indexOf 123%N text) as [i|] eqn:Hi.
  - destruct (indexOf_split _ _ _ Hi) as (before & rest & -> & Hlen & Hno). subst i.
    rewrite skipn_after.
    destruct (JS.lastIndexOf 125%N rest) as [j|] eqn:Hj; cbv beta iota.
    + destruct (lastIndexOf_split _ _ _ Hj) as (inner & after & -> & Hlen & Hno'). subst j.
      assert (Hcut : JS.slice (before ++ 123%N :: inner ++ 125%N :: after)
                       (length before) (S (length before) + S (length inner))
                     = 123%N :: inner ++ [125%N]).
      { unfold JS.slice.
        assert (Hn : forall a b : nat, S a + S b - a = S (b + 1)) by (intros; lia).
        rewrite Hn, skipn_exact. cbn [firstn]. rewrite firstn_through. reflexivity. }
      exists before, inner, after.
      split; [|split; [exact Hcut | split; assumption]].
      transitivity (before ++ (123%N :: inner ++ [125%N]) ++ after);
        [cbn [app]; rewrite <- app_assoc; reflexivity|].
      f_equal. f_equal. symmetry. exact Hcut.
    + intros b a Heq Hin. destruct (later_suffix _ _ _ _ _ Hno Heq) as (mid & ->).
      apply lastIndexOf_none in Hj. apply Hj. apply in_or_app. right. exact Hin.
  - intros b a Heq. apply indexOf_none in Hi. contradiction Hi.
    rewrite Heq. apply in_or_app. right. left. reflexivity.
Qed.

(** X28.  The title of an upload is the file name without its last
    extension: what follows the last dot is dropped with the dot when it is
    not empty and has no slash.  A name without a dot, a name ending in a
    dot and a name with a slash after its last dot are kept whole. *)
Theorem title_drops_the_last_extension :
  (forall name : str, ~ In 46%N name -> titleOf name = name)
  /\ (forall stem ext : str,
        ext <> [] -> ~ In 46%N ext -> ~ In 47%N ext ->
        titleOf (stem ++ 46%N :: ext) = stem)
  /\ (forall stem : str, titleOf (stem ++ [46%N]) = stem ++ [46%N])
  /\ (forall stem ext : str,
        ~ In 46%N ext -> In 47%N ext ->
        titleOf (stem ++ 46%N :: ext) = stem ++ 46%N :: ext).
Proof.
  assert (Hcut : forall stem ext : str,
            ~ In 46%N ext ->
            titleOf (stem ++ 46%N :: ext)
            = if JS.truthy ext && negb (existsb (N.eqb 47) ext)
              then stem else stem ++ 46%N :: ext).
  { intros stem ext Hno. unfold titleOf.
    pose proof (lastIndexOf_app 46%N stem ext Hno) as Hlast.
    unfold JS.str, JS.char in *. rewrite Hlast.
    rewrite skipn_after, firstn_before. reflexivity. }
  split; [|split; [|split]].
  - intros name Hno. unfold titleOf.
    rewrite (proj2 (lastIndexOf_none _ name) Hno). reflexivity.
  - intros stem ext Hne Hdot Hslash. pose proof (Hcut stem ext Hdot) as H.
    destruct ext as [|c ext]; [contradiction Hne; reflexivity|]. cbn [JS.truthy andb] in H.
    destruct (existsb (N.eqb 47) (c :: ext)) eqn:Hex; [|exact H].
    apply existsb_exists in Hex. destruct Hex as (x & Hin & Hx).
    apply N.eqb_eq in Hx. subst x. contradiction (Hslash Hin).
  - intros stem. exact (Hcut stem [] (fun H => H)).
  - intros stem ext Hdot Hslash. pose proof (Hcut stem ext Hdot) as H.
    assert (Hex : existsb (N.eqb 47) ext = true)
      by (apply existsb_exists; exists 47%N; split; [exact Hslash | reflexivity]).
    rewrite Hex, andb_false_r in H. exact H.
Qed.

End Theory.

(* ------------------------------------------------------------------ *)
(** ** The statements on the sample inputs *)

(** C1.  The generation service answers with prose that has braces in it.
    The text between the first opening and the last closing brace is handed
    to [JSON.parse], which rejects it; both ask routes then answer 500 with
    an error body, while the same prose without braces is returned as the
    answer. *)
Theorem C1_brace_prose_is_answered_with_an_error :
  let E := Sample.env Sample.onePage Sample.braces in
  let w := Sample.processed Sample.onePage in
  JS.matchBraces Sample.braces = Some (lit "{unknown}")
  /\ JSON_parse E (lit "{unknown}") = None
  /\ fst (documentAskRoute E 1 Sample.question w) = Ok failedToAnswer
  /\ fst (qaAskRoute E Sample.question w) = Ok failedToAnswer
  /\ fst (qaAskRoute (Sample.env Sample.onePage Sample.prose) Sample.question w)
     = Ok (mkResponse 200 (Some (plainAnswer Sample.prose))).
Proof. vm_compute. repeat split. Qed.

(** C2, as stated, fails on a page of 2001 code units: the chunk keeps 2000
    of them, so the claimed token count is 500, and the stored one is 501. *)
Lemma C2_token_count_counterexample :
  exists e,
    embeddings (store (Sample.processed Sample.long)) = [e]
    /\ chunkText e = JS.prefix 2000 Sample.longText
    /\ chunkIndex e = 0
    /\ JS.ceilDiv (length (chunkText e)) 4 = 500
    /\ tokenCount e = Some 501
    /\ tokenCount e <> Some (JS.ceilDiv (length (chunkText e)) 4).
Proof.
  eexists. split; [vm_compute; reflexivity|].
  vm_compute. repeat split. discriminate.
Qed.

Lemma C2_witness :
  nth_error (plannedTexts (Sample.env Sample.onePage []) (store Sample.uploaded) 1) 0
  = Some (lit "Annual report 2023")
  /\ nonBlank (lit "Annual report 2023") = true
  /\ exists created e,
       embeddings (store (Sample.processed Sample.onePage))
       = embeddings (store Sample.uploaded) ++ created
       /\ In e created
       /\ chunkText e = lit "Annual report 2023"
       /\ chunkIndex e = 0
       /\ tokenCount e = Some (JS.ceilDiv (length (lit "Annual report 2023")) 4).
Proof.
  split; [reflexivity|]. split; [reflexivity|].
  destruct (C2_one_chunk_per_indexed_page (Sample.env Sample.onePage []) 1
              Sample.uploaded 0 (lit "Annual report 2023") eq_refl eq_refl)
    as (created & H1 & Htaken & _).
  destruct (Htaken eq_refl) as (e & H2 & _ & _ & _ & _ & H3 & H4 & H5 & _).
  exists created, e. repeat split; try assumption. exact (H3 eq_refl).
Defined.

(** C3, as stated, fails when a page in the middle is blank: the chunk
    indices of the document are 0 and 2. *)
Lemma C3_gap_counterexample :
  map chunkIndex (chunksOf (store (Sample.processed Sample.gappy)) 1) = [0; 2]
  /\ ~ exists k,
         map chunkIndex (chunksOf (store (Sample.processed Sample.gappy)) 1) = seq 0 k.
Proof.
  assert (H : map chunkIndex (chunksOf (store (Sample.processed Sample.gappy)) 1) = [0; 2])
    by (vm_compute; reflexivity).
  split; [exact H|]. rewrite H. intros [k Hk].
  destruct k as [|[|[|k]]]; discriminate.
Qed.

Lemma C3_witness :
  chunksOf (store Sample.uploaded) 1 = []
  /\ map chunkIndex (chunksOf (store (Sample.processed Sample.gappy)) 1)
     = map fst (indexedFrom 0
                  (plannedTexts (Sample.env Sample.gappy []) (store Sample.uploaded) 1))
  /\ map chunkIndex
       (chunksOf (store (snd (processDocument (Sample.env Edge.torn []) 1 Sample.uploaded))) 1)
     = [0].
Proof.
  split; [reflexivity|]. split.
  - exact (proj1 (proj2 (proj2 (proj2 (proj2 (proj2
             (C3_chunk_bounds_and_indices (Sample.env Sample.gappy []) 1
                Sample.uploaded eq_refl)))))) eq_refl).
  - rewrite (proj1 (proj2 (C3_chunk_bounds_and_indices (Sample.env Edge.torn []) 1
                             Sample.uploaded eq_refl))).
    reflexivity.
Defined.

(** C4, as stated, fails on the same input: the stored pages are numbered 1
    and 3. *)
Lemma C4_gap_counterexample :
  map pageNumber (pagesOf (store (Sample.processed Sample.gappy)) 1) = [1; 3]
  /\ ~ exists k,
         map pageNumber (pagesOf (store (Sample.processed Sample.gappy)) 1) = seq 1 k.
Proof.
  assert (H : map pageNumber (pagesOf (store (Sample.processed Sample.gappy)) 1) = [1; 3])
    by (vm_compute; reflexivity).
  split; [exact H|]. rewrite H. intros [k Hk].
  destruct k as [|[|[|k]]]; discriminate.
Qed.

Lemma C4_witness :
  pagesOf (store Sample.uploaded) 1 = []
  /\ StronglySorted lt
       (map pageNumber (pagesOf (store (Sample.processed Sample.gappy)) 1))
  /\ map pageNumber
       (pagesOf (store (snd (processDocument (Sample.env Edge.torn []) 1 Sample.uploaded))) 1)
     = [1].
Proof.
  split; [reflexivity|]. split.
  - exact (proj1 (proj2 (proj2 (C4_page_numbers (Sample.env Sample.gappy []) 1
                                  Sample.uploaded eq_refl)))).
  - rewrite (proj1 (C4_page_numbers (Sample.env Edge.torn []) 1 Sample.uploaded eq_refl)).
    reflexivity.
Defined.



Lemma C6_witness :
  lookup (store Sample.uploaded) 1 = Some Sample.report
  /\ fileType Sample.report = lit "application/pdf"
  /\ exists d',
       lookup (store (Sample.processed PdfThrows)) 1 = Some d'
       /\ processingStatus d' = completed.
Proof.
  split; [reflexivity|]. split; [reflexivity|].
  destruct (C6_unparseable_pdf_completes (Sample.env PdfThrows []) 1 Sample.uploaded
              Sample.report [] eq_refl eq_refl eq_refl eq_refl)
    as (_ & _ & _ & d' & H1 & H2 & _).
  exists d'. split; assumption.
Defined.

Lemma C7_witness :
  lookup (store (Sample.processed Sample.gappy)) 1 <> None
  /\ pagesOf (store (Sample.processed Sample.gappy)) 1 <> []
  /\ pagesOf (store (snd (deleteRoute 1 (Sample.processed Sample.gappy)))) 1 = []
  /\ chunksOf (store (snd (deleteRoute 1 (Sample.processed Sample.gappy)))) 1 = [].
Proof.
  split; [vm_compute; discriminate|]. split; [vm_compute; discriminate|].
  destruct (lookup (store (Sample.processed Sample.gappy)) 1) as [d|] eqn:Hd;
    [|vm_compute in Hd; discriminate].
  destruct (C7_delete_cascades 1 (Sample.processed Sample.gappy) d Hd)
    as (_ & _ & H1 & H2 & _).
  split; assumption.
Defined.



Lemma C10_witness :
  lookup (store (Sample.processed Sample.onePage)) 1 <> None
  /\ exists d d1,
       lookup (store (Sample.processed Sample.onePage)) 1 = Some d
       /\ lookup (store (snd (reprocessRoute 1 (Sample.processed Sample.onePage)))) 1
          = Some d1
       /\ processingStatus d = completed
       /\ processingStatus d1 = pending
       /\ keepsOtherFields d d1.
Proof.
  split; [vm_compute; discriminate|].
  assert (Hd : exists d, lookup (store (Sample.processed Sample.onePage)) 1 = Some d
                         /\ processingStatus d = completed)
    by (vm_compute; eexists; split; reflexivity).
  destruct Hd as (d & Hd & Hs).
  destruct (C10_reprocess_reset_frame (Sample.env Sample.onePage []) 1
              (Sample.processed Sample.onePage) d Hd)
    as (_ & (d1 & H1 & H2 & _ & H3) & _).
  exists d, d1. repeat (split; [assumption|]). assumption.
Defined.

(* ------------------------------------------------------------------ *)
(** ** The further statements on sample inputs *)

Lemma unreadable_file_witness :
  lookup (store Sample.uploaded) 1 = Some Sample.report
  /\ objectFile Edge.unreadable (filePath Sample.report) = FetchError (lit "Object not found")
  /\ exists d',
       lookup (store (snd (processDocument Edge.unreadable 1 Sample.uploaded))) 1 = Some d'
       /\ processingStatus d' = failed
       /\ errorMessage d' = Some (lit "Object not found")
       /\ title d' = title Sample.report.
Proof.
  split; [reflexivity|]. split; [reflexivity|].
  destruct (unreadable_file_fails_the_document Edge.unreadable 1 Sample.uploaded
              Sample.report (lit "Object not found") eq_refl eq_refl)
    as (_ & _ & _ & _ & Hstored & _).
  destruct (Hstored (lit "Object not found") eq_refl) as (_ & Hrow & _).
  eexists. split; [exact Hrow|]. repeat split.
Defined.

Lemma readable_file_witness :
  lookup (store Sample.uploaded) 1 = Some Sample.report
  /\ accepts (extract (Sample.env Sample.gappy []) (fileType Sample.report) []) = true
  /\ accepts (extract (Sample.env Edge.nul []) (fileType Sample.report) []) = false
  /\ (exists d',
        lookup (store (Sample.processed Sample.gappy)) 1 = Some d'
        /\ processingStatus d' = completed)
  /\ (exists d',
        lookup (store (Sample.processed Edge.nul)) 1 = Some d'
        /\ processingStatus d' = failed
        /\ errorMessage d' <> None
        /\ fullText d' = None)
  /\ documentPages (store (Sample.processed Edge.nul)) = []
  /\ embeddings (store (Sample.processed Edge.nul)) = [].
Proof.
  split; [reflexivity|]. split; [reflexivity|]. split; [reflexivity|].
  split; [|split; [|split; reflexivity]].
  - destruct (readable_file_completes_or_fails (Sample.env Sample.gappy []) 1
                Sample.uploaded Sample.report [] eq_refl eq_refl)
      as (_ & _ & Hok & _).
    destruct (Hok eq_refl) as ((label & _ & Hrow) & _).
    eexists. split; [exact Hrow | reflexivity].
  - destruct (readable_file_completes_or_fails (Sample.env Edge.nul []) 1
                Sample.uploaded Sample.report [] eq_refl eq_refl)
      as (_ & _ & _ & Hbad & _).
    destruct (Hbad eq_refl) as (message & Hrow & _).
    eexists. split; [exact Hrow|]. split; [reflexivity|].
    split; [discriminate | reflexivity].
Defined.

Lemma missing_run_witness :
  lookup (store Sample.uploaded) 7 = None
  /\ processDocument (Sample.env Sample.onePage []) 7 Sample.uploaded
     = (Ok tt, Sample.uploaded).
Proof.
  split; [reflexivity|].
  exact (run_on_missing_document_changes_nothing (Sample.env Sample.onePage []) 7
           Sample.uploaded eq_refl).
Defined.

Lemma other_file_types_witness :
  lookup (store Edge.withSheet) 2 = Some Edge.sheet
  /\ JS.eqb (fileType Edge.sheet) (lit "application/pdf") = false
  /\ exists notice,
       extract (Sample.env Sample.onePage []) (fileType Edge.sheet) []
       = mkExtraction notice 1 [notice].
Proof.
  split; [reflexivity|]. split; [reflexivity|].
  destruct (other_file_types_get_one_notice_page (Sample.env Sample.onePage []) 2
              Edge.withSheet Edge.sheet [] eq_refl eq_refl eq_refl)
    as (notice & _ & _ & _ & H & _).
  exists notice. exact H.
Defined.

Lemma reprocess_clears_witness :
  pagesOf (store (Sample.processed Sample.gappy)) 1 <> []
  /\ pagesOf (store (snd (reprocessRoute 1 (Sample.processed Sample.gappy)))) 1 = []
  /\ chunksOf (store (snd (reprocessRoute 1 (Sample.processed Sample.gappy)))) 1 = [].
Proof.
  split; [vm_compute; discriminate|].
  assert (Hd : exists d, lookup (store (Sample.processed Sample.gappy)) 1 = Some d)
    by (vm_compute; eexists; reflexivity).
  destruct Hd as (d & Hd).
  destruct (reprocess_clears_pages_and_chunks 1 (Sample.processed Sample.gappy) d Hd)
    as (_ & H1 & H2 & _).
  split; assumption.
Defined.

Lemma reprocess_then_run_witness :
  lookup (store (Sample.processed Sample.gappy)) 1 <> None
  /\ StronglySorted lt
       (map chunkIndex
          (chunksOf
             (store (snd (processDocument (Sample.env Sample.gappy []) 1
                            (snd (reprocessRoute 1 (Sample.processed Sample.gappy))))))
             1)).
Proof.
  split; [vm_compute; discriminate|].
  assert (Hd : exists d, lookup (store (Sample.processed Sample.gappy)) 1 = Some d)
    by (vm_compute; eexists; reflexivity).
  destruct Hd as (d & Hd).
  exact (proj1 (proj2 (proj2
           (reprocess_then_run_replaces_the_rows (Sample.env Sample.gappy []) 1
              (Sample.processed Sample.gappy) d Hd)))).
Defined.

Lemma reprocess_missing_witness :
  lookup (store Sample.uploaded) 7 = None
  /\ fst (reprocessRoute 7 Sample.uploaded)
     = Ok (mkResponse 404 (Some (JObj [(lit "error", JStr (lit "Document not found"))]))).
Proof.
  split; [reflexivity|].
  rewrite (reprocess_of_missing_document_is_404 7 Sample.uploaded eq_refl). reflexivity.
Defined.

Lemma accepted_types_witness :
  fileFilter (lit "text/csv") = true
  /\ fileFilter (lit "text/plain") = false
  /\ extractedText (extract (Sample.env Sample.onePage []) (lit "text/csv") [])
     = lit "Unsupported document type for text extraction.".
Proof.
  split; [reflexivity|]. split; [reflexivity|].
  destruct (accepted_types_and_their_extraction (Sample.env Sample.onePage [])
              (lit "text/csv") [] eq_refl)
    as [[H _]|[[[H|H] _]|[[[H|H] _]|[_ H]]]]; try discriminate H.
  rewrite H. reflexivity.
Defined.

Lemma empty_input_witness :
  JS.truthy [] = false
  /\ qaAskRoute (Sample.env Sample.onePage []) [] Sample.uploaded
     = (Ok (badRequest "Question is required"), Sample.uploaded).
Proof.
  split; [reflexivity|].
  exact (proj1 (proj2 (empty_input_is_rejected_first (Sample.env Sample.onePage []) 1 []
                         Sample.uploaded eq_refl))).
Defined.

Lemma document_ask_without_text_witness :
  JS.truthy Sample.question = true
  /\ documentAskRoute (Sample.env Sample.onePage Sample.prose) 1 Sample.question
       Sample.uploaded
     = (Ok noTextAnswer, Sample.uploaded).
Proof.
  split; [reflexivity|].
  apply (proj2 (document_ask_without_text (Sample.env Sample.onePage Sample.prose) 1
                  Sample.question Sample.uploaded eq_refl));
    [discriminate | reflexivity].
Defined.


Lemma document_plain_reply_witness :
  filter hasText (orderedPages (store (Sample.processed Sample.onePage)) 1) <> []
  /\ fst (documentAskRoute (Edge.always Sample.prose) 1 Sample.question
            (Sample.processed Sample.onePage))
     = Ok (mkResponse 200 (Some (answerObject Sample.prose []))).
Proof.
  assert (Hpages : filter hasText (orderedPages (store (Sample.processed Sample.onePage)) 1)
                   <> []) by (vm_compute; discriminate).
  split; [exact Hpages|].
  assert (Hd : exists d, lookup (store (Sample.processed Sample.onePage)) 1 = Some d)
    by (vm_compute; eexists; reflexivity).
  destruct Hd as (d & Hd).
  rewrite (document_ask_keeps_a_plain_reply (Edge.always Sample.prose) 1 Sample.question
             (Sample.processed Sample.onePage) d Sample.prose
             eq_refl Hd Hpages (fun _ => eq_refl) eq_refl).
  reflexivity.
Defined.


Lemma stored_pages_witness :
  pagesOf (store Sample.uploaded) 1 = []
  /\ nth_error (plannedTexts (Sample.env Sample.gappy []) (store Sample.uploaded) 1) 2
     = Some Edge.lastSlice
  /\ nonBlank Edge.lastSlice = true
  /\ exists p,
       fst (getDocumentPage 1 3 (Sample.processed Sample.gappy)) = Ok (Some p)
       /\ pageText p = Some Edge.lastSlice.
Proof.
  split; [reflexivity|]. split; [reflexivity|]. split; [reflexivity|].
  destruct (proj1 (stored_pages_are_found_by_number (Sample.env Sample.gappy []) 1
                     Sample.uploaded 2 Edge.lastSlice eq_refl eq_refl) eq_refl eq_refl)
    as (p & Hrun & _ & Hp).
  exists p. split; [exact (f_equal fst Hrun) | exact (Hp eq_refl)].
Defined.

(** A page text with a NUL code unit is refused: nothing of the document is
    stored and the run ends failed.  A page text refused after another was
    taken leaves the rows of the first. *)
Example refused_page_texts :
  map pageNumber (documentPages (store (Sample.processed Edge.nul))) = []
  /\ option_map processingStatus (lookup (store (Sample.processed Edge.nul)) 1)
     = Some failed
  /\ map pageText (documentPages (store (Sample.processed Edge.torn)))
     = [Some (lit "Intro")]
  /\ map chunkText (embeddings (store (Sample.processed Edge.torn))) = [lit "Intro"]
  /\ option_map processingStatus (lookup (store (Sample.processed Edge.torn)) 1)
     = Some failed.
Proof. vm_compute. repeat split. Qed.

(** A surrogate pair cut by the limit of 2000 code units: the page keeps the
    pair, the chunk ends in U+FFFD and is not the first 2000 code units of
    the page text. *)
Example split_pair_in_the_chunk :
  map pageText (documentPages (store (Sample.processed Edge.split)))
  = [Some Edge.splitText]
  /\ map chunkText (embeddings (store (Sample.processed Edge.split)))
     = [repeat 97%N 1999 ++ [Pg.replacement]]
  /\ JS.prefix 2000 Edge.splitText = repeat 97%N 1999 ++ [55357%N].
Proof. vm_compute. repeat split. Qed.
